(** * net_models: routed-port models and the Excel loader

    A shallow embedding of
    - [net_models/models/interfaces/L3InterfaceModels.py] (the pydantic models
      of a routed port: IPv4 container, OSPF key and config, routed port), and
    - [net_models/loaders/ExcelLoader.py] (the row-by-row loaders for physical
      links, L3 links and BGP neighbors),
    followed by the properties of the specification that concern them.

    Python objects that are shared and mutated in place are modelled by an
    explicit store: interfaces and hosts are reached through their identity
    (their name), OSPF config objects through a location of an object heap.
    Exceptions are values of [exn]; a loader operation is a state transformer
    whose state survives the exception, as the mutations of a Python method
    survive the exception that interrupts it. *)

From Stdlib Require Import NArith ZArith List String Bool Lia Permutation.
From stdpp Require Import gmap strings list fin_maps pretty.

Open Scope string_scope.

(** ** Python runtime: exceptions and results *)

Module Py.

(** The assertion that failed inside a pydantic validator. *)
Inductive assertion :=
  | Overlaps (other_address address : N * N)
      (* "Address {other} overlaps with {address}" *)
  | MultiplePrimary
      (* "Multiple 'primary addresses' found, only one allowed." *)
  | AreaRequired
      (* "When 'process_id' is set, 'area' is required." *)
  | ProcessIdRequired
      (* "When 'area' is set, 'process_id' is required." *)
  | KeychainMissing
  | KeychainNotAllowed
  | KeyNotAllowed
  | NotAssignable
  | MaxLength (limit : nat)
  | NotInList
      (* the ValueError of list.remove(x), "x not in list" *).

Inductive exn :=
  | ValidationError (errors : list assertion)
  | AttributeError (attr : string)   (* 'NoneType' object has no attribute attr *)
  | IndexError
  | KeyError (key : string)
  | UnknownEntity (name : string)    (* a lookup of the inventory that misses *)
  | DanglingReference
      (* no Python counterpart: a reference that the object store does not
         hold, which no operation below produces *).

Inductive result (A : Type) :=
  | Ok (a : A)
  | Raise (e : exn).
Arguments Ok {A} a.
Arguments Raise {A} e.

Definition is_ok {A} (r : result A) : bool :=
  match r with Ok _ => true | Raise _ => false end.

Definition is_validation_error {A} (r : result A) : bool :=
  match r with Raise (ValidationError _) => true | _ => false end.

#[global] Instance assertion_eq_dec : EqDecision assertion.
Proof. solve_decision. Defined.

#[global] Instance exn_eq_dec : EqDecision exn.
Proof. solve_decision. Defined.

(** [l.remove(x)]: drops the first item equal to [x]; [None] stands for the
    ValueError raised when there is none. *)
Fixpoint remove `{EqDecision A} (x : A) (l : list A) : option (list A) :=
  match l with
  | [] => None
  | y :: l' =>
      if decide (y = x) then Some l'
      else match remove x l' with
           | Some r => Some (y :: r)
           | None => None
           end
  end.

(** [l[0]] and [l[-1]]. *)
Definition index_first {A} (l : list A) : result A :=
  match l with
  | [] => Raise IndexError
  | x :: _ => Ok x
  end.

Definition index_last {A} (l : list A) : result A :=
  match last l with
  | None => Raise IndexError
  | Some x => Ok x
  end.

(** [range(a, b)]. *)
Definition range (a b : N) : list N :=
  map (fun k => (a + N.of_nat k)%N) (seq 0 (N.to_nat (b - a))).

(** A method that mutates its object and may raise: the state reached when
    the exception is raised is the state the caller is left with. *)
Definition M (S A : Type) : Type := S -> S * result A.

Definition ret {S A} (a : A) : M S A := fun s => (s, Ok a).

Definition raise {S A} (e : exn) : M S A := fun s => (s, Raise e).

Definition bind {S A B} (m : M S A) (k : A -> M S B) : M S B :=
  fun s =>
    match m s with
    | (s', Ok a) => k a s'
    | (s', Raise e) => (s', Raise e)
    end.

Definition get {S} : M S S := fun s => (s, Ok s).

Definition modify {S} (f : S -> S) : M S unit := fun s => (f s, Ok tt).

Definition lift {S A} (r : result A) : M S A := fun s => (s, r).

Definition when {S} (b : bool) (m : M S unit) : M S unit :=
  if b then m else ret tt.

(** [for x in l: body x] *)
Fixpoint for_each {S A} (l : list A) (body : A -> M S unit) : M S unit :=
  match l with
  | [] => ret tt
  | x :: l' => bind (body x) (fun _ => for_each l' body)
  end.

Declare Scope py_scope.
Delimit Scope py_scope with py.
Notation "x <- m ;; k" := (bind m (fun x => k))
  (at level 100, m at next level, right associativity) : py_scope.
Notation "m ;; k" := (bind m (fun _ => k))
  (at level 100, right associativity) : py_scope.

End Py.
Export Py.

(** ** pydantic: root validators

    A root validator of the models below either raises an [AssertionError] or
    returns the values it was given.  pydantic runs every root validator and
    gathers the failures in one [ValidationError]. *)

Module Pydantic.

Definition root_validator (V : Type) := V -> option assertion.

Definition validate_model {V} (validators : list (root_validator V)) (values : V)
  : result V :=
  match omap (fun validator => validator values) validators with
  | [] => Ok values
  | errors => Raise (ValidationError errors)
  end.

(** [constr(max_length=n)] *)
Definition constr_max_length (n : nat) (value : string) : result string :=
  if (String.length value <=? n)%nat then Ok value
  else Raise (ValidationError [MaxLength n]).

End Pydantic.

(** ** The [ipaddress] module of the Python library (IPv4 part) *)

Module ipaddress.

Open Scope N_scope.

Definition ALL_ONES : N := N.ones 32.   (* 2**32 - 1 *)
Definition max_prefixlen : N := 32.

(** [_ip_int_from_prefix]: the netmask of a prefix length. *)
Definition ip_int_from_prefix (prefixlen : N) : N :=
  N.lxor ALL_ONES (N.shiftr ALL_ONES prefixlen).

Module IPv4Network.
Record t := { network_address : N; prefixlen : N }.

Definition netmask (self : t) : N := ip_int_from_prefix (prefixlen self).
Definition hostmask (self : t) : N := N.lxor (netmask self) ALL_ONES.
Definition broadcast_address (self : t) : N :=
  N.lor (network_address self) (hostmask self).

(** [other in self] for an address [other]. *)
Definition contains (self : t) (other : N) : bool :=
  N.land other (netmask self) =? network_address self.

(** [self.hosts()]: [__iter__] for a /31, the single address for a /32,
    otherwise everything between network and broadcast address. *)
Definition hosts (self : t) : list N :=
  if prefixlen self =? max_prefixlen - 1 then
    range (network_address self) (broadcast_address self + 1)
  else if prefixlen self =? max_prefixlen then
    [network_address self]
  else
    range (network_address self + 1) (broadcast_address self).

#[global] Instance IPv4Network_eq_dec : EqDecision t.
Proof. solve_decision. Defined.
End IPv4Network.

Module IPv4Interface.
Record t := { ip : N; prefixlen : N }.

(** [self.network]: the network of the interface address (not strict). *)
Definition network (self : t) : IPv4Network.t :=
  {| IPv4Network.network_address := N.land (ip self) (ip_int_from_prefix (prefixlen self));
     IPv4Network.prefixlen := prefixlen self |}.

#[global] Instance IPv4Interface_eq_dec : EqDecision t.
Proof. solve_decision. Defined.
End IPv4Interface.

(** The integer of a dotted quad [a.b.c.d]. *)
Definition dotted (a b c d : N) : N :=
  N.lor (N.shiftl a 24) (N.lor (N.shiftl b 16) (N.lor (N.shiftl c 8) d)).

End ipaddress.

(** ** net_models/models/interfaces/L3InterfaceModels.py

    A model instance is a record of its (typed) field values; its constructor
    [new] runs the validators of the class.  The field-level type checks of
    pydantic (int, Literal, conint) are taken as done: the records hold typed
    values. *)

Module L3InterfaceModels.

Import ipaddress Pydantic.

(** The validators the module imports from [net_models.validators], a module
    that is not embedded here: they are a parameter of the model. *)
Class Validators := {
  ipv4_is_assignable : IPv4Interface.t -> bool
}.

Module InterfaceIPv4Address.
Record t := { address : IPv4Interface.t; secondary : option bool }.

#[global] Instance InterfaceIPv4Address_eq_dec : EqDecision t.
Proof. solve_decision. Defined.

(** [InterfaceIPv4Address(address=..., secondary=...)] with the field
    validator [_validate_address]. *)
Definition new `{Validators} (address : IPv4Interface.t) (secondary : option bool)
  : result t :=
  if ipv4_is_assignable address
  then Ok {| address := address; secondary := secondary |}
  else Raise (ValidationError [NotAssignable]).
End InterfaceIPv4Address.

Module InterfaceDhcpClientConfig.
Record t := { enabled : option bool }.
End InterfaceDhcpClientConfig.

Module InterfaceIPv4Container.
Record t := {
  addresses : option (list InterfaceIPv4Address.t);
  unnumbered : option string;
  dhcp_client : option InterfaceDhcpClientConfig.t
}.

Definition set_addresses (v : option (list InterfaceIPv4Address.t)) (self : t) : t :=
  {| addresses := v; unnumbered := unnumbered self; dhcp_client := dhcp_client self |}.

Definition show (a : InterfaceIPv4Address.t) : N * N :=
  (IPv4Interface.ip (InterfaceIPv4Address.address a),
   IPv4Interface.prefixlen (InterfaceIPv4Address.address a)).

(** [address.address in other_address.address.network] *)
Definition address_in_network_of (address other_address : InterfaceIPv4Address.t) : bool :=
  IPv4Network.contains
    (IPv4Interface.network (InterfaceIPv4Address.address other_address))
    (IPv4Interface.ip (InterfaceIPv4Address.address address)).

(** The inner loop [for other_address in other_addresses]. *)
Fixpoint scan_others (address : InterfaceIPv4Address.t)
    (other_addresses : list InterfaceIPv4Address.t) : option assertion :=
  match other_addresses with
  | [] => None
  | other_address :: rest =>
      if address_in_network_of address other_address
      then Some (Overlaps (show other_address) (show address))
      else scan_others address rest
  end.

(** The outer loop [for address in addresses], over what is left to visit. *)
Fixpoint scan_addresses (addresses todo : list InterfaceIPv4Address.t)
  : option assertion :=
  match todo with
  | [] => None
  | address :: rest =>
      match remove address addresses with
      | None => Some NotInList
      | Some other_addresses =>
          match scan_others address other_addresses with
          | Some failure => Some failure
          | None => scan_addresses addresses rest
          end
      end
  end.

Definition validate_non_overlapping : root_validator t := fun values =>
  match addresses values with
  | None => None
  | Some addresses => scan_addresses addresses addresses
  end.

(** [x.secondary in [False, None]] *)
Definition is_primary (x : InterfaceIPv4Address.t) : bool :=
  match InterfaceIPv4Address.secondary x with
  | Some true => false
  | Some false | None => true
  end.

Definition validate_single_primary : root_validator t := fun values =>
  match addresses values with
  | None => None
  | Some addresses =>
      if (length addresses =? 1)%nat then None
      else
        let primary_addresses := List.filter is_primary addresses in
        if (1 <? length primary_addresses)%nat then Some MultiplePrimary
        else None
  end.

Definition validators : list (root_validator t) :=
  [validate_non_overlapping; validate_single_primary].

Definition new (addresses : option (list InterfaceIPv4Address.t))
    (unnumbered : option string)
    (dhcp_client : option InterfaceDhcpClientConfig.t) : result t :=
  validate_model validators
    {| addresses := addresses; unnumbered := unnumbered; dhcp_client := dhcp_client |}.

(** Modelled from the spec: [clone] of the base class
    [VendorIndependentBaseModel], defined in [net_models.models] and not
    embedded here: a value copy of the model on which the invariants of the
    class are validated again. *)
Definition clone (self : t) : result t := validate_model validators self.
End InterfaceIPv4Container.

Module KeyOspf.
Record t := { value : string }.

(** The [pre=True] validator of [value]. *)
Definition truncate_value (value : string) : string :=
  if (8 <? String.length value)%nat then substring 0 8 value else value.

(** [KeyOspf(value=...)]: [truncate_value], then [constr(max_length=8)]. *)
Definition new (value : string) : result t :=
  match constr_max_length 8 (truncate_value value) with
  | Ok value => Ok {| value := value |}
  | Raise e => Raise e
  end.
End KeyOspf.

Module InterfaceOspfAuthentication.
Inductive method_literal := message_digest | key_chain | null.

Record t := {
  method : option method_literal;
  keychain : option string;
  key : option KeyOspf.t
}.

Definition is_key_chain (m : option method_literal) : bool :=
  match m with Some key_chain => true | _ => false end.

(** [method not in [None, 'message-digest']] *)
Definition not_none_or_message_digest (m : option method_literal) : bool :=
  match m with None | Some message_digest => false | _ => true end.

Definition validate_keychain_present : root_validator t := fun values =>
  if is_key_chain (method values) && negb (bool_decide (is_Some (keychain values)))
  then Some KeychainMissing
  else if negb (is_key_chain (method values)) && bool_decide (is_Some (keychain values))
  then Some KeychainNotAllowed
  else if not_none_or_message_digest (method values) && bool_decide (is_Some (key values))
  then Some KeyNotAllowed
  else None.

Definition new (method : option method_literal) (keychain : option string)
    (key : option KeyOspf.t) : result t :=
  validate_model [validate_keychain_present]
    {| method := method; keychain := keychain; key := key |}.
End InterfaceOspfAuthentication.

Module InterfaceOspfTimers.
Inductive dead_interval := seconds (n : Z) | minimal.
Record t := { hello : option Z; dead : option dead_interval; retransmit : option Z }.
End InterfaceOspfTimers.

Module InterfaceOspfConfig.
Inductive network_type_literal :=
  broadcast | non_broadcast | point_to_multipoint | point_to_point.
Inductive bfd_value := bfd_bool (b : bool) | strict_mode.

Record t := {
  process_id : option Z;
  area : option Z;
  network_type : option network_type_literal;
  cost : option Z;
  priority : option Z;
  authentication : option InterfaceOspfAuthentication.t;
  timers : option InterfaceOspfTimers.t;
  bfd : option bfd_value
}.

Definition validate_process_and_area : root_validator t := fun values =>
  if bool_decide (is_Some (process_id values)) && bool_decide (area values = None)
  then Some AreaRequired
  else if bool_decide (process_id values = None) && bool_decide (is_Some (area values))
  then Some ProcessIdRequired
  else None.

Definition validators : list (root_validator t) := [validate_process_and_area].

Definition new (process_id area : option Z)
    (network_type : option network_type_literal) (cost priority : option Z)
    (authentication : option InterfaceOspfAuthentication.t)
    (timers : option InterfaceOspfTimers.t) (bfd : option bfd_value) : result t :=
  validate_model validators
    {| process_id := process_id; area := area; network_type := network_type;
       cost := cost; priority := priority; authentication := authentication;
       timers := timers; bfd := bfd |}.

(** Modelled from the spec: [clone] of the base class
    [VendorIndependentBaseModel], defined in [net_models.models] and not
    embedded here: a value copy of the model on which the invariants of the
    class are validated again. *)
Definition clone (self : t) : result t := validate_model validators self.
End InterfaceOspfConfig.

Module InterfaceBfdConfig.
Record t := { template : string }.
End InterfaceBfdConfig.

Module InterfaceRouteportModel.
(** The field [ospf] holds a reference to an [InterfaceOspfConfig] object of
    the object heap (see the loader), all other fields hold values owned by
    the port alone.  The fields [ipv6] and [isis], which no operation below
    reads or writes, are left out. *)
Record t := {
  ipv4 : option InterfaceIPv4Container.t;
  vrf : option string;
  ip_mtu : option Z;
  ospf : option positive;
  bfd : option InterfaceBfdConfig.t
}.

(** [InterfaceRouteportModel()] *)
Definition empty : t :=
  {| ipv4 := None; vrf := None; ip_mtu := None; ospf := None; bfd := None |}.

Definition set_ipv4 (v : option InterfaceIPv4Container.t) (self : t) : t :=
  {| ipv4 := v; vrf := vrf self; ip_mtu := ip_mtu self; ospf := ospf self; bfd := bfd self |}.
Definition set_vrf (v : option string) (self : t) : t :=
  {| ipv4 := ipv4 self; vrf := v; ip_mtu := ip_mtu self; ospf := ospf self; bfd := bfd self |}.
Definition set_ospf (v : option positive) (self : t) : t :=
  {| ipv4 := ipv4 self; vrf := vrf self; ip_mtu := ip_mtu self; ospf := v; bfd := bfd self |}.
Definition set_bfd (v : option InterfaceBfdConfig.t) (self : t) : t :=
  {| ipv4 := ipv4 self; vrf := vrf self; ip_mtu := ip_mtu self; ospf := ospf self; bfd := v |}.

(** [self.ipv4.<...>]: the routed port has no container. *)
Definition the_ipv4 (attr : string) : M t InterfaceIPv4Container.t := fun self =>
  match ipv4 self with
  | Some container => (self, Ok container)
  | None => (self, Raise (AttributeError attr))
  end.

Open Scope py_scope.

(** The argument of [add_ipv4_address]:
    [Union[InterfaceIPv4Address, ipaddress.IPv4Interface]]. *)
Definition address_argument : Type := InterfaceIPv4Address.t + IPv4Interface.t.

(** [if not isinstance(address, InterfaceIPv4Address):
        address = InterfaceIPv4Address(address=address)] *)
Definition to_interface_address `{Validators} (address : address_argument)
  : result InterfaceIPv4Address.t :=
  match address with
  | inl address => Ok address
  | inr interface => InterfaceIPv4Address.new interface None
  end.

Definition add_ipv4_address `{Validators} (address : address_argument) : M t unit :=
  self <- get ;;
  (* if self.ipv4 is None: self.ipv4 = InterfaceIPv4Container() *)
  when (bool_decide (ipv4 self = None))
    (container <- lift (InterfaceIPv4Container.new None None None) ;;
     modify (set_ipv4 (Some container))) ;;
  (* if self.ipv4.addresses is None: self.ipv4.addresses = [] *)
  container <- the_ipv4 "addresses" ;;
  when (bool_decide (InterfaceIPv4Container.addresses container = None))
    (modify (set_ipv4 (Some (InterfaceIPv4Container.set_addresses (Some []) container)))) ;;
  (* if not isinstance(address, InterfaceIPv4Address): ... *)
  address <- lift (to_interface_address address) ;;
  (* self.ipv4.addresses.append(address): the list is changed in place *)
  container <- the_ipv4 "addresses" ;;
  addresses <- match InterfaceIPv4Container.addresses container with
               | Some addresses => ret addresses
               | None => raise (AttributeError "append")
               end ;;
  modify (set_ipv4 (Some (InterfaceIPv4Container.set_addresses
                            (Some ((addresses ++ [address])%list)) container))) ;;
  (* self.ipv4 = self.ipv4.clone() *)
  container <- the_ipv4 "clone" ;;
  container <- lift (InterfaceIPv4Container.clone container) ;;
  modify (set_ipv4 (Some container)).

End InterfaceRouteportModel.

End L3InterfaceModels.

(** ** The models of the inventory

    The classes of [net_models.inventory] and of the other modules of
    [net_models.models] that the loader uses.  Each record holds the fields
    that the loader reads or writes.  The [name] of a host or of an interface
    is its identity and is not a field here: such an object is reached
    through its name. *)

Module Inventory.

Import ipaddress L3InterfaceModels.

(** The value of a spreadsheet cell (the frame is read with [dtype=object]). *)
Inductive cell :=
  | CellNone
  | CellBool (b : bool)
  | CellNumber (z : Z)
  | CellStr (s : string).

Module InterfaceNeighbor.
(** Modelled from the spec: [InterfaceNeighbor], a relation (peer host name,
    peer interface name). *)
Record t := { host : string; interface : string }.
End InterfaceNeighbor.

Module InterfaceCdpConfig.
(** Modelled from the spec: [InterfaceCdpConfig], the CDP setting made from
    the flag of a link (enabled or disabled). *)
Record t := { enabled : bool }.

(** Modelled from the spec: [clone], a value copy (the class has no
    invariant to validate again). *)
Definition clone (self : t) : result t := Ok self.
End InterfaceCdpConfig.

Module InterfaceDiscoveryProtocols.
(** Modelled from the spec: [InterfaceDiscoveryProtocols], the
    discovery-protocol config of an interface. *)
Record t := { cdp : option InterfaceCdpConfig.t }.
End InterfaceDiscoveryProtocols.

Module InterfaceLagMemberConfig.
(** Modelled from the spec: [InterfaceLagMemberConfig], group id and mode. *)
Record t := { group : Z; mode : string }.
End InterfaceLagMemberConfig.

Module InterfaceModel.
(** Modelled from the spec: [InterfaceModel]: description, neighbor relation,
    discovery-protocol settings, LAG-member info, routed-port sub-model. *)
Record t := {
  description : option string;
  neighbor : option InterfaceNeighbor.t;
  discovery_protocols : option InterfaceDiscoveryProtocols.t;
  lag_member : option InterfaceLagMemberConfig.t;
  l3_port : option InterfaceRouteportModel.t
}.

Definition empty : t :=
  {| description := None; neighbor := None; discovery_protocols := None;
     lag_member := None; l3_port := None |}.

Definition set_description (v : option string) (self : t) : t :=
  {| description := v; neighbor := neighbor self;
     discovery_protocols := discovery_protocols self;
     lag_member := lag_member self; l3_port := l3_port self |}.
Definition set_neighbor (v : option InterfaceNeighbor.t) (self : t) : t :=
  {| description := description self; neighbor := v;
     discovery_protocols := discovery_protocols self;
     lag_member := lag_member self; l3_port := l3_port self |}.
Definition set_discovery_protocols (v : option InterfaceDiscoveryProtocols.t) (self : t) : t :=
  {| description := description self; neighbor := neighbor self;
     discovery_protocols := v;
     lag_member := lag_member self; l3_port := l3_port self |}.
Definition set_lag_member (v : option InterfaceLagMemberConfig.t) (self : t) : t :=
  {| description := description self; neighbor := neighbor self;
     discovery_protocols := discovery_protocols self;
     lag_member := v; l3_port := l3_port self |}.
Definition set_l3_port (v : option InterfaceRouteportModel.t) (self : t) : t :=
  {| description := description self; neighbor := neighbor self;
     discovery_protocols := discovery_protocols self;
     lag_member := lag_member self; l3_port := v |}.
End InterfaceModel.

Module BgpPeerGroup.
(** Modelled from the spec: [BgpPeerGroup], a named bundle of BGP session
    parameters. *)
Record t := { name : string; fields : list (string * cell) }.
End BgpPeerGroup.

Module BgpNeighbor.
(** Modelled from the spec: [BgpNeighbor], a session record that may name a
    peer group. *)
Record t := { peer_group : option string; fields : list (string * cell) }.
End BgpNeighbor.

Module RoutingBgpProcess.
(** Modelled from the spec: [RoutingBgpProcess]: ASN, neighbors and attached
    peer groups. *)
Record t := {
  asn : Z;
  neighbors : option (list BgpNeighbor.t);
  peer_groups : option (list BgpPeerGroup.t)
}.

(** [RoutingBgpProcess(asn=...)] *)
Definition new (asn : Z) : t := {| asn := asn; neighbors := None; peer_groups := None |}.
Definition set_neighbors (v : option (list BgpNeighbor.t)) (self : t) : t :=
  {| asn := asn self; neighbors := v; peer_groups := peer_groups self |}.
Definition set_peer_groups (v : option (list BgpPeerGroup.t)) (self : t) : t :=
  {| asn := asn self; neighbors := neighbors self; peer_groups := v |}.
End RoutingBgpProcess.

Module RoutingConfig.
(** Modelled from the spec: [RoutingConfig], which owns the BGP process. *)
Record t := { bgp : option RoutingBgpProcess.t }.
End RoutingConfig.

Module HostConfig.
(** Modelled from the spec: [HostConfig], which owns the routing config. *)
Record t := { routing : option RoutingConfig.t }.
End HostConfig.

Module Host.
(** Modelled from the spec: [Host], which owns zero or one config. *)
Record t := { config : option HostConfig.t }.
End Host.

Module PhysicalLink.
(** Modelled from the spec: [PhysicalLink], the record of a row of the sheet
    physical_links. *)
Record t := {
  a_host : string; a_interface : string; a_description : option string;
  a_lag_group : option Z; a_lag_mode : option string;
  z_host : string; z_interface : string; z_description : option string;
  z_lag_group : option Z; z_lag_mode : option string
}.
End PhysicalLink.

Module L3Link.
(** Modelled from the spec: [L3Link], the record of a row of the sheet
    l3_links. *)
Record t := {
  a_host : string; a_interface : string; a_description : option string;
  a_vrf : option string; a_ipv4_address : option IPv4Interface.t;
  z_host : string; z_interface : string; z_description : option string;
  z_vrf : option string; z_ipv4_address : option IPv4Interface.t;
  ipv4_network : option IPv4Network.t
}.
End L3Link.

End Inventory.

(** ** net_models/loaders/ExcelLoader.py

    The loader object: the inventory it fills (hosts and interfaces, reached
    by name), its template registry [self.templates] and the heap of the
    OSPF config objects, which the registry and the routed ports refer to.
    A row is a row of the sheet that passed [use_filter] and decodes into its
    link model. *)

Module ExcelLoader.

Import ipaddress L3InterfaceModels Inventory.
Open Scope py_scope.

(** The identity of an interface: host name and interface name. *)
Abbreviation interface_ref := (string * string)%type (only parsing).

Record t := {
  hosts : gmap string Host.t;
  interfaces : gmap (string * string) InterfaceModel.t;
  templates : gmap string (gmap string positive);
  ospf_objects : gmap positive InterfaceOspfConfig.t
}.

Definition set_hosts (v : gmap string Host.t) (self : t) : t :=
  {| hosts := v; interfaces := interfaces self; templates := templates self;
     ospf_objects := ospf_objects self |}.
Definition set_interfaces (v : gmap (string * string) InterfaceModel.t) (self : t) : t :=
  {| hosts := hosts self; interfaces := v; templates := templates self;
     ospf_objects := ospf_objects self |}.
Definition set_templates (v : gmap string (gmap string positive)) (self : t) : t :=
  {| hosts := hosts self; interfaces := interfaces self; templates := v;
     ospf_objects := ospf_objects self |}.
Definition set_ospf_objects (v : gmap positive InterfaceOspfConfig.t) (self : t) : t :=
  {| hosts := hosts self; interfaces := interfaces self; templates := templates self;
     ospf_objects := v |}.

Definition GLOBAL_VRFS : list (option string) := [None; Some "global"].

(** Modelled from the spec: [get_host] of [BaseLoader], defined in
    [net_models.loaders] and not embedded here: the host of that name, or the
    failure UnknownEntity.  The host is handed out by reference, that is by
    its name. *)
Definition get_host (host_name : string) : M t string := fun self =>
  match hosts self !! host_name with
  | Some _ => (self, Ok host_name)
  | None => (self, Raise (UnknownEntity host_name))
  end.

(** Modelled from the spec: [get_interface] of [BaseLoader], defined in
    [net_models.loaders] and not embedded here: the interface of that name on
    that host, looked up and never created, or the failure UnknownEntity. *)
Definition get_interface (host_name interface_name : string) : M t interface_ref :=
  fun self =>
    match interfaces self !! (host_name, interface_name) with
    | Some _ => (self, Ok (host_name, interface_name))
    | None => (self, Raise (UnknownEntity interface_name))
    end.

(** Reading and writing the object behind a reference. *)
Definition read_host (host : string) : M t Host.t := fun self =>
  match hosts self !! host with
  | Some h => (self, Ok h)
  | None => (self, Raise DanglingReference)
  end.

Definition write_host (host : string) (h : Host.t) : M t unit :=
  modify (fun self => set_hosts (<[host := h]> (hosts self)) self).

Definition read_interface (interface : interface_ref) : M t InterfaceModel.t :=
  fun self =>
    match interfaces self !! interface with
    | Some i => (self, Ok i)
    | None => (self, Raise DanglingReference)
    end.

Definition write_interface (interface : interface_ref) (i : InterfaceModel.t) : M t unit :=
  modify (fun self => set_interfaces (<[interface := i]> (interfaces self)) self).

Definition update_interface (interface : interface_ref)
    (f : InterfaceModel.t -> InterfaceModel.t) : M t unit :=
  i <- read_interface interface ;;
  write_interface interface (f i).

(** [interface.l3_port.<attr>...]: a method or an assignment on the routed
    port of the interface; what the method did before it raised stays. *)
Definition on_l3_port {A} (interface : interface_ref) (attr : string)
    (m : M InterfaceRouteportModel.t A) : M t A :=
  i <- read_interface interface ;;
  match InterfaceModel.l3_port i with
  | None => raise (AttributeError attr)
  | Some port =>
      let '(port', r) := m port in
      write_interface interface (InterfaceModel.set_l3_port (Some port') i) ;;
      lift r
  end.

Definition get_hosts_from_link (link : L3Link.t) : M t (string * string) :=
  a_host <- get_host (L3Link.a_host link) ;;
  z_host <- get_host (L3Link.z_host link) ;;
  ret (a_host, z_host).

Definition get_interfaces_from_link (link : L3Link.t) : M t (interface_ref * interface_ref) :=
  a_interface <- get_interface (L3Link.a_host link) (L3Link.a_interface link) ;;
  z_interface <- get_interface (L3Link.z_host link) (L3Link.z_interface link) ;;
  ret (a_interface, z_interface).

(** *** load_physical_links *)

Record physical_row := {
  link : PhysicalLink.t;
  cdp_enabled : option cell    (* [None]: the sheet has no such column *)
}.

(** [cdp_config.clone()], where [cdp_config] may be [None]. *)
Definition clone_cdp_config (cdp_config : option InterfaceCdpConfig.t)
  : M t InterfaceCdpConfig.t :=
  match cdp_config with
  | None => raise (AttributeError "clone")
  | Some c => lift (InterfaceCdpConfig.clone c)
  end.

(** [if interface.discovery_protocols is None:
        interface.discovery_protocols = InterfaceDiscoveryProtocols(cdp=cdp_config.clone())] *)
Definition set_discovery_if_unset (cdp_config : option InterfaceCdpConfig.t)
    (interface : interface_ref) : M t unit :=
  i <- read_interface interface ;;
  when (bool_decide (InterfaceModel.discovery_protocols i = None))
    (c <- clone_cdp_config cdp_config ;;
     update_interface interface
       (InterfaceModel.set_discovery_protocols
          (Some {| InterfaceDiscoveryProtocols.cdp := Some c |}))).

(** [cdp_config] after the two tests [is True] and [is False]. *)
Definition cdp_config_of (flag : cell) : option InterfaceCdpConfig.t :=
  match flag with
  | CellBool true => Some {| InterfaceCdpConfig.enabled := true |}
  | CellBool false => Some {| InterfaceCdpConfig.enabled := false |}
  | _ => None
  end.

Definition cdp_section (row : physical_row) (a_interface z_interface : interface_ref)
  : M t unit :=
  match cdp_enabled row with
  | None => ret tt                       (* 'cdp_enabled' not in row.keys() *)
  | Some CellNone => ret tt              (* pass *)
  | Some flag =>
      for_each [a_interface; z_interface] (set_discovery_if_unset (cdp_config_of flag))
  end.

Definition port_channel (lag_group : Z) : string := "Port-channel" +:+ pretty lag_group.

(** One side of the LAG section: the Port-channel interface, if any. *)
Definition lag_side (default_lag_mode : string) (host : string) (interface : interface_ref)
    (lag_group : option Z) (lag_mode : option string) : M t (option interface_ref) :=
  match lag_group with
  | None => ret None
  | Some group =>
      lag <- get_interface host (port_channel group) ;;
      let lag_mode := match lag_mode with Some m => m | None => default_lag_mode end in
      update_interface interface
        (InterfaceModel.set_lag_member
           (Some {| InterfaceLagMemberConfig.group := group;
                    InterfaceLagMemberConfig.mode := lag_mode |})) ;;
      ret (Some lag)
  end.

Definition set_neighbor (interface : interface_ref) (host name : string) : M t unit :=
  update_interface interface
    (InterfaceModel.set_neighbor
       (Some {| InterfaceNeighbor.host := host; InterfaceNeighbor.interface := name |})).

(** [a_interface.neighbor = InterfaceNeighbor(host=z_host.name, interface=z_interface.name)]
    and [z_interface.neighbor = InterfaceNeighbor(host=a_host.name, interface=a_interface.name)] *)
Definition write_neighbors (a_host z_host : string) (a_interface z_interface : interface_ref)
  : M t unit :=
  set_neighbor a_interface z_host (snd z_interface) ;;
  set_neighbor z_interface a_host (snd a_interface).

Definition lag_section (default_lag_mode : string) (link : PhysicalLink.t)
    (a_host z_host : string) (a_interface z_interface : interface_ref) : M t unit :=
  a_lag <- lag_side default_lag_mode a_host a_interface
             (PhysicalLink.a_lag_group link) (PhysicalLink.a_lag_mode link) ;;
  z_lag <- lag_side default_lag_mode z_host z_interface
             (PhysicalLink.z_lag_group link) (PhysicalLink.z_lag_mode link) ;;
  (* if all([a_lag, z_lag]) *)
  match a_lag, z_lag with
  | Some a_lag, Some z_lag =>
      set_neighbor a_lag z_host (snd z_lag) ;;
      set_neighbor z_lag a_host (snd a_lag)
  | _, _ => ret tt
  end.

(** The body of the loop of [load_physical_links]. *)
Definition load_physical_link (default_lag_mode : string) (row : physical_row) : M t unit :=
  let link := link row in
  a_host <- get_host (PhysicalLink.a_host link) ;;
  a_interface <- get_interface a_host (PhysicalLink.a_interface link) ;;
  z_host <- get_host (PhysicalLink.z_host link) ;;
  z_interface <- get_interface z_host (PhysicalLink.z_interface link) ;;
  write_neighbors a_host z_host a_interface z_interface ;;
  (* CDP Section *)
  cdp_section row a_interface z_interface ;;
  (* LAG Section *)
  lag_section default_lag_mode link a_host z_host a_interface z_interface.

Definition load_physical_links (default_lag_mode : string) (rows : list physical_row)
  : M t unit :=
  for_each rows (load_physical_link default_lag_mode).

(** *** load_ospf_templates *)

Record ospf_template_row := {
  template_name : string;
  template_fields : InterfaceOspfConfig.t    (* the fields of the model the row gives *)
}.

(** A new object on the heap of OSPF configs. *)
Definition allocate (config : InterfaceOspfConfig.t) : M t positive := fun self =>
  let l := fresh (dom (ospf_objects self)) in
  (set_ospf_objects (<[l := config]> (ospf_objects self)) self, Ok l).

(** [row_to_model(row=row, model=InterfaceOspfConfig)] *)
Definition row_to_ospf_config (row : ospf_template_row) : M t positive :=
  let f := template_fields row in
  config <- lift (InterfaceOspfConfig.new
                    (InterfaceOspfConfig.process_id f) (InterfaceOspfConfig.area f)
                    (InterfaceOspfConfig.network_type f) (InterfaceOspfConfig.cost f)
                    (InterfaceOspfConfig.priority f) (InterfaceOspfConfig.authentication f)
                    (InterfaceOspfConfig.timers f) (InterfaceOspfConfig.bfd f)) ;;
  allocate config.

Definition load_ospf_templates (rows : list ospf_template_row) : M t unit :=
  self <- get ;;
  when (bool_decide (templates self !! "ospf" = None))
    (modify (fun self => set_templates (<["ospf" := ∅]> (templates self)) self)) ;;
  for_each rows (fun row =>
    config <- row_to_ospf_config row ;;
    modify (fun self =>
      set_templates
        (<["ospf" := <[template_name row := config]> (default ∅ (templates self !! "ospf"))]>
           (templates self)) self)).

(** *** load_l3_links *)

Record l3_row := {
  l3_link : L3Link.t;
  ospf_template : option string;
  bfd_template : option string
}.

(** [self.templates['ospf']] *)
Definition templates_ospf : M t (gmap string positive) := fun self =>
  match templates self !! "ospf" with
  | Some registry => (self, Ok registry)
  | None => (self, Raise (KeyError "ospf"))
  end.

(** [ospf_template.clone()], where [ospf_template] is what [dict.get] found:
    the copy is a new object. *)
Definition clone_ospf_template (ospf_template : option positive) : M t positive :=
  match ospf_template with
  | None => raise (AttributeError "clone")
  | Some l =>
      self <- get ;;
      match ospf_objects self !! l with
      | None => raise DanglingReference
      | Some config =>
          copy <- lift (InterfaceOspfConfig.clone config) ;;
          allocate copy
      end
  end.

Definition not_in_global_vrfs (vrf : option string) : bool :=
  negb (bool_decide (vrf ∈ GLOBAL_VRFS)).

Definition ensure_ipv4_container : M InterfaceRouteportModel.t unit :=
  port <- get ;;
  when (bool_decide (InterfaceRouteportModel.ipv4 port = None))
    (container <- lift (InterfaceIPv4Container.new None None None) ;;
     modify (InterfaceRouteportModel.set_ipv4 (Some container))).

(** [all([link.a_ipv4_address, link.z_ipv4_address])] *)
Definition both_addresses (link : L3Link.t) : option (IPv4Interface.t * IPv4Interface.t) :=
  match L3Link.a_ipv4_address link, L3Link.z_ipv4_address link with
  | Some a, Some z => Some (a, z)
  | _, _ => None
  end.

(** [ipaddress.IPv4Interface(f"{ip}/{network.prefixlen}")] *)
Definition interface_of (ip : N) (network : IPv4Network.t) : IPv4Interface.t :=
  {| IPv4Interface.ip := ip; IPv4Interface.prefixlen := IPv4Network.prefixlen network |}.

Definition addressing_section `{Validators} (link : L3Link.t)
    (a_interface z_interface : interface_ref) : M t unit :=
  (* Create IPv4 Container if necessary *)
  when (bool_decide (is_Some (both_addresses link))
        || bool_decide (is_Some (L3Link.ipv4_network link)))
    (for_each [a_interface; z_interface] (fun interface =>
       on_l3_port interface "ipv4" ensure_ipv4_container)) ;;
  (* Assign Given addresses *)
  match both_addresses link with
  | Some (a_ipv4_address, z_ipv4_address) =>
      on_l3_port a_interface "add_ipv4_address"
        (InterfaceRouteportModel.add_ipv4_address (inr a_ipv4_address)) ;;
      on_l3_port z_interface "add_ipv4_address"
        (InterfaceRouteportModel.add_ipv4_address (inr z_ipv4_address))
  | None =>
      match L3Link.ipv4_network link with
      | Some ipv4_network =>
          let usable_ips := IPv4Network.hosts ipv4_network in
          first <- lift (index_first usable_ips) ;;
          on_l3_port a_interface "add_ipv4_address"
            (InterfaceRouteportModel.add_ipv4_address
               (inr (interface_of first ipv4_network))) ;;
          last <- lift (index_last usable_ips) ;;
          on_l3_port z_interface "add_ipv4_address"
            (InterfaceRouteportModel.add_ipv4_address
               (inr (interface_of last ipv4_network)))
      | None => ret tt
      end
  end.

(** [if row.get('ospf_template') is not None: ...] *)
Definition ospf_template_section (name : option string)
    (a_interface z_interface : interface_ref) : M t unit :=
  match name with
  | Some name =>
      registry <- templates_ospf ;;
      let ospf_template := registry !! name in        (* dict.get *)
      a_copy <- clone_ospf_template ospf_template ;;
      on_l3_port a_interface "ospf" (modify (InterfaceRouteportModel.set_ospf (Some a_copy))) ;;
      z_copy <- clone_ospf_template ospf_template ;;
      on_l3_port z_interface "ospf" (modify (InterfaceRouteportModel.set_ospf (Some z_copy)))
  | None => ret tt
  end.

(** [if row.get('bfd_template') is not None: ...]; the template looked up in
    the OSPF registry is not used. *)
Definition bfd_template_section (name : option string)
    (a_interface z_interface : interface_ref) : M t unit :=
  match name with
  | Some name =>
      _ <- templates_ospf ;;
      let bfd := {| InterfaceBfdConfig.template := name |} in
      on_l3_port a_interface "bfd" (modify (InterfaceRouteportModel.set_bfd (Some bfd))) ;;
      on_l3_port z_interface "bfd" (modify (InterfaceRouteportModel.set_bfd (Some bfd)))
  | None => ret tt
  end.

Definition template_section (row : l3_row) (a_interface z_interface : interface_ref)
  : M t unit :=
  ospf_template_section (ospf_template row) a_interface z_interface ;;
  bfd_template_section (bfd_template row) a_interface z_interface.

(** [if interface.l3_port is None: interface.l3_port = InterfaceRouteportModel()] *)
Definition ensure_l3_port (interface : interface_ref) : M t unit :=
  i <- read_interface interface ;;
  when (bool_decide (InterfaceModel.l3_port i = None))
    (write_interface interface
       (InterfaceModel.set_l3_port (Some InterfaceRouteportModel.empty) i)).

(** The routed ports of the two interfaces and their VRFs. *)
Definition port_section (link : L3Link.t) (a_interface z_interface : interface_ref)
  : M t unit :=
  let interface_list := [a_interface; z_interface] in
  for_each interface_list ensure_l3_port ;;
  when (not_in_global_vrfs (L3Link.a_vrf link))
    (on_l3_port a_interface "vrf"
       (modify (InterfaceRouteportModel.set_vrf (L3Link.a_vrf link)))) ;;
  when (not_in_global_vrfs (L3Link.z_vrf link))
    (on_l3_port z_interface "vrf"
       (modify (InterfaceRouteportModel.set_vrf (L3Link.z_vrf link)))).

(** The body of the loop of [load_l3_links], up to the templates: the link,
    its two interfaces, their routed ports, VRFs and addresses. *)
Definition link_section `{Validators} (row : l3_row) : M t (interface_ref * interface_ref) :=
  let link := l3_link row in
  link_hosts <- get_hosts_from_link link ;;
  link_interfaces <- get_interfaces_from_link link ;;
  write_neighbors (fst link_hosts) (snd link_hosts)
    (fst link_interfaces) (snd link_interfaces) ;;
  port_section link (fst link_interfaces) (snd link_interfaces) ;;
  addressing_section link (fst link_interfaces) (snd link_interfaces) ;;
  ret link_interfaces.

(** The body of the loop of [load_l3_links]. *)
Definition load_l3_link `{Validators} (row : l3_row) : M t unit :=
  link_interfaces <- link_section row ;;
  template_section row (fst link_interfaces) (snd link_interfaces).

Definition load_l3_links `{Validators} (rows : list l3_row) : M t unit :=
  for_each rows load_l3_link.

(** *** load_l3_ports *)

(** A row of the sheet l3_ports, its address cell already an interface
    address (the loader hands the cell to [add_ipv4_address], which has
    [InterfaceIPv4Address] parse and validate it). *)
Record l3_port_row := {
  port_host : string;
  port_interface : string;
  port_description : option string;
  port_vrf : option string;
  port_ipv4_address : option IPv4Interface.t
}.

(** The body of the loop of [load_l3_ports]. *)
Definition load_l3_port `{Validators} (row : l3_port_row) : M t unit :=
  host <- get_host (port_host row) ;;
  interface <- get_interface host (port_interface row) ;;
  ensure_l3_port interface ;;
  i <- read_interface interface ;;
  when (bool_decide (InterfaceModel.description i = None)
        && bool_decide (is_Some (port_description row)))
    (update_interface interface (InterfaceModel.set_description (port_description row))) ;;
  when (not_in_global_vrfs (port_vrf row))
    (on_l3_port interface "vrf"
       (modify (InterfaceRouteportModel.set_vrf (port_vrf row)))) ;;
  match port_ipv4_address row with
  | Some address =>
      on_l3_port interface "add_ipv4_address"
        (InterfaceRouteportModel.add_ipv4_address (inr address))
  | None => ret tt
  end.

Definition load_l3_ports `{Validators} (rows : list l3_port_row) : M t unit :=
  for_each rows load_l3_port.

(** *** load_bgp_routers *)

Record bgp_router_row := { router_host : string; router_asn : Z }.

(** The three [if ... is None] of the loop body, on the host object. *)
Definition ensure_bgp_process (asn : Z) (h : Host.t) : Host.t :=
  let config :=
    match Host.config h with
    | None => {| HostConfig.routing := None |}      (* HostConfig(interfaces={}) *)
    | Some config => config
    end in
  let routing :=
    match HostConfig.routing config with
    | None => {| RoutingConfig.bgp := None |}       (* RoutingConfig() *)
    | Some routing => routing
    end in
  let bgp :=
    match RoutingConfig.bgp routing with
    | None => RoutingBgpProcess.new asn
    | Some bgp => bgp
    end in
  {| Host.config := Some {| HostConfig.routing := Some {| RoutingConfig.bgp := Some bgp |} |} |}.

Definition load_bgp_router (row : bgp_router_row) : M t unit :=
  host <- get_host (router_host row) ;;
  h <- read_host host ;;
  write_host host (ensure_bgp_process (router_asn row) h).

Definition load_bgp_routers (rows : list bgp_router_row) : M t unit :=
  for_each rows load_bgp_router.

(** *** load_bgp_neighbors *)

Record bgp_neighbor_row := { neighbor_host : string; neighbor : BgpNeighbor.t }.

(** [host.config.routing.bgp.<attr>]: the BGP process of the host, reached
    through its config and its routing config, each of which may be [None]. *)
Definition the_bgp (host : string) (attr : string) : M t RoutingBgpProcess.t :=
  h <- read_host host ;;
  match Host.config h with
  | None => raise (AttributeError "routing")
  | Some config =>
      match HostConfig.routing config with
      | None => raise (AttributeError "bgp")
      | Some routing =>
          match RoutingConfig.bgp routing with
          | None => raise (AttributeError attr)
          | Some bgp => ret bgp
          end
      end
  end.

Definition set_bgp (host : string) (attr : string) (bgp : RoutingBgpProcess.t) : M t unit :=
  _ <- the_bgp host attr ;;
  write_host host
    {| Host.config := Some {| HostConfig.routing := Some {| RoutingConfig.bgp := Some bgp |} |} |}.

(** The body of the loop of [load_bgp_neighbors]. *)
Definition load_bgp_neighbor (peer_groups : list BgpPeerGroup.t) (row : bgp_neighbor_row)
  : M t unit :=
  host <- get_host (neighbor_host row) ;;
  bgp <- the_bgp host "neighbors" ;;
  when (bool_decide (RoutingBgpProcess.neighbors bgp = None))
    (set_bgp host "neighbors" (RoutingBgpProcess.set_neighbors (Some []) bgp)) ;;
  let neighbor := neighbor row in
  (* Assign peer group to host if needed *)
  match BgpNeighbor.peer_group neighbor with
  | Some name =>
      peer_group <- lift (index_first
                            (List.filter (fun x => bool_decide (BgpPeerGroup.name x = name))
                               peer_groups)) ;;
      bgp <- the_bgp host "peer_groups" ;;
      when (bool_decide (RoutingBgpProcess.peer_groups bgp = None))
        (set_bgp host "peer_groups" (RoutingBgpProcess.set_peer_groups (Some []) bgp)) ;;
      bgp <- the_bgp host "peer_groups" ;;
      set_bgp host "peer_groups"
        (RoutingBgpProcess.set_peer_groups
           (Some (default [] (RoutingBgpProcess.peer_groups bgp) ++ [peer_group])%list) bgp)
  | None => ret tt
  end ;;
  (* Append neighbor *)
  bgp <- the_bgp host "neighbors" ;;
  set_bgp host "neighbors"
    (RoutingBgpProcess.set_neighbors
       (Some (default [] (RoutingBgpProcess.neighbors bgp) ++ [neighbor])%list) bgp).

Definition load_bgp_neighbors (peer_groups : list BgpPeerGroup.t)
    (rows : list bgp_neighbor_row) : M t unit :=
  for_each rows (load_bgp_neighbor peer_groups).

End ExcelLoader.

(** ** What the specification talks about

    The notions of the specification, stated on the models above. *)

Module Properties.

Import ipaddress Pydantic L3InterfaceModels Inventory ExcelLoader.

(** An address [x] lies in the network of the member [a]. *)
Definition in_network_of (x : N) (a : InterfaceIPv4Address.t) : Prop :=
  IPv4Network.contains (IPv4Interface.network (InterfaceIPv4Address.address a)) x = true.

(** The networks of two members overlap: they share an address. *)
Definition networks_overlap (a b : InterfaceIPv4Address.t) : Prop :=
  exists x, in_network_of x a /\ in_network_of x b.

(** No two members (at two places of the list) have overlapping networks. *)
Definition non_overlapping (l : list InterfaceIPv4Address.t) : Prop :=
  ForallOrdPairs (fun a b => ~ networks_overlap a b) l.

(** At most one member has secondary in {false, null}. *)
Definition at_most_one_primary (l : list InterfaceIPv4Address.t) : Prop :=
  (length (List.filter InterfaceIPv4Container.is_primary l) <= 1)%nat.

Definition valid_addresses (l : list InterfaceIPv4Address.t) : Prop :=
  non_overlapping l /\ at_most_one_primary l.

Definition valid_container (c : InterfaceIPv4Container.t) : Prop :=
  match InterfaceIPv4Container.addresses c with
  | None => True
  | Some l => valid_addresses l
  end.

(** The addresses of a routed port, none when it has no container or no list. *)
Definition address_list (port : InterfaceRouteportModel.t) : list InterfaceIPv4Address.t :=
  match InterfaceRouteportModel.ipv4 port with
  | Some c => default [] (InterfaceIPv4Container.addresses c)
  | None => []
  end.

Definition valid_port (port : InterfaceRouteportModel.t) : Prop :=
  valid_addresses (address_list port).

Definition introduces_overlap (l : list InterfaceIPv4Address.t)
    (a : InterfaceIPv4Address.t) : Prop :=
  exists b, In b l /\ networks_overlap a b.

Definition introduces_second_primary (l : list InterfaceIPv4Address.t)
    (a : InterfaceIPv4Address.t) : Prop :=
  InterfaceIPv4Container.is_primary a = true /\
  exists b, In b l /\ InterfaceIPv4Container.is_primary b = true.

(** The address lies outside the network of the other member. *)
Definition clear_of (a o : InterfaceIPv4Address.t) : Prop :=
  InterfaceIPv4Container.address_in_network_of a o = false.

(** The container on which [add_ipv4_address] calls [clone]. *)
Definition appended (port : InterfaceRouteportModel.t) (a : InterfaceIPv4Address.t)
  : InterfaceIPv4Container.t :=
  {| InterfaceIPv4Container.addresses := Some (address_list port ++ [a])%list;
     InterfaceIPv4Container.unnumbered :=
       InterfaceRouteportModel.ipv4 port ≫= InterfaceIPv4Container.unnumbered;
     InterfaceIPv4Container.dhcp_client :=
       InterfaceRouteportModel.ipv4 port ≫= InterfaceIPv4Container.dhcp_client |}.

(** The OSPF config holds process_id and area together or not at all. *)
Definition process_and_area_coupled (c : InterfaceOspfConfig.t) : Prop :=
  is_Some (InterfaceOspfConfig.process_id c) <-> is_Some (InterfaceOspfConfig.area c).

(** What the model holds for an interface: a field of the interface of that
    name, if there is one. *)
Definition observe {B} (field : InterfaceModel.t -> option B)
    (st : ExcelLoader.t) (k : interface_ref) : option B :=
  interfaces st !! k ≫= field.

Definition neighbor_of : ExcelLoader.t -> interface_ref -> option InterfaceNeighbor.t :=
  observe InterfaceModel.neighbor.

Definition discovery_of
  : ExcelLoader.t -> interface_ref -> option InterfaceDiscoveryProtocols.t :=
  observe InterfaceModel.discovery_protocols.

Definition ipv4_field (i : InterfaceModel.t) : option InterfaceIPv4Container.t :=
  InterfaceModel.l3_port i ≫= InterfaceRouteportModel.ipv4.

Definition ipv4_of : ExcelLoader.t -> interface_ref -> option InterfaceIPv4Container.t :=
  observe ipv4_field.

(** The IPv4 addresses of an interface: those of its routed port, none when
    it has no routed port. *)
Definition addresses_field (i : InterfaceModel.t) : option (list InterfaceIPv4Address.t) :=
  Some (match InterfaceModel.l3_port i with
        | Some port => address_list port
        | None => []
        end).

Definition addresses_of (st : ExcelLoader.t) (k : interface_ref) : list InterfaceIPv4Address.t :=
  default [] (observe addresses_field st k).

(** The member that [add_ipv4_address] makes of a plain interface address. *)
Definition plain_address (ip : N) (network : IPv4Network.t) : InterfaceIPv4Address.t :=
  {| InterfaceIPv4Address.address := interface_of ip network;
     InterfaceIPv4Address.secondary := None |}.

(** The row gives an explicit address for exactly one end. *)
Definition lone_address (link : L3Link.t) : Prop :=
  (is_Some (L3Link.a_ipv4_address link) /\ L3Link.z_ipv4_address link = None) \/
  (L3Link.a_ipv4_address link = None /\ is_Some (L3Link.z_ipv4_address link)).

Definition ospf_field (i : InterfaceModel.t) : option positive :=
  InterfaceModel.l3_port i ≫= InterfaceRouteportModel.ospf.

(** The OSPF config object an interface refers to, and its value. *)
Definition ospf_ref_of : ExcelLoader.t -> interface_ref -> option positive :=
  observe ospf_field.

Definition ospf_of (st : ExcelLoader.t) (k : interface_ref) : option InterfaceOspfConfig.t :=
  ospf_ref_of st k ≫= (fun l => ospf_objects st !! l).

(** The prototype stored in the OSPF registry under a name, and its value. *)
Definition template_ref (st : ExcelLoader.t) (name : string) : option positive :=
  templates st !! "ospf" ≫= (fun registry => registry !! name).

Definition template_of (st : ExcelLoader.t) (name : string) : option InterfaceOspfConfig.t :=
  template_ref st name ≫= (fun l => ospf_objects st !! l).

(** [interface.l3_port.ospf.<field> = ...]: the object the interface refers
    to is changed in place. *)
Definition mutate_ospf (k : interface_ref) (f : InterfaceOspfConfig.t -> InterfaceOspfConfig.t)
    (st : ExcelLoader.t) : ExcelLoader.t :=
  match ospf_ref_of st k with
  | Some l => set_ospf_objects (alter f l (ospf_objects st)) st
  | None => st
  end.

(** The host has a BGP process. *)
Definition bgp_of (st : ExcelLoader.t) (host : string) : option RoutingBgpProcess.t :=
  ((hosts st !! host ≫= Host.config) ≫= HostConfig.routing) ≫= RoutingConfig.bgp.

(** The discovery config that a flag of a physical link sets. *)
Definition discovery_from_flag (b : bool) : InterfaceDiscoveryProtocols.t :=
  {| InterfaceDiscoveryProtocols.cdp := Some {| InterfaceCdpConfig.enabled := b |} |}.

(** The two ends of a link. *)
Definition a_end (link : L3Link.t) : interface_ref := (L3Link.a_host link, L3Link.a_interface link).
Definition z_end (link : L3Link.t) : interface_ref := (L3Link.z_host link, L3Link.z_interface link).
Definition a_side (link : PhysicalLink.t) : interface_ref :=
  (PhysicalLink.a_host link, PhysicalLink.a_interface link).
Definition z_side (link : PhysicalLink.t) : interface_ref :=
  (PhysicalLink.z_host link, PhysicalLink.z_interface link).

(** The neighbor relations of the two ends of a link point at each other. *)
Definition neighbors_matched (st : ExcelLoader.t) (a z : interface_ref) : Prop :=
  neighbor_of st a
    = Some {| InterfaceNeighbor.host := fst z; InterfaceNeighbor.interface := snd z |} /\
  neighbor_of st z
    = Some {| InterfaceNeighbor.host := fst a; InterfaceNeighbor.interface := snd a |}.

(** When both sides of a physical link name a LAG group, neither end
    interface of the link is one of the two Port-channel interfaces. *)
Definition lag_interfaces_apart (link : PhysicalLink.t) : Prop :=
  forall a_group z_group,
    PhysicalLink.a_lag_group link = Some a_group ->
    PhysicalLink.z_lag_group link = Some z_group ->
    forall e, e = a_side link \/ e = z_side link ->
      e <> (PhysicalLink.a_host link, port_channel a_group) /\
      e <> (PhysicalLink.z_host link, port_channel z_group).

(** What the flag makes of an interface that had the discovery config [before]. *)
Definition discovery_set_from (flag : cell)
    (before after : option InterfaceDiscoveryProtocols.t) : Prop :=
  match before with
  | Some d => after = Some d
  | None => exists b, flag = CellBool b /\ after = Some (discovery_from_flag b)
  end.

(** The failure of a row whose OSPF template is not in the registry: no
    registry at all, or no such name in it. *)
Definition unknown_template_error (s : ExcelLoader.t) : exn :=
  match templates s !! "ospf" with
  | None => KeyError "ospf"
  | Some _ => AttributeError "clone"
  end.

(** Both ends of the link hold the value of the template. *)
Definition template_applied (st : ExcelLoader.t) (name : string) (a z : interface_ref) : Prop :=
  is_Some (template_of st name) /\
  ospf_of st a = template_of st name /\
  ospf_of st z = template_of st name.

(** Changing the OSPF config of one end of the link in place changes neither
    the prototype in the registry nor, when the ends are two interfaces, the
    OSPF config of the other end. *)
Definition copy_isolated (st : ExcelLoader.t) (name : string) (a z : interface_ref) : Prop :=
  forall f,
    template_of (mutate_ospf a f st) name = template_of st name /\
    template_of (mutate_ospf z f st) name = template_of st name /\
    (a <> z ->
     ospf_of (mutate_ospf a f st) z = ospf_of st z /\
     ospf_of (mutate_ospf z f st) a = ospf_of st a).

(** A state transformer keeps a relation between the state before and after,
    whether it returns or raises. *)
Definition preserves {S A} (R : S -> S -> Prop) (m : M S A) : Prop :=
  forall s s' r, m s = (s', r) -> R s s'.

(** Two states of the loader agree on a field of every interface. *)
Definition keeps {B} (field : InterfaceModel.t -> option B) (s s' : ExcelLoader.t) : Prop :=
  forall k, observe field s' k = observe field s k.

(** Two states of the loader agree on everything but the interfaces. *)
Definition keeps_rest (s s' : ExcelLoader.t) : Prop :=
  hosts s' = hosts s /\ templates s' = templates s /\ ospf_objects s' = ospf_objects s.

(** The coupling of method, keychain and key of an OSPF authentication: a
    keychain goes with the method key-chain and with no other, a key with no
    method or with message-digest only. *)
Definition authentication_coupled (a : InterfaceOspfAuthentication.t) : Prop :=
  (is_Some (InterfaceOspfAuthentication.keychain a) <->
   InterfaceOspfAuthentication.method a = Some InterfaceOspfAuthentication.key_chain) /\
  (is_Some (InterfaceOspfAuthentication.key a) ->
   InterfaceOspfAuthentication.method a = None \/
   InterfaceOspfAuthentication.method a = Some InterfaceOspfAuthentication.message_digest).

(** The IP address of a member of a container. *)
Definition ip_of (a : InterfaceIPv4Address.t) : N :=
  IPv4Interface.ip (InterfaceIPv4Address.address a).

(** The routed port with another IPv4 container and nothing else changed. *)
Definition same_but_ipv4 (port port' : InterfaceRouteportModel.t) : Prop :=
  InterfaceRouteportModel.vrf port' = InterfaceRouteportModel.vrf port /\
  InterfaceRouteportModel.ip_mtu port' = InterfaceRouteportModel.ip_mtu port /\
  InterfaceRouteportModel.ospf port' = InterfaceRouteportModel.ospf port /\
  InterfaceRouteportModel.bfd port' = InterfaceRouteportModel.bfd port /\
  (InterfaceRouteportModel.ipv4 port' ≫= InterfaceIPv4Container.unnumbered)
    = (InterfaceRouteportModel.ipv4 port ≫= InterfaceIPv4Container.unnumbered) /\
  (InterfaceRouteportModel.ipv4 port' ≫= InterfaceIPv4Container.dhcp_client)
    = (InterfaceRouteportModel.ipv4 port ≫= InterfaceIPv4Container.dhcp_client).

(** The container of a port whose address list exists and is [l]. *)
Definition with_address_list (port : InterfaceRouteportModel.t)
    (l : list InterfaceIPv4Address.t) : InterfaceRouteportModel.t :=
  InterfaceRouteportModel.set_ipv4
    (Some {| InterfaceIPv4Container.addresses := Some l;
             InterfaceIPv4Container.unnumbered :=
               InterfaceRouteportModel.ipv4 port ≫= InterfaceIPv4Container.unnumbered;
             InterfaceIPv4Container.dhcp_client :=
               InterfaceRouteportModel.ipv4 port ≫= InterfaceIPv4Container.dhcp_client |})
    port.

(** More of what the model holds for an interface. *)
Definition vrf_field (i : InterfaceModel.t) : option string :=
  InterfaceModel.l3_port i ≫= InterfaceRouteportModel.vrf.

Definition vrf_of : ExcelLoader.t -> interface_ref -> option string := observe vrf_field.

Definition bfd_field (i : InterfaceModel.t) : option InterfaceBfdConfig.t :=
  InterfaceModel.l3_port i ≫= InterfaceRouteportModel.bfd.

Definition bfd_of : ExcelLoader.t -> interface_ref -> option InterfaceBfdConfig.t :=
  observe bfd_field.

Definition lag_member_of : ExcelLoader.t -> interface_ref -> option InterfaceLagMemberConfig.t :=
  observe InterfaceModel.lag_member.

Definition description_of : ExcelLoader.t -> interface_ref -> option string :=
  observe InterfaceModel.description.

(** The two states hold the same hosts and the same interfaces, by name. *)
Definition same_names (s s' : ExcelLoader.t) : Prop :=
  dom (hosts s') = dom (hosts s) /\ dom (interfaces s') = dom (interfaces s).

(** The two states hold the same interface under every name outside [K]. *)
Definition untouched_outside (K : list interface_ref) (s s' : ExcelLoader.t) : Prop :=
  forall k, ~ In k K -> interfaces s' !! k = interfaces s !! k.

(** The Port-channel interfaces that a physical link names. *)
Definition lag_interfaces (link : PhysicalLink.t) : list interface_ref :=
  (match PhysicalLink.a_lag_group link with
   | Some group => [(PhysicalLink.a_host link, port_channel group)]
   | None => []
   end ++
   match PhysicalLink.z_lag_group link with
   | Some group => [(PhysicalLink.z_host link, port_channel group)]
   | None => []
   end)%list.

(** The hosts and the end interfaces of a link are in the inventory. *)
Definition physical_link_resolves (st : ExcelLoader.t) (link : PhysicalLink.t) : Prop :=
  is_Some (hosts st !! PhysicalLink.a_host link) /\
  is_Some (hosts st !! PhysicalLink.z_host link) /\
  is_Some (interfaces st !! a_side link) /\
  is_Some (interfaces st !! z_side link).

Definition l3_link_resolves (st : ExcelLoader.t) (link : L3Link.t) : Prop :=
  is_Some (hosts st !! L3Link.a_host link) /\
  is_Some (hosts st !! L3Link.z_host link) /\
  is_Some (interfaces st !! a_end link) /\
  is_Some (interfaces st !! z_end link).

(** The LAG-member config that a side of a link asks for. *)
Definition lag_member_from (default_lag_mode : string) (group : Z) (mode : option string)
  : InterfaceLagMemberConfig.t :=
  {| InterfaceLagMemberConfig.group := group;
     InterfaceLagMemberConfig.mode := default default_lag_mode mode |}.



(** The interface of a row of the sheet l3_ports. *)
Definition port_end (row : l3_port_row) : interface_ref :=
  (port_host row, port_interface row).

(** The BGP process of a host with a neighbor, and possibly a peer group,
    appended. *)
Definition with_neighbor (neighbor : BgpNeighbor.t) (peer_group : option BgpPeerGroup.t)
    (bgp : RoutingBgpProcess.t) : RoutingBgpProcess.t :=
  {| RoutingBgpProcess.asn := RoutingBgpProcess.asn bgp;
     RoutingBgpProcess.neighbors :=
       Some (default [] (RoutingBgpProcess.neighbors bgp) ++ [neighbor])%list;
     RoutingBgpProcess.peer_groups :=
       match peer_group with
       | Some group => Some (default [] (RoutingBgpProcess.peer_groups bgp) ++ [group])%list
       | None => RoutingBgpProcess.peer_groups bgp
       end |}.

(** The first peer group of the list that has the name. *)
Definition find_peer_group (name : string) (peer_groups : list BgpPeerGroup.t)
  : option BgpPeerGroup.t :=
  List.find (fun x => bool_decide (BgpPeerGroup.name x = name)) peer_groups.

(** The hosts and the registry are the same, and every OSPF object that was
    on the heap is there with the value it had. *)
Definition registry_kept (s s' : ExcelLoader.t) : Prop :=
  hosts s' = hosts s /\ templates s' = templates s /\
  forall l config, ospf_objects s !! l = Some config -> ospf_objects s' !! l = Some config.

(** A plain interface address as a member of a container. *)
Definition plain (x : IPv4Interface.t) : InterfaceIPv4Address.t :=
  {| InterfaceIPv4Address.address := x; InterfaceIPv4Address.secondary := None |}.

(** The VRF of an interface after an L3-link row, from the VRFs before it:
    the VRF the row gives for an end, unless it is one of the global VRFs;
    the z side is written last. *)
Definition vrf_from_link (link : L3Link.t) (before : interface_ref -> option string)
    (k : interface_ref) : option string :=
  if bool_decide (k = z_end link) && not_in_global_vrfs (L3Link.z_vrf link)
  then L3Link.z_vrf link
  else if bool_decide (k = a_end link) && not_in_global_vrfs (L3Link.a_vrf link)
  then L3Link.a_vrf link
  else before k.

(** The BFD config of an interface after an L3-link row, from the BFD
    configs before it. *)
Definition bfd_from_row (row : l3_row) (before : interface_ref -> option InterfaceBfdConfig.t)
    (k : interface_ref) : option InterfaceBfdConfig.t :=
  match bfd_template row with
  | Some name =>
      if bool_decide (k = a_end (l3_link row) \/ k = z_end (l3_link row))
      then Some {| InterfaceBfdConfig.template := name |}
      else before k
  | None => before k
  end.

(** The two states agree on everything but one host. *)
Definition same_but_host (host : string) (s s' : ExcelLoader.t) : Prop :=
  (forall h, h <> host -> hosts s' !! h = hosts s !! h) /\
  interfaces s' = interfaces s /\ templates s' = templates s /\
  ospf_objects s' = ospf_objects s.

(** The peer group that a BGP-neighbor row attaches to its host. *)
Definition peer_group_for (neighbor : BgpNeighbor.t) (peer_groups : list BgpPeerGroup.t)
  : option BgpPeerGroup.t :=
  BgpNeighbor.peer_group neighbor ≫= (fun name => find_peer_group name peer_groups).



End Properties.

(** ** Concrete inventories and rows *)

Module Examples.

Import ipaddress L3InterfaceModels Inventory ExcelLoader.

(** Modelled from the spec: the validator [ipv4_is_assignable] of
    [net_models.validators], a module that is not embedded here; the
    specification puts no condition on the addresses a port may hold beyond
    the invariants of the container, so every address is taken as assignable. *)
Definition any_address_assignable : Validators :=
  {| ipv4_is_assignable := fun _ => true |}.

Definition interface_address (a b c d prefixlen : N) (secondary : option bool)
  : InterfaceIPv4Address.t :=
  {| InterfaceIPv4Address.address :=
       {| IPv4Interface.ip := dotted a b c d; IPv4Interface.prefixlen := prefixlen |};
     InterfaceIPv4Address.secondary := secondary |}.

(** A routed port that holds 10.0.0.1/24 as its primary address. *)
Definition port_with_primary : InterfaceRouteportModel.t :=
  InterfaceRouteportModel.set_ipv4
    (Some {| InterfaceIPv4Container.addresses := Some [interface_address 10 0 0 1 24 None];
             InterfaceIPv4Container.unnumbered := None;
             InterfaceIPv4Container.dhcp_client := None |})
    InterfaceRouteportModel.empty.

(** An inventory of two routers, each with an Ethernet interface and a
    Port-channel interface, no templates. *)
Definition two_routers : ExcelLoader.t :=
  {| hosts := <["R1" := {| Host.config := None |}]> (<["R2" := {| Host.config := None |}]> ∅);
     interfaces :=
       <[("R1", "Gi0/0") := InterfaceModel.empty]>
         (<[("R2", "Gi0/0") := InterfaceModel.empty]>
            (<[("R1", "Port-channel1") := InterfaceModel.empty]>
               (<[("R2", "Port-channel2") := InterfaceModel.empty]> ∅)));
     templates := ∅;
     ospf_objects := ∅ |}.

(** The L3 link R1 Gi0/0 -- R2 Gi0/0. *)
Definition l3_link_between_routers (a_ipv4_address z_ipv4_address : option IPv4Interface.t)
    (ipv4_network : option IPv4Network.t) : L3Link.t :=
  {| L3Link.a_host := "R1"; L3Link.a_interface := "Gi0/0"; L3Link.a_description := None;
     L3Link.a_vrf := None; L3Link.a_ipv4_address := a_ipv4_address;
     L3Link.z_host := "R2"; L3Link.z_interface := "Gi0/0"; L3Link.z_description := None;
     L3Link.z_vrf := None; L3Link.z_ipv4_address := z_ipv4_address;
     L3Link.ipv4_network := ipv4_network |}.

Definition network_10_0_0_0_30 : IPv4Network.t :=
  {| IPv4Network.network_address := dotted 10 0 0 0; IPv4Network.prefixlen := 30 |}.

Definition network_10_0_0_1_32 : IPv4Network.t :=
  {| IPv4Network.network_address := dotted 10 0 0 1; IPv4Network.prefixlen := 32 |}.

Definition l3_row_with_network (ipv4_network : IPv4Network.t) : l3_row :=
  {| l3_link := l3_link_between_routers None None (Some ipv4_network);
     ospf_template := None; bfd_template := None |}.

(** The physical link R1 Gi0/0 -- R2 Gi0/0, no LAG. *)
Definition physical_row_between_routers (cdp_enabled : option cell) : physical_row :=
  {| link :=
       {| PhysicalLink.a_host := "R1"; PhysicalLink.a_interface := "Gi0/0";
          PhysicalLink.a_description := None;
          PhysicalLink.a_lag_group := None; PhysicalLink.a_lag_mode := None;
          PhysicalLink.z_host := "R2"; PhysicalLink.z_interface := "Gi0/0";
          PhysicalLink.z_description := None;
          PhysicalLink.z_lag_group := None; PhysicalLink.z_lag_mode := None |};
     cdp_enabled := cdp_enabled |}.

(** A physical link whose a-side interface is the Port-channel interface of
    its own LAG group: R1 Port-channel1 (group 1) -- R2 Gi0/0 (group 2). *)
Definition physical_row_on_port_channel : physical_row :=
  {| link :=
       {| PhysicalLink.a_host := "R1"; PhysicalLink.a_interface := "Port-channel1";
          PhysicalLink.a_description := None;
          PhysicalLink.a_lag_group := Some 1%Z; PhysicalLink.a_lag_mode := None;
          PhysicalLink.z_host := "R2"; PhysicalLink.z_interface := "Gi0/0";
          PhysicalLink.z_description := None;
          PhysicalLink.z_lag_group := Some 2%Z; PhysicalLink.z_lag_mode := None |};
     cdp_enabled := None |}.

(** The two routers after a physical link between them that disables CDP. *)
Definition routers_with_cdp_disabled : ExcelLoader.t :=
  fst (load_physical_link "active"
         (physical_row_between_routers (Some (CellBool false))) two_routers).

(** An L3 link that gives the address of its a side only, and no network. *)
Definition l3_row_with_lone_address : l3_row :=
  {| l3_link :=
       l3_link_between_routers
         (Some {| IPv4Interface.ip := dotted 10 0 0 1; IPv4Interface.prefixlen := 30 |})
         None None;
     ospf_template := None; bfd_template := None |}.

(** The OSPF template "P2P": process 1, area 0, point-to-point. *)
Definition p2p_template_row : ospf_template_row :=
  {| template_name := "P2P";
     template_fields :=
       {| InterfaceOspfConfig.process_id := Some 1%Z; InterfaceOspfConfig.area := Some 0%Z;
          InterfaceOspfConfig.network_type := Some InterfaceOspfConfig.point_to_point;
          InterfaceOspfConfig.cost := Some 10%Z; InterfaceOspfConfig.priority := None;
          InterfaceOspfConfig.authentication := None; InterfaceOspfConfig.timers := None;
          InterfaceOspfConfig.bfd := None |} |}.

(** The two routers once the sheet of OSPF templates is loaded. *)
Definition routers_with_template : ExcelLoader.t :=
  fst (load_ospf_templates [p2p_template_row] two_routers).

(** The L3 link between the routers with an OSPF template. *)
Definition l3_row_with_template (name : string) : l3_row :=
  {| l3_link := l3_link_between_routers None None None;
     ospf_template := Some name; bfd_template := None |}.

Definition rr_client_group : BgpPeerGroup.t :=
  {| BgpPeerGroup.name := "RR-CLIENT"; BgpPeerGroup.fields := [] |}.

(** A BGP neighbor of R1 in the peer group "RR-CLIENT". *)
Definition rr_client_neighbor_row : bgp_neighbor_row :=
  {| neighbor_host := "R1";
     neighbor := {| BgpNeighbor.peer_group := Some "RR-CLIENT";
                    BgpNeighbor.fields := [("address", CellStr "192.0.2.1")] |} |}.

(** [config.cost = cost] *)
Definition with_cost (cost : Z) (config : InterfaceOspfConfig.t) : InterfaceOspfConfig.t :=
  {| InterfaceOspfConfig.process_id := InterfaceOspfConfig.process_id config;
     InterfaceOspfConfig.area := InterfaceOspfConfig.area config;
     InterfaceOspfConfig.network_type := InterfaceOspfConfig.network_type config;
     InterfaceOspfConfig.cost := Some cost;
     InterfaceOspfConfig.priority := InterfaceOspfConfig.priority config;
     InterfaceOspfConfig.authentication := InterfaceOspfConfig.authentication config;
     InterfaceOspfConfig.timers := InterfaceOspfConfig.timers config;
     InterfaceOspfConfig.bfd := InterfaceOspfConfig.bfd config |}.

(** A validator of addresses that refuses the network address and the
    broadcast address of a network of more than two addresses. *)
Definition host_addresses_assignable : Validators :=
  {| ipv4_is_assignable := fun x =>
       (31 <=? IPv4Interface.prefixlen x)%N
       || negb ((IPv4Interface.ip x
                 =? IPv4Network.network_address (IPv4Interface.network x))%N
                || (IPv4Interface.ip x
                    =? IPv4Network.broadcast_address (IPv4Interface.network x))%N) |}.

Definition interface_10_0_0_0_24 : IPv4Interface.t :=
  {| IPv4Interface.ip := dotted 10 0 0 0; IPv4Interface.prefixlen := 24 |}.

Definition interface_10_0_1_1_24 : IPv4Interface.t :=
  {| IPv4Interface.ip := dotted 10 0 1 1; IPv4Interface.prefixlen := 24 |}.

Definition interface_10_0_0_1_30 : IPv4Interface.t :=
  {| IPv4Interface.ip := dotted 10 0 0 1; IPv4Interface.prefixlen := 30 |}.

Definition interface_10_0_0_2_30 : IPv4Interface.t :=
  {| IPv4Interface.ip := dotted 10 0 0 2; IPv4Interface.prefixlen := 30 |}.

(** A container whose two addresses lie in the same /24. *)
Definition container_with_overlap : InterfaceIPv4Container.t :=
  {| InterfaceIPv4Container.addresses :=
       Some [interface_address 10 0 0 1 24 None; interface_address 10 0 0 2 24 (Some true)];
     InterfaceIPv4Container.unnumbered := None;
     InterfaceIPv4Container.dhcp_client := None |}.

(** The physical link R1 Gi0/0 (LAG group 1) -- R2 Gi0/0 (LAG group 2). *)
Definition physical_row_with_lags : physical_row :=
  {| link :=
       {| PhysicalLink.a_host := "R1"; PhysicalLink.a_interface := "Gi0/0";
          PhysicalLink.a_description := None;
          PhysicalLink.a_lag_group := Some 1%Z; PhysicalLink.a_lag_mode := Some "passive";
          PhysicalLink.z_host := "R2"; PhysicalLink.z_interface := "Gi0/0";
          PhysicalLink.z_description := None;
          PhysicalLink.z_lag_group := Some 2%Z; PhysicalLink.z_lag_mode := None |};
     cdp_enabled := Some (CellBool true) |}.

(** A physical link to a host that the inventory does not hold. *)
Definition physical_row_to_unknown_host : physical_row :=
  {| link :=
       {| PhysicalLink.a_host := "R1"; PhysicalLink.a_interface := "Gi0/0";
          PhysicalLink.a_description := None;
          PhysicalLink.a_lag_group := None; PhysicalLink.a_lag_mode := None;
          PhysicalLink.z_host := "R9"; PhysicalLink.z_interface := "Gi0/0";
          PhysicalLink.z_description := None;
          PhysicalLink.z_lag_group := None; PhysicalLink.z_lag_mode := None |};
     cdp_enabled := None |}.

(** The L3 link R1 Gi0/0 (VRF "BLUE") -- R2 Gi0/0 (VRF "global"), with both
    addresses and a network. *)
Definition l3_row_with_addresses : l3_row :=
  {| l3_link :=
       {| L3Link.a_host := "R1"; L3Link.a_interface := "Gi0/0"; L3Link.a_description := None;
          L3Link.a_vrf := Some "BLUE"; L3Link.a_ipv4_address := Some interface_10_0_0_1_30;
          L3Link.z_host := "R2"; L3Link.z_interface := "Gi0/0"; L3Link.z_description := None;
          L3Link.z_vrf := Some "global"; L3Link.z_ipv4_address := Some interface_10_0_0_2_30;
          L3Link.ipv4_network := Some network_10_0_0_1_32 |};
     ospf_template := None; bfd_template := None |}.

(** An L3 link to an interface that the inventory does not hold. *)
Definition l3_row_to_unknown_interface : l3_row :=
  {| l3_link :=
       {| L3Link.a_host := "R1"; L3Link.a_interface := "Gi0/0"; L3Link.a_description := None;
          L3Link.a_vrf := None; L3Link.a_ipv4_address := None;
          L3Link.z_host := "R2"; L3Link.z_interface := "Gi0/9"; L3Link.z_description := None;
          L3Link.z_vrf := None; L3Link.z_ipv4_address := None;
          L3Link.ipv4_network := None |};
     ospf_template := None; bfd_template := None |}.

(** The L3 link between the routers with a BFD template and no OSPF template. *)
Definition l3_row_with_bfd (name : string) : l3_row :=
  {| l3_link := l3_link_between_routers None None None;
     ospf_template := None; bfd_template := Some name |}.

(** An OSPF template with an area and no process_id. *)
Definition template_row_without_process : ospf_template_row :=
  {| template_name := "BROKEN";
     template_fields :=
       {| InterfaceOspfConfig.process_id := None; InterfaceOspfConfig.area := Some 0%Z;
          InterfaceOspfConfig.network_type := None;
          InterfaceOspfConfig.cost := None; InterfaceOspfConfig.priority := None;
          InterfaceOspfConfig.authentication := None; InterfaceOspfConfig.timers := None;
          InterfaceOspfConfig.bfd := None |} |}.

(** The row that makes R1 a BGP router. *)
Definition r1_router_row (asn : Z) : bgp_router_row :=
  {| router_host := "R1"; router_asn := asn |}.

(** The two routers once R1 is a BGP router of AS 65001. *)
Definition routers_with_bgp : ExcelLoader.t :=
  fst (load_bgp_router (r1_router_row 65001) two_routers).

(** A row of the sheet of L3 ports for R1 Gi0/0. *)
Definition r1_port_row (description vrf : option string) (address : option IPv4Interface.t)
  : l3_port_row :=
  {| port_host := "R1"; port_interface := "Gi0/0"; port_description := description;
     port_vrf := vrf; port_ipv4_address := address |}.

End Examples.

(** ** Facts about the runtime *)

Section Runtime.

Context {S : Type}.

Lemma bind_inv {A B} (m : M S A) (k : A -> M S B) s s' r :
  bind m k s = (s', r) ->
  (exists a s1, m s = (s1, Ok a) /\ k a s1 = (s', r)) \/
  (exists e, m s = (s', Raise e) /\ r = Raise e).
Proof.
  unfold bind. destruct (m s) as [s1 [a|e]]; intros Hk.
  - left. eauto.
  - right. injection Hk as <- <-. eauto.
Qed.

Lemma bind_ok_inv {A B} (m : M S A) (k : A -> M S B) s s' b :
  bind m k s = (s', Ok b) ->
  exists a s1, m s = (s1, Ok a) /\ k a s1 = (s', Ok b).
Proof.
  intros Hb. apply bind_inv in Hb as [Hok | (e & _ & He)]; [exact Hok | discriminate].
Qed.

Lemma bind_run {A B} (m : M S A) (k : A -> M S B) s s1 a :
  m s = (s1, Ok a) -> bind m k s = k a s1.
Proof. unfold bind. intros ->. reflexivity. Qed.

Lemma bind_raise {A B} (m : M S A) (k : A -> M S B) s s1 e :
  m s = (s1, Raise e) -> bind m k s = (s1, Raise e).
Proof. unfold bind. intros ->. reflexivity. Qed.

Import Properties.

Section Preserves.

Variable R : S -> S -> Prop.
Hypothesis R_refl : forall s, R s s.
Hypothesis R_trans : forall s1 s2 s3, R s1 s2 -> R s2 s3 -> R s1 s3.

Lemma preserves_ret {A} (a : A) : preserves R (ret a).
Proof. intros s s' r [= <- _]. apply R_refl. Qed.

Lemma preserves_raise {A} e : preserves R (@raise S A e).
Proof. intros s s' r [= <- _]. apply R_refl. Qed.

Lemma preserves_lift {A} (x : result A) : preserves R (lift x).
Proof. intros s s' r [= <- _]. apply R_refl. Qed.

Lemma preserves_get : preserves R (@get S).
Proof. intros s s' r [= <- _]. apply R_refl. Qed.

Lemma preserves_bind {A B} (m : M S A) (k : A -> M S B) :
  preserves R m -> (forall a, preserves R (k a)) -> preserves R (bind m k).
Proof.
  intros Hm Hk s s' r Hb.
  apply bind_inv in Hb as [(a & s1 & H1 & H2) | (e & H1 & _)].
  - eapply R_trans; [eapply Hm | eapply Hk]; eassumption.
  - eapply Hm; eassumption.
Qed.

Lemma preserves_when (b : bool) (m : M S unit) :
  preserves R m -> preserves R (when b m).
Proof. destruct b; simpl; [trivial | intros _; apply preserves_ret]. Qed.

Lemma preserves_for_each {A} (l : list A) (body : A -> M S unit) :
  (forall x, preserves R (body x)) -> preserves R (for_each l body).
Proof.
  intros Hbody. induction l as [|x l IH]; simpl.
  - apply preserves_ret.
  - apply preserves_bind; [apply Hbody | intros _; exact IH].
Qed.

Lemma preserves_modify (f : S -> S) :
  (forall s, R s (f s)) -> preserves R (modify f).
Proof. intros Hf s s' r [= <- _]. apply Hf. Qed.

End Preserves.

End Runtime.

(** ** Networks and netmasks *)

Section Addresses.

Import ipaddress L3InterfaceModels Properties.
Open Scope N_scope.

Lemma ones_testbit n i : N.testbit (N.ones n) i = (i <? n).
Proof.
  destruct (N.ltb_spec i n) as [Hlt | Hge].
  - apply N.ones_spec_low. exact Hlt.
  - apply N.ones_spec_high. exact Hge.
Qed.

Lemma netmask_testbit p i :
  N.testbit (ip_int_from_prefix p) i = (i <? 32) && (32 <=? i + p).
Proof.
  unfold ip_int_from_prefix, ALL_ONES.
  rewrite N.lxor_spec, N.shiftr_spec by apply N.le_0_l.
  rewrite !ones_testbit.
  destruct (N.ltb_spec i 32), (N.ltb_spec (i + p) 32), (N.leb_spec 32 (i + p));
    simpl; try reflexivity; lia.
Qed.

Lemma netmask_narrows p q :
  p <= q -> N.land (ip_int_from_prefix q) (ip_int_from_prefix p) = ip_int_from_prefix p.
Proof.
  intros Hpq. apply N.bits_inj. intros i.
  rewrite N.land_spec, !netmask_testbit.
  destruct (N.ltb_spec i 32), (N.leb_spec 32 (i + p)), (N.leb_spec 32 (i + q));
    simpl; try reflexivity; lia.
Qed.

Lemma in_network_of_iff x a :
  in_network_of x a <->
  N.land x (ip_int_from_prefix (IPv4Interface.prefixlen (InterfaceIPv4Address.address a))) =
  N.land (IPv4Interface.ip (InterfaceIPv4Address.address a))
    (ip_int_from_prefix (IPv4Interface.prefixlen (InterfaceIPv4Address.address a))).
Proof.
  unfold in_network_of, IPv4Network.contains, IPv4Network.netmask, IPv4Interface.network.
  simpl. apply N.eqb_eq.
Qed.

Lemma own_network a : in_network_of (IPv4Interface.ip (InterfaceIPv4Address.address a)) a.
Proof. apply in_network_of_iff. reflexivity. Qed.

Lemma in_wider_network x a b :
  IPv4Interface.prefixlen (InterfaceIPv4Address.address a) <=
    IPv4Interface.prefixlen (InterfaceIPv4Address.address b) ->
  in_network_of x a -> in_network_of x b ->
  in_network_of (IPv4Interface.ip (InterfaceIPv4Address.address b)) a.
Proof.
  rewrite !in_network_of_iff.
  set (ma := ip_int_from_prefix _). set (mb := ip_int_from_prefix _).
  intros Hle Ha Hb.
  assert (Hm : N.land mb ma = ma) by (apply netmask_narrows; exact Hle).
  rewrite <- Ha, <- Hm, !N.land_assoc, Hb. reflexivity.
Qed.

Lemma networks_overlap_iff a b :
  networks_overlap a b <->
  InterfaceIPv4Container.address_in_network_of a b = true \/
  InterfaceIPv4Container.address_in_network_of b a = true.
Proof.
  change (networks_overlap a b <->
          in_network_of (IPv4Interface.ip (InterfaceIPv4Address.address a)) b \/
          in_network_of (IPv4Interface.ip (InterfaceIPv4Address.address b)) a).
  split.
  - intros (x & Ha & Hb).
    destruct (N.le_ge_cases
                (IPv4Interface.prefixlen (InterfaceIPv4Address.address a))
                (IPv4Interface.prefixlen (InterfaceIPv4Address.address b))) as [Hle | Hle].
    + right. eapply in_wider_network; eassumption.
    + left. eapply in_wider_network; eassumption.
  - intros [H | H].
    + exists (IPv4Interface.ip (InterfaceIPv4Address.address a)). split; [apply own_network | exact H].
    + exists (IPv4Interface.ip (InterfaceIPv4Address.address b)). split; [exact H | apply own_network].
Qed.

End Addresses.

(** ** The IPv4 container and [add_ipv4_address] *)

Section Container.

Import ipaddress Pydantic L3InterfaceModels Properties.
Import InterfaceIPv4Container.

(** [remove] on a member. *)
Lemma remove_cons_eq `{EqDecision A} (x : A) l : remove x (x :: l) = Some l.
Proof. simpl. destruct (decide (x = x)); [reflexivity | contradiction]. Qed.

Lemma remove_cons_ne `{EqDecision A} (x y : A) l :
  y <> x -> remove x (y :: l) = cons y <$> remove x l.
Proof.
  intros Hne. simpl. destruct (decide (y = x)); [contradiction |].
  destruct (remove x l); reflexivity.
Qed.

Lemma remove_In `{EqDecision A} (x : A) l : In x l -> is_Some (remove x l).
Proof.
  induction l as [|y l IH]; intros Hin; [destruct Hin |].
  destruct (decide (y = x)) as [-> | Hne].
  - rewrite remove_cons_eq. eauto.
  - rewrite remove_cons_ne by exact Hne.
    destruct Hin as [Heq | Hin]; [contradiction |].
    destruct (IH Hin) as [r ->]. simpl. eauto.
Qed.

Lemma remove_incl `{EqDecision A} (x : A) l r : remove x l = Some r -> incl r l.
Proof.
  revert r. induction l as [|y l IH]; intros r; [discriminate |].
  destruct (decide (y = x)) as [-> | Hne].
  - rewrite remove_cons_eq. intros [= <-]. apply incl_tl, incl_refl.
  - rewrite remove_cons_ne by exact Hne.
    destruct (remove x l) as [r'|]; [| discriminate].
    intros [= <-]. apply incl_cons; [left; reflexivity | apply incl_tl, IH; reflexivity].
Qed.

Lemma scan_others_None a others :
  scan_others a others = None <-> Forall (clear_of a) others.
Proof.
  unfold clear_of. induction others as [|o others IH]; simpl.
  - split; [constructor | reflexivity].
  - destruct (address_in_network_of a o) eqn:Hao.
    + split; [discriminate | intros H; inversion H; congruence].
    + rewrite IH. split; [intros H; constructor; assumption | intros H; inversion H; assumption].
Qed.

Lemma scan_addresses_None all todo :
  incl todo all ->
  scan_addresses all todo = None <->
  (forall a, In a todo -> forall others, remove a all = Some others -> Forall (clear_of a) others).
Proof.
  induction todo as [|a todo IH]; simpl; intros Hincl.
  - split; [intros _ a [] | reflexivity].
  - assert (Ha : In a all) by (apply Hincl; left; reflexivity).
    assert (Htodo : incl todo all) by (intros x Hx; apply Hincl; right; exact Hx).
    destruct (remove_In a all Ha) as [others Hothers]. rewrite Hothers.
    destruct (scan_others a others) eqn:Hscan.
    + split; [discriminate |]. intros H.
      specialize (H a (or_introl eq_refl) others Hothers).
      apply scan_others_None in H. congruence.
    + rewrite (IH Htodo). apply scan_others_None in Hscan. split.
      * intros H b [<- | Hb] others' Hr; [congruence | eapply H; eassumption].
      * intros H b Hb. apply H. right. exact Hb.
Qed.

(** The quadratic scan accepts a list exactly when no member lies in the
    network of a member at another place. *)
Lemma scan_pairs l :
  (forall a, In a l -> forall others, remove a l = Some others -> Forall (clear_of a) others) <->
  ForallOrdPairs (fun a b => clear_of a b /\ clear_of b a) l.
Proof.
  induction l as [|x t IH].
  - split; [constructor | intros _ a []].
  - split.
    + intros H.
      assert (Hx : Forall (clear_of x) t).
      { apply (H x (or_introl eq_refl)). apply remove_cons_eq. }
      constructor.
      * apply List.Forall_forall. intros b Hb. split; [eapply List.Forall_forall; eassumption |].
        destruct (decide (x = b)) as [<- | Hne]; [eapply List.Forall_forall; eassumption |].
        destruct (remove_In b t Hb) as [r Hr].
        specialize (H b (or_intror Hb) (x :: r)).
        rewrite remove_cons_ne, Hr in H by exact Hne.
        specialize (H eq_refl). inversion H; assumption.
      * apply IH. intros a Ha others Hr.
        destruct (decide (x = a)) as [<- | Hne].
        -- apply List.Forall_forall. intros o Ho.
           eapply List.Forall_forall; [exact Hx |]. eapply remove_incl; eassumption.
        -- specialize (H a (or_intror Ha) (x :: others)).
           rewrite remove_cons_ne, Hr in H by exact Hne.
           specialize (H eq_refl). inversion H; assumption.
    + intros H. inversion H as [|? ? Hx Ht]; subst.
      intros a Ha others.
      destruct (decide (x = a)) as [<- | Hne].
      * rewrite remove_cons_eq. intros [= <-].
        eapply List.Forall_impl; [| exact Hx]. intros b [Hb _]. exact Hb.
      * rewrite remove_cons_ne by exact Hne.
        destruct Ha as [Heq | Ha]; [contradiction |].
        destruct (remove a t) as [r|] eqn:Hr; [| discriminate].
        intros [= <-]. constructor.
        -- eapply List.Forall_forall in Hx; [| exact Ha]. apply Hx.
        -- destruct IH as [_ IH]. eapply (IH Ht); eassumption.
Qed.

Lemma ForallOrdPairs_impl {A} (P Q : A -> A -> Prop) l :
  (forall a b, P a b -> Q a b) -> ForallOrdPairs P l -> ForallOrdPairs Q l.
Proof.
  intros HPQ H. induction H as [|a l Ha Hl IH]; constructor.
  - eapply List.Forall_impl; [| exact Ha]. intros b. apply HPQ.
  - exact IH.
Qed.

Lemma clear_pair_iff a b : clear_of a b /\ clear_of b a <-> ~ networks_overlap a b.
Proof.
  rewrite networks_overlap_iff. unfold clear_of.
  destruct (address_in_network_of a b), (address_in_network_of b a); intuition congruence.
Qed.

Lemma validate_non_overlapping_None l u d :
  validate_non_overlapping {| addresses := Some l; unnumbered := u; dhcp_client := d |} = None
  <-> non_overlapping l.
Proof.
  unfold validate_non_overlapping, non_overlapping. simpl.
  rewrite scan_addresses_None by apply incl_refl.
  rewrite scan_pairs.
  split; apply ForallOrdPairs_impl; intros a b; apply clear_pair_iff.
Qed.

Lemma validate_single_primary_None l u d :
  validate_single_primary {| addresses := Some l; unnumbered := u; dhcp_client := d |} = None
  <-> at_most_one_primary l.
Proof.
  unfold validate_single_primary, at_most_one_primary. simpl.
  destruct (Nat.eqb_spec (length l) 1) as [Hone | Hmore].
  - split; [intros _ | reflexivity].
    rewrite <- Hone. apply List.filter_length_le.
  - destruct (Nat.ltb_spec 1 (length (List.filter is_primary l))).
    + split; [discriminate | lia].
    + split; [intros _; assumption | reflexivity].
Qed.


(** Validation of a container: it is returned as it is when it is valid,
    and refused otherwise. *)
Lemma validate_container c :
  (valid_container c /\ validate_model validators c = Ok c) \/
  (~ valid_container c /\ exists errors, validate_model validators c = Raise (ValidationError errors)).
Proof.
  destruct c as [[l|] u d].
  - unfold valid_container, valid_addresses, validate_model, validators. simpl addresses.
    pose proof (validate_non_overlapping_None l u d) as Hno.
    pose proof (validate_single_primary_None l u d) as Hsp.
    simpl omap.
    destruct (validate_non_overlapping _) as [e1|], (validate_single_primary _) as [e2|].
    + right. split; [intros [Hv _]; apply Hno in Hv; discriminate | eauto].
    + right. split; [intros [Hv _]; apply Hno in Hv; discriminate | eauto].
    + right. split; [intros [_ Hv]; apply Hsp in Hv; discriminate | eauto].
    + left. split; [split; [apply Hno | apply Hsp]; reflexivity | reflexivity].
  - left. split; [exact I | reflexivity].
Qed.

Lemma clone_Ok c c' : clone c = Ok c' -> c' = c /\ valid_container c'.
Proof.
  unfold clone. destruct (validate_container c) as [[Hv ->] | [_ [errors ->]]].
  - intros [= <-]. split; [reflexivity | exact Hv].
  - discriminate.
Qed.

Lemma new_Ok l u d c : new l u d = Ok c -> valid_container c.
Proof. intros Hnew. apply (clone_Ok _ c) in Hnew as [_ Hv]. exact Hv. Qed.

End Container.

Section AddAddress.

Import ipaddress Pydantic L3InterfaceModels Properties.
Import InterfaceRouteportModel.

Context `{Validators}.

Lemma add_ipv4_address_run port arg a :
  to_interface_address arg = Ok a ->
  add_ipv4_address arg port =
  match InterfaceIPv4Container.clone (appended port a) with
  | Ok c => (set_ipv4 (Some c) port, Ok tt)
  | Raise e => (set_ipv4 (Some (appended port a)) port, Raise e)
  end.
Proof.
  intros Harg. unfold add_ipv4_address, appended, address_list.
  destruct port as [[[[l|] u d]|] v m o b]; unfold bind, get, when, lift, modify, the_ipv4;
    simpl; rewrite Harg; simpl;
    destruct (InterfaceIPv4Container.clone _); reflexivity.
Qed.


Lemma networks_overlap_sym a b : networks_overlap a b -> networks_overlap b a.
Proof. intros (x & Ha & Hb). exists x. split; assumption. Qed.

Lemma non_overlapping_app_inv l a b :
  non_overlapping (l ++ [a]) -> In b l -> ~ networks_overlap a b.
Proof.
  unfold non_overlapping. induction l as [|x l IH]; intros Hfop Hin; [destruct Hin |].
  inversion Hfop as [|? ? Hx Hl]; subst.
  destruct Hin as [-> | Hin].
  - intros Hov. eapply List.Forall_forall in Hx; [apply Hx, networks_overlap_sym, Hov |].
    apply in_or_app. right. left. reflexivity.
  - apply IH; assumption.
Qed.

Lemma second_primary_refused l a :
  introduces_second_primary l a -> ~ at_most_one_primary (l ++ [a]).
Proof.
  unfold at_most_one_primary. intros (Ha & b & Hb & Hpb).
  rewrite List.filter_app, length_app. simpl. rewrite Ha. simpl.
  assert (Hin : In b (List.filter InterfaceIPv4Container.is_primary l))
    by (apply List.filter_In; split; assumption).
  destruct (List.filter InterfaceIPv4Container.is_primary l); [destruct Hin | simpl; lia].
Qed.

Lemma conflict_refused l a :
  introduces_overlap l a \/ introduces_second_primary l a -> ~ valid_addresses (l ++ [a]).
Proof.
  intros [(b & Hb & Hov) | Hsp] [Hno Hone].
  - eapply non_overlapping_app_inv; eassumption.
  - eapply second_primary_refused; eassumption.
Qed.

(** C1 (as amended).  A container that passed validation, at construction or
    in [clone], has no two members with overlapping networks and at most one
    member with secondary in {false, null}.  On a routed port whose addresses
    are in such a state, [add_ipv4_address] with an address that introduces
    an overlap or a second primary fails with a validation error, and the
    address list of the container is left with the refused address appended
    to what it held.  With an address that keeps the list valid it succeeds,
    and the list is the former one followed by the address. *)
Theorem add_ipv4_address_validates :
  (forall c c', InterfaceIPv4Container.clone c = Ok c' -> c' = c /\ valid_container c') /\
  (forall l u d c, InterfaceIPv4Container.new l u d = Ok c -> valid_container c) /\
  (forall port arg a,
      valid_port port ->
      to_interface_address arg = Ok a ->
      introduces_overlap (address_list port) a \/
        introduces_second_primary (address_list port) a ->
      (exists errors, snd (add_ipv4_address arg port) = Raise (ValidationError errors)) /\
      address_list (fst (add_ipv4_address arg port)) = (address_list port ++ [a])%list) /\
  (forall port arg a,
      to_interface_address arg = Ok a ->
      valid_addresses (address_list port ++ [a]) ->
      snd (add_ipv4_address arg port) = Ok tt /\
      address_list (fst (add_ipv4_address arg port)) = (address_list port ++ [a])%list).
Proof.
  split; [exact clone_Ok |]. split; [exact new_Ok |]. split.
  - intros port arg a _ Harg Hconflict.
    apply conflict_refused in Hconflict.
    rewrite (add_ipv4_address_run _ _ _ Harg). unfold InterfaceIPv4Container.clone.
    destruct (validate_container (appended port a)) as [[Hv _] | [_ [errors ->]]].
    + contradiction.
    + simpl. split; [eauto | reflexivity].
  - intros port arg a Harg Hvalid.
    rewrite (add_ipv4_address_run _ _ _ Harg). unfold InterfaceIPv4Container.clone.
    destruct (validate_container (appended port a)) as [[_ ->] | [Hv _]].
    + simpl. split; reflexivity.
    + contradiction.
Qed.

End AddAddress.

Section AddAddressExamples.

Import ipaddress L3InterfaceModels Properties Examples.
Import InterfaceRouteportModel.

Lemma port_with_primary_valid : valid_port port_with_primary.
Proof.
  split.
  - repeat constructor.
  - unfold at_most_one_primary. simpl. lia.
Qed.

Lemma second_address_overlaps :
  introduces_overlap (address_list port_with_primary) (interface_address 10 0 0 2 24 (Some true)).
Proof.
  exists (interface_address 10 0 0 1 24 None). split; [left; reflexivity |].
  exists (dotted 10 0 0 2). split; reflexivity.
Qed.

Lemma third_address_fits :
  valid_addresses (address_list port_with_primary ++ [interface_address 10 0 1 2 24 (Some true)]).
Proof.
  destruct (validate_container
              (appended port_with_primary (interface_address 10 0 1 2 24 (Some true))))
    as [[Hvalid _] | [_ [errors Herrors]]].
  - exact Hvalid.
  - vm_compute in Herrors. discriminate Herrors.
Qed.

Lemma add_ipv4_address_validates_witness :
  ((exists errors,
       snd (add_ipv4_address (H := any_address_assignable)
              (inl (interface_address 10 0 0 2 24 (Some true))) port_with_primary)
       = Raise (ValidationError errors)) /\
   address_list
     (fst (add_ipv4_address (H := any_address_assignable)
             (inl (interface_address 10 0 0 2 24 (Some true))) port_with_primary))
   = [interface_address 10 0 0 1 24 None; interface_address 10 0 0 2 24 (Some true)]) /\
  (snd (add_ipv4_address (H := any_address_assignable)
          (inl (interface_address 10 0 1 2 24 (Some true))) port_with_primary) = Ok tt /\
   address_list
     (fst (add_ipv4_address (H := any_address_assignable)
             (inl (interface_address 10 0 1 2 24 (Some true))) port_with_primary))
   = [interface_address 10 0 0 1 24 None; interface_address 10 0 1 2 24 (Some true)]).
Proof.
  split.
  - refine (proj1 (proj2 (proj2 (add_ipv4_address_validates (H := any_address_assignable))))
              port_with_primary (inl (interface_address 10 0 0 2 24 (Some true)))
              (interface_address 10 0 0 2 24 (Some true)) _ _ _).
    + exact port_with_primary_valid.
    + reflexivity.
    + left. exact second_address_overlaps.
  - refine (proj2 (proj2 (proj2 (add_ipv4_address_validates (H := any_address_assignable))))
              port_with_primary (inl (interface_address 10 0 1 2 24 (Some true)))
              (interface_address 10 0 1 2 24 (Some true)) _ _).
    + reflexivity.
    + exact third_address_fits.
Defined.

(** C1 as stated fails: the port holds the valid list [10.0.0.1/24]; adding
    the overlapping secondary address 10.0.0.2/24 raises the validation
    error, but the address list of the container is no longer what it was,
    and the container the port is left with is not valid. *)
Lemma add_ipv4_address_leaves_refused_address :
  valid_port port_with_primary /\
  introduces_overlap (address_list port_with_primary) (interface_address 10 0 0 2 24 (Some true)) /\
  is_validation_error
    (snd (add_ipv4_address (H := any_address_assignable)
            (inl (interface_address 10 0 0 2 24 (Some true))) port_with_primary)) = true /\
  address_list
    (fst (add_ipv4_address (H := any_address_assignable)
            (inl (interface_address 10 0 0 2 24 (Some true))) port_with_primary))
    <> address_list port_with_primary /\
  ~ valid_port
      (fst (add_ipv4_address (H := any_address_assignable)
              (inl (interface_address 10 0 0 2 24 (Some true))) port_with_primary)).
Proof.
  split; [exact port_with_primary_valid |].
  split; [exact second_address_overlaps |].
  split; [reflexivity |].
  split; [discriminate |].
  apply (conflict_refused (address_list port_with_primary)).
  left. exact second_address_overlaps.
Qed.

End AddAddressExamples.

(** ** The OSPF key and the OSPF config *)

Section Ospf.

Import Pydantic L3InterfaceModels Properties.

Lemma substring_prefix n s :
  (n <= String.length s)%nat ->
  exists rest, s = substring 0 n s +:+ rest /\ String.length (substring 0 n s) = n.
Proof.
  revert s. induction n as [|n IH]; intros s Hn.
  - exists s. destruct s; split; reflexivity.
  - destruct s as [|c s]; simpl in Hn; [lia |].
    destruct (IH s) as (rest & Hs & Hlen); [lia |].
    exists rest. split.
    + change (String c s = String c (substring 0 n s +:+ rest)). f_equal. exact Hs.
    + simpl. f_equal. exact Hlen.
Qed.

(** C9.  A key value longer than 8 characters is accepted and stored cut to
    its first 8 characters; a value of at most 8 characters is stored as it
    is. *)
Theorem key_ospf_truncates value :
  ((8 < String.length value)%nat ->
   exists stored rest,
     KeyOspf.new value = Ok {| KeyOspf.value := stored |} /\
     value = stored +:+ rest /\ String.length stored = 8%nat) /\
  ((String.length value <= 8)%nat ->
   KeyOspf.new value = Ok {| KeyOspf.value := value |}).
Proof.
  unfold KeyOspf.new, KeyOspf.truncate_value, constr_max_length. split; intros Hlen.
  - destruct (substring_prefix 8 value) as (rest & Hvalue & Hstored); [lia |].
    exists (substring 0 8 value), rest.
    destruct (Nat.ltb_spec 8 (String.length value)); [| lia].
    rewrite Hstored. simpl. auto.
  - destruct (Nat.ltb_spec 8 (String.length value)); [lia |].
    destruct (Nat.leb_spec (String.length value) 8); [reflexivity | lia].
Qed.

Lemma key_ospf_truncates_witness :
  (exists stored rest,
     KeyOspf.new "0123456789" = Ok {| KeyOspf.value := stored |} /\
     "0123456789" = stored +:+ rest /\ String.length stored = 8%nat) /\
  KeyOspf.new "secret" = Ok {| KeyOspf.value := "secret" |}.
Proof.
  split.
  - apply (proj1 (key_ospf_truncates "0123456789")). simpl. lia.
  - apply (proj2 (key_ospf_truncates "secret")). simpl. lia.
Defined.

Lemma validate_ospf_config c :
  (process_and_area_coupled c /\ validate_model InterfaceOspfConfig.validators c = Ok c) \/
  (~ process_and_area_coupled c /\
   exists errors, validate_model InterfaceOspfConfig.validators c = Raise (ValidationError errors)).
Proof.
  unfold process_and_area_coupled.
  destruct c as [[p|] [a|] nt co pr au ti b]; simpl.
  - left. split; [split; eauto | reflexivity].
  - right. split; [intros [Hpa _]; destruct Hpa as [? ?]; [eauto | discriminate] | eauto].
  - right. split; [intros [_ Hap]; destruct Hap as [? ?]; [eauto | discriminate] | eauto].
  - left. split; [split; intros [? ?]; discriminate | reflexivity].
Qed.

Lemma ospf_clone_Ok c c' :
  InterfaceOspfConfig.clone c = Ok c' -> c' = c /\ process_and_area_coupled c'.
Proof.
  unfold InterfaceOspfConfig.clone.
  destruct (validate_ospf_config c) as [[Hv ->] | [_ [errors ->]]].
  - intros [= <-]. split; [reflexivity | exact Hv].
  - discriminate.
Qed.

(** C3.  A successfully constructed OSPF config has process_id and area both
    present or both absent; the construction with process_id and without
    area, or with area and without process_id, fails. *)
Theorem ospf_process_id_and_area_coupled
    network_type cost priority authentication timers bfd :
  (forall process_id area c,
      InterfaceOspfConfig.new process_id area network_type cost priority
        authentication timers bfd = Ok c ->
      process_and_area_coupled c) /\
  (forall process_id,
      InterfaceOspfConfig.new (Some process_id) None network_type cost priority
        authentication timers bfd = Raise (ValidationError [AreaRequired])) /\
  (forall area,
      InterfaceOspfConfig.new None (Some area) network_type cost priority
        authentication timers bfd = Raise (ValidationError [ProcessIdRequired])).
Proof.
  split; [| split; reflexivity].
  intros process_id area c Hnew.
  apply (ospf_clone_Ok _ c) in Hnew as [_ Hc]. exact Hc.
Qed.

Lemma ospf_process_id_and_area_coupled_witness :
  process_and_area_coupled
    {| InterfaceOspfConfig.process_id := Some 1%Z; InterfaceOspfConfig.area := Some 0%Z;
       InterfaceOspfConfig.network_type := Some InterfaceOspfConfig.point_to_point;
       InterfaceOspfConfig.cost := None; InterfaceOspfConfig.priority := None;
       InterfaceOspfConfig.authentication := None; InterfaceOspfConfig.timers := None;
       InterfaceOspfConfig.bfd := None |}.
Proof.
  apply (proj1 (ospf_process_id_and_area_coupled
                  (Some InterfaceOspfConfig.point_to_point) None None None None None)
           (Some 1%Z) (Some 0%Z)).
  reflexivity.
Defined.

End Ospf.

(** ** What the steps of the loader leave as it was *)

Section Frame.

Import ipaddress Pydantic L3InterfaceModels Inventory ExcelLoader Properties.

(** A relation [R] between the states of the loader that every write of an
    interface keeps, provided the interface written is related by [C] to the
    one it replaces. *)
Variable R : ExcelLoader.t -> ExcelLoader.t -> Prop.
Variable C : InterfaceModel.t -> InterfaceModel.t -> Prop.

Hypothesis R_refl : forall s, R s s.
Hypothesis R_trans : forall s1 s2 s3, R s1 s2 -> R s2 s3 -> R s1 s3.
Hypothesis R_write : forall s k i v,
  interfaces s !! k = Some i -> C i v ->
  R s (set_interfaces (<[k := v]> (interfaces s)) s).

Lemma frame_pure {A} (m : M ExcelLoader.t A) :
  (forall s, fst (m s) = s) -> preserves R m.
Proof. intros Hm s s' r Hrun. specialize (Hm s). rewrite Hrun in Hm. simpl in Hm. subst. apply R_refl. Qed.

Lemma frame_get_host h : preserves R (get_host h).
Proof. apply frame_pure. intros s. unfold get_host. destruct (hosts s !! h); reflexivity. Qed.

Lemma frame_get_interface h i : preserves R (get_interface h i).
Proof.
  apply frame_pure. intros s. unfold get_interface.
  destruct (interfaces s !! (h, i)); reflexivity.
Qed.

Lemma frame_templates_ospf : preserves R templates_ospf.
Proof.
  apply frame_pure. intros s. unfold templates_ospf.
  destruct (templates s !! "ospf"); reflexivity.
Qed.

Lemma frame_update_interface k f :
  (forall i, C i (f i)) -> preserves R (update_interface k f).
Proof.
  intros HC s s' r. unfold update_interface, bind, read_interface, write_interface, modify.
  destruct (interfaces s !! k) as [i|] eqn:Hk; intros [= <- _].
  - apply R_write with i; [exact Hk | apply HC].
  - apply R_refl.
Qed.

Lemma frame_on_l3_port {A} k attr (m : M InterfaceRouteportModel.t A) :
  (forall i port port' r,
      InterfaceModel.l3_port i = Some port -> m port = (port', r) ->
      C i (InterfaceModel.set_l3_port (Some port') i)) ->
  preserves R (on_l3_port k attr m).
Proof.
  intros HC s s' r. unfold on_l3_port, bind, read_interface, write_interface, modify, raise, lift.
  destruct (interfaces s !! k) as [i|] eqn:Hk; [| intros [= <- _]; apply R_refl].
  destruct (InterfaceModel.l3_port i) as [port|] eqn:Hport; [| intros [= <- _]; apply R_refl].
  destruct (m port) as [port' r'] eqn:Hm. intros [= <- _].
  apply R_write with i; [exact Hk | eapply HC; eassumption].
Qed.

Lemma frame_ensure_l3_port k :
  (forall i, InterfaceModel.l3_port i = None ->
             C i (InterfaceModel.set_l3_port (Some InterfaceRouteportModel.empty) i)) ->
  preserves R (ensure_l3_port k).
Proof.
  intros HC s s' r. unfold ensure_l3_port, bind, read_interface, write_interface, modify, when.
  destruct (interfaces s !! k) as [i|] eqn:Hk; [| intros [= <- _]; apply R_refl].
  case_bool_decide as Hport; intros [= <- _].
  - apply R_write with i; [exact Hk | apply HC, Hport].
  - apply R_refl.
Qed.

Lemma frame_set_neighbor k host name :
  (forall i v, C i (InterfaceModel.set_neighbor v i)) ->
  preserves R (set_neighbor k host name).
Proof. intros HC. apply frame_update_interface. intros i. apply HC. Qed.

Lemma frame_cdp_section row a z :
  (forall i v, C i (InterfaceModel.set_discovery_protocols v i)) ->
  preserves R (cdp_section row a z).
Proof.
  intros HC. unfold cdp_section.
  assert (Hloop : forall cfg, preserves R (for_each [a; z] (set_discovery_if_unset cfg))).
  { intros cfg. apply preserves_for_each; [assumption.. |]. intros k.
    unfold set_discovery_if_unset.
    apply preserves_bind; [assumption | |].
    - apply frame_pure. intros s. unfold read_interface. destruct (interfaces s !! k); reflexivity.
    - intros i. apply preserves_when; [assumption |].
      apply preserves_bind; [assumption | |].
      + apply frame_pure. intros s. unfold clone_cdp_config. destruct cfg; reflexivity.
      + intros c. apply frame_update_interface. intros i'. apply HC. }
  destruct (cdp_enabled row) as [[| | |]|]; try apply Hloop; apply preserves_ret; assumption.
Qed.

Lemma frame_lag_side default_lag_mode host k lag_group lag_mode :
  (forall i v, C i (InterfaceModel.set_lag_member v i)) ->
  preserves R (lag_side default_lag_mode host k lag_group lag_mode).
Proof.
  intros HC. unfold lag_side. destruct lag_group as [group|]; [| apply preserves_ret; assumption].
  apply preserves_bind; [assumption | apply frame_get_interface |].
  intros lag. apply preserves_bind; [assumption | |].
  - apply frame_update_interface. intros i. apply HC.
  - intros _. apply preserves_ret; assumption.
Qed.

Lemma frame_addressing_section `{Validators} link a z :
  (forall i p, C i (InterfaceModel.set_l3_port p i)) ->
  preserves R (addressing_section link a z).
Proof.
  intros HC. unfold addressing_section.
  apply preserves_bind; [assumption | |].
  - apply preserves_when; [assumption |]. apply preserves_for_each; [assumption.. |].
    intros k. apply frame_on_l3_port. intros; apply HC.
  - intros _. destruct (both_addresses link) as [[a_address z_address]|].
    + apply preserves_bind; [assumption | |]; [| intros _]; apply frame_on_l3_port; intros; apply HC.
    + destruct (L3Link.ipv4_network link) as [net|]; [| apply preserves_ret; assumption].
      apply preserves_bind; [assumption | apply preserves_lift; assumption |]. intros first.
      apply preserves_bind; [assumption | apply frame_on_l3_port; intros; apply HC |]. intros _.
      apply preserves_bind; [assumption | apply preserves_lift; assumption |]. intros last.
      apply frame_on_l3_port; intros; apply HC.
Qed.


Lemma frame_write_neighbors a_host z_host a z :
  (forall i v, C i (InterfaceModel.set_neighbor v i)) ->
  preserves R (write_neighbors a_host z_host a z).
Proof.
  intros HC. unfold write_neighbors.
  apply preserves_bind; [assumption | |]; [| intros _]; apply frame_set_neighbor; exact HC.
Qed.

Lemma frame_port_section link a z :
  (forall i, InterfaceModel.l3_port i = None ->
             C i (InterfaceModel.set_l3_port (Some InterfaceRouteportModel.empty) i)) ->
  (forall i port v, InterfaceModel.l3_port i = Some port ->
             C i (InterfaceModel.set_l3_port (Some (InterfaceRouteportModel.set_vrf v port)) i)) ->
  preserves R (port_section link a z).
Proof.
  intros Hnew Hvrf. unfold port_section.
  apply preserves_bind; [assumption | |].
  - apply preserves_for_each; [assumption.. |]. intros k. apply frame_ensure_l3_port. exact Hnew.
  - intros _. apply preserves_bind; [assumption | |]; [| intros _];
      (apply preserves_when; [assumption |]; apply frame_on_l3_port;
       intros i port port' r Hport [= <- _]; apply Hvrf; exact Hport).
Qed.

Lemma frame_clone_ospf_template ospf_template :
  (forall s h, R s (set_ospf_objects h s)) ->
  preserves R (clone_ospf_template ospf_template).
Proof.
  intros Hheap s s' r. unfold clone_ospf_template, bind, get, raise, lift, allocate.
  destruct ospf_template as [l|]; [| intros [= <- _]; apply R_refl].
  destruct (ospf_objects s !! l) as [config|]; [| intros [= <- _]; apply R_refl].
  destruct (InterfaceOspfConfig.clone config); intros [= <- _]; [apply Hheap | apply R_refl].
Qed.

Lemma frame_ospf_template_section name a z :
  (forall s h, R s (set_ospf_objects h s)) ->
  (forall i port v, InterfaceModel.l3_port i = Some port ->
             C i (InterfaceModel.set_l3_port (Some (InterfaceRouteportModel.set_ospf v port)) i)) ->
  preserves R (ospf_template_section name a z).
Proof.
  intros Hheap Hospf. unfold ospf_template_section.
  destruct name as [name|]; [| apply preserves_ret; assumption].
  apply preserves_bind; [assumption | apply frame_templates_ospf |]. intros registry.
  apply preserves_bind; [assumption | apply frame_clone_ospf_template, Hheap |]. intros a_copy.
  apply preserves_bind; [assumption | |].
  { apply frame_on_l3_port. intros i port port' r Hport [= <- _]. apply Hospf, Hport. }
  intros _.
  apply preserves_bind; [assumption | apply frame_clone_ospf_template, Hheap |]. intros z_copy.
  apply frame_on_l3_port. intros i port port' r Hport [= <- _]. apply Hospf, Hport.
Qed.

Lemma frame_bfd_template_section name a z :
  (forall i port v, InterfaceModel.l3_port i = Some port ->
             C i (InterfaceModel.set_l3_port (Some (InterfaceRouteportModel.set_bfd v port)) i)) ->
  preserves R (bfd_template_section name a z).
Proof.
  intros Hbfd. unfold bfd_template_section.
  destruct name as [name|]; [| apply preserves_ret; assumption].
  apply preserves_bind; [assumption | apply frame_templates_ospf |]. intros _.
  apply preserves_bind; [assumption | |]; [| intros _];
    (apply frame_on_l3_port; intros i port port' r Hport [= <- _]; apply Hbfd, Hport).
Qed.

Lemma frame_template_section row a z :
  (forall s h, R s (set_ospf_objects h s)) ->
  (forall i port v, InterfaceModel.l3_port i = Some port ->
             C i (InterfaceModel.set_l3_port (Some (InterfaceRouteportModel.set_ospf v port)) i)) ->
  (forall i port v, InterfaceModel.l3_port i = Some port ->
             C i (InterfaceModel.set_l3_port (Some (InterfaceRouteportModel.set_bfd v port)) i)) ->
  preserves R (template_section row a z).
Proof.
  intros Hheap Hospf Hbfd. unfold template_section.
  apply preserves_bind; [assumption | |].
  - apply frame_ospf_template_section; assumption.
  - intros _. apply frame_bfd_template_section; assumption.
Qed.

Lemma frame_lag_section default_lag_mode link a_host z_host a z :
  (forall i v, C i (InterfaceModel.set_lag_member v i)) ->
  (forall i v, C i (InterfaceModel.set_neighbor v i)) ->
  preserves R (lag_section default_lag_mode link a_host z_host a z).
Proof.
  intros Hlag Hnb. unfold lag_section.
  apply preserves_bind; [assumption | apply frame_lag_side, Hlag |]. intros a_lag.
  apply preserves_bind; [assumption | apply frame_lag_side, Hlag |]. intros z_lag.
  destruct a_lag as [a_lag|], z_lag as [z_lag|]; try (apply preserves_ret; assumption).
  apply preserves_bind; [assumption | |]; [| intros _]; apply frame_set_neighbor, Hnb.
Qed.

End Frame.

Section Keeps.

Import L3InterfaceModels Inventory ExcelLoader Properties.

Lemma keeps_refl {B} (field : InterfaceModel.t -> option B) s : keeps field s s.
Proof. intros k. reflexivity. Qed.

Lemma keeps_trans {B} (field : InterfaceModel.t -> option B) s1 s2 s3 :
  keeps field s1 s2 -> keeps field s2 s3 -> keeps field s1 s3.
Proof. intros H12 H23 k. rewrite H23. apply H12. Qed.

Lemma observe_write {B} (field : InterfaceModel.t -> option B) s k v k' :
  observe field (set_interfaces (<[k := v]> (interfaces s)) s) k' =
  if decide (k = k') then field v else observe field s k'.
Proof.
  unfold observe. simpl. rewrite lookup_insert.
  destruct (decide (k = k')); reflexivity.
Qed.

Lemma keeps_write {B} (field : InterfaceModel.t -> option B) s k i v :
  interfaces s !! k = Some i -> field v = field i ->
  keeps field s (set_interfaces (<[k := v]> (interfaces s)) s).
Proof.
  intros Hk Hfield k'. rewrite observe_write.
  case_decide as Hkk'; [subst k' | reflexivity].
  unfold observe. rewrite Hk. exact Hfield.
Qed.

Lemma keeps_heap {B} (field : InterfaceModel.t -> option B) s h :
  keeps field s (set_ospf_objects h s).
Proof. intros k. reflexivity. Qed.

Lemma keeps_rest_refl s : keeps_rest s s.
Proof. repeat split. Qed.

Lemma keeps_rest_trans s1 s2 s3 : keeps_rest s1 s2 -> keeps_rest s2 s3 -> keeps_rest s1 s3.
Proof. intros (? & ? & ?) (? & ? & ?). repeat split; congruence. Qed.

Lemma keeps_rest_write s k (i v : InterfaceModel.t) :
  interfaces s !! k = Some i -> True ->
  keeps_rest s (set_interfaces (<[k := v]> (interfaces s)) s).
Proof. intros _ _. repeat split. Qed.

End Keeps.

(** ** Neighbor relations of a link *)

Section Neighbors.

Import ipaddress Pydantic L3InterfaceModels Inventory ExcelLoader Properties.

Lemma get_host_ok h s s' x : get_host h s = (s', Ok x) -> s' = s /\ x = h.
Proof. unfold get_host. destruct (hosts s !! h); intros [= <- <-]; auto. Qed.

Lemma get_interface_ok h i s s' k :
  get_interface h i s = (s', Ok k) ->
  s' = s /\ k = (h, i) /\ is_Some (interfaces s !! (h, i)).
Proof.
  unfold get_interface. destruct (interfaces s !! (h, i)) eqn:Hk; intros [= <- <-]; eauto.
Qed.

Lemma get_hosts_from_link_ok link s s' hs :
  get_hosts_from_link link s = (s', Ok hs) ->
  s' = s /\ hs = (L3Link.a_host link, L3Link.z_host link).
Proof.
  unfold get_hosts_from_link. intros Hrun.
  apply bind_ok_inv in Hrun as (a & s1 & Ha & Hrun). apply get_host_ok in Ha as [-> ->].
  apply bind_ok_inv in Hrun as (z & s2 & Hz & Hrun). apply get_host_ok in Hz as [-> ->].
  injection Hrun as <- <-. auto.
Qed.

Lemma get_interfaces_from_link_ok link s s' ks :
  get_interfaces_from_link link s = (s', Ok ks) ->
  s' = s /\ ks = (a_end link, z_end link).
Proof.
  unfold get_interfaces_from_link. intros Hrun.
  apply bind_ok_inv in Hrun as (a & s1 & Ha & Hrun). apply get_interface_ok in Ha as (-> & -> & _).
  apply bind_ok_inv in Hrun as (z & s2 & Hz & Hrun). apply get_interface_ok in Hz as (-> & -> & _).
  injection Hrun as <- <-. auto.
Qed.

Lemma update_interface_ok k f s s' :
  update_interface k f s = (s', Ok tt) ->
  exists i, interfaces s !! k = Some i /\
            s' = set_interfaces (<[k := f i]> (interfaces s)) s.
Proof.
  unfold update_interface, bind, read_interface, write_interface, modify.
  destruct (interfaces s !! k) as [i|]; intros [= <-]. eauto.
Qed.

Lemma set_neighbor_ok k host name s s' k' :
  set_neighbor k host name s = (s', Ok tt) ->
  neighbor_of s' k' =
  if decide (k = k')
  then Some {| InterfaceNeighbor.host := host; InterfaceNeighbor.interface := name |}
  else neighbor_of s k'.
Proof.
  intros Hrun. apply update_interface_ok in Hrun as (i & _ & ->).
  unfold neighbor_of. rewrite observe_write. reflexivity.
Qed.

Lemma write_neighbors_ok a_host z_host a z s s' :
  write_neighbors a_host z_host a z s = (s', Ok tt) ->
  neighbor_of s' z
    = Some {| InterfaceNeighbor.host := a_host; InterfaceNeighbor.interface := snd a |} /\
  (a <> z ->
   neighbor_of s' a
     = Some {| InterfaceNeighbor.host := z_host; InterfaceNeighbor.interface := snd z |}).
Proof.
  unfold write_neighbors. intros Hrun.
  apply bind_ok_inv in Hrun as ([] & s1 & Ha & Hz).
  split.
  - rewrite (set_neighbor_ok _ _ _ _ _ z Hz). case_decide; [reflexivity | contradiction].
  - intros Hne. rewrite (set_neighbor_ok _ _ _ _ _ a Hz).
    case_decide; [congruence |].
    rewrite (set_neighbor_ok _ _ _ _ _ a Ha). case_decide; [reflexivity | contradiction].
Qed.

(** After the two writes, the two ends of the link are matched, whether
    they are two interfaces or one. *)
Lemma write_neighbors_matched a z s s' :
  write_neighbors (fst a) (fst z) a z s = (s', Ok tt) -> neighbors_matched s' a z.
Proof.
  intros Hrun. apply write_neighbors_ok in Hrun as [Hz Ha]. split; [| exact Hz].
  destruct (decide (a = z)) as [-> | Hne]; [exact Hz | apply Ha, Hne].
Qed.

Lemma neighbors_matched_keeps s s' a z :
  keeps InterfaceModel.neighbor s s' -> neighbors_matched s a z -> neighbors_matched s' a z.
Proof. intros Hkeep [Ha Hz]. split; unfold neighbor_of; rewrite Hkeep; assumption. Qed.

#[local] Abbreviation neighbor_frame m :=
  (m (keeps InterfaceModel.neighbor)
     (fun i v => InterfaceModel.neighbor v = InterfaceModel.neighbor i)
     (keeps_refl _) (keeps_trans _) (keeps_write _)) (only parsing).

Lemma lag_side_ok default_lag_mode host k lag_group lag_mode s s' lag :
  lag_side default_lag_mode host k lag_group lag_mode s = (s', Ok (Some lag)) ->
  exists group, lag_group = Some group /\ lag = (host, port_channel group).
Proof.
  unfold lag_side. destruct lag_group as [group|]; [| discriminate].
  intros Hrun. exists group. split; [reflexivity |].
  apply bind_ok_inv in Hrun as (l & s1 & Hget & Hrun).
  apply get_interface_ok in Hget as (-> & -> & _).
  apply bind_ok_inv in Hrun as ([] & s2 & _ & Hret).
  injection Hret as _ <-. reflexivity.
Qed.

Lemma neighbors_matched_set_neighbor k host name s s' a z :
  set_neighbor k host name s = (s', Ok tt) ->
  a <> k -> z <> k ->
  neighbors_matched s a z -> neighbors_matched s' a z.
Proof.
  intros Hrun Ha Hz [Hma Hmz].
  split; rewrite (set_neighbor_ok _ _ _ _ _ _ Hrun); case_decide; congruence.
Qed.

(** C2 (as amended).  After an L3-link row is processed successfully, the
    neighbor of the a-side interface is (z_host, z_interface) and the neighbor
    of the z-side interface is (a_host, a_interface).  The same holds after a
    physical-link row is processed successfully, provided that, when both
    sides of the row name a LAG group, neither end interface is one of the
    two Port-channel interfaces of the row. *)
Theorem neighbors_written_on_both_sides `{Validators} :
  (forall row s s',
      load_l3_link row s = (s', Ok tt) ->
      neighbors_matched s' (a_end (l3_link row)) (z_end (l3_link row))) /\
  (forall default_lag_mode row s s',
      load_physical_link default_lag_mode row s = (s', Ok tt) ->
      lag_interfaces_apart (link row) ->
      neighbors_matched s' (a_side (link row)) (z_side (link row))).
Proof.
  split.
  - intros row s s'.
    unfold load_l3_link, link_section. intros Hrun.
    apply bind_ok_inv in Hrun as (refs & s4 & Hlink & Htemplates).
    apply bind_ok_inv in Hlink as (hs & s0 & Hhosts & Hlink).
    apply get_hosts_from_link_ok in Hhosts as [-> ->].
    apply bind_ok_inv in Hlink as (ks & s0 & Hks & Hlink).
    apply get_interfaces_from_link_ok in Hks as [-> ->].
    apply bind_ok_inv in Hlink as ([] & s1 & Hwrite & Hlink).
    apply bind_ok_inv in Hlink as ([] & s2 & Hports & Hlink).
    apply bind_ok_inv in Hlink as ([] & s3 & Haddresses & Hret).
    injection Hret as <- <-.
    apply (write_neighbors_matched (a_end (l3_link row)) (z_end (l3_link row))) in Hwrite.
    eapply neighbors_matched_keeps; [| exact Hwrite].
    eapply keeps_trans; [| eapply keeps_trans].
    + eapply (neighbor_frame frame_port_section); [| | exact Hports]; reflexivity.
    + eapply (neighbor_frame frame_addressing_section); [| exact Haddresses]; reflexivity.
    + eapply (neighbor_frame frame_template_section); [| | | exact Htemplates];
        first [apply keeps_heap | reflexivity].
  - intros default_lag_mode row s s'.
    unfold load_physical_link. intros Hrun Hapart.
    apply bind_ok_inv in Hrun as (a_host & s0 & Hget & Hrun). apply get_host_ok in Hget as [-> ->].
    apply bind_ok_inv in Hrun as (a & s0 & Hget & Hrun). apply get_interface_ok in Hget as (-> & -> & _).
    apply bind_ok_inv in Hrun as (z_host & s0 & Hget & Hrun). apply get_host_ok in Hget as [-> ->].
    apply bind_ok_inv in Hrun as (z & s0 & Hget & Hrun). apply get_interface_ok in Hget as (-> & -> & _).
    apply bind_ok_inv in Hrun as ([] & s1 & Hwrite & Hrun).
    apply bind_ok_inv in Hrun as ([] & s2 & Hcdp & Hlag).
    apply (write_neighbors_matched (a_side (link row)) (z_side (link row))) in Hwrite.
    assert (Hs2 : neighbors_matched s2 (a_side (link row)) (z_side (link row))).
    { eapply neighbors_matched_keeps; [| exact Hwrite].
      eapply (neighbor_frame frame_cdp_section); [| exact Hcdp]. reflexivity. }
    clear Hwrite Hcdp. unfold lag_section in Hlag.
    apply bind_ok_inv in Hlag as (a_lag & s3 & Ha_lag & Hlag).
    apply bind_ok_inv in Hlag as (z_lag & s4 & Hz_lag & Hlag).
    assert (Hs4 : neighbors_matched s4 (a_side (link row)) (z_side (link row))).
    { eapply neighbors_matched_keeps; [| exact Hs2].
      eapply keeps_trans; (eapply (neighbor_frame frame_lag_side); [| eassumption]); reflexivity. }
    destruct a_lag as [a_lag|], z_lag as [z_lag|]; try (injection Hlag as <-; exact Hs4).
    apply lag_side_ok in Ha_lag as (a_group & Ha_group & ->).
    apply lag_side_ok in Hz_lag as (z_group & Hz_group & ->).
    destruct (Hapart _ _ Ha_group Hz_group (a_side (link row)) (or_introl eq_refl)) as [Haa Haz].
    destruct (Hapart _ _ Ha_group Hz_group (z_side (link row)) (or_intror eq_refl)) as [Hza Hzz].
    apply bind_ok_inv in Hlag as ([] & s5 & Hset_a & Hset_z).
    eapply neighbors_matched_set_neighbor; [exact Hset_z | assumption.. |].
    eapply neighbors_matched_set_neighbor; [exact Hset_a | assumption.. |].
    exact Hs4.
Qed.

End Neighbors.

Section NeighborsExamples.

Import ipaddress L3InterfaceModels Inventory ExcelLoader Properties Examples.

Lemma neighbors_written_on_both_sides_witness :
  neighbors_matched
    (fst (load_l3_link (H := any_address_assignable)
            (l3_row_with_network network_10_0_0_0_30) two_routers))
    ("R1", "Gi0/0") ("R2", "Gi0/0") /\
  neighbors_matched
    (fst (load_physical_link "active" (physical_row_between_routers None) two_routers))
    ("R1", "Gi0/0") ("R2", "Gi0/0").
Proof.
  split.
  - refine (proj1 (neighbors_written_on_both_sides (H := any_address_assignable))
              (l3_row_with_network network_10_0_0_0_30) two_routers _ _).
    vm_compute. reflexivity.
  - refine (proj2 (neighbors_written_on_both_sides (H := any_address_assignable))
              "active" (physical_row_between_routers None) two_routers _ _ _).
    + vm_compute. reflexivity.
    + intros a_group z_group Ha. discriminate Ha.
Defined.

(** C2 as stated fails: the row R1 Port-channel1 (LAG group 1) -- R2 Gi0/0
    (LAG group 2) is processed successfully, and the neighbor of the a-side
    interface is then (R2, Port-channel2), not (R2, Gi0/0). *)
Lemma port_channel_end_neighbor_overwritten :
  snd (load_physical_link "active" physical_row_on_port_channel two_routers) = Ok tt /\
  neighbor_of (fst (load_physical_link "active" physical_row_on_port_channel two_routers))
    ("R1", "Port-channel1")
    = Some {| InterfaceNeighbor.host := "R2"; InterfaceNeighbor.interface := "Port-channel2" |} /\
  ~ neighbors_matched
      (fst (load_physical_link "active" physical_row_on_port_channel two_routers))
      (a_side (link physical_row_on_port_channel))
      (z_side (link physical_row_on_port_channel)).
Proof.
  split; [vm_compute; reflexivity |].
  split; [vm_compute; reflexivity |].
  intros [Ha _]. vm_compute in Ha. discriminate Ha.
Qed.

End NeighborsExamples.

(** ** The CDP section of a physical link *)

Section Discovery.

Import ipaddress Pydantic L3InterfaceModels Inventory ExcelLoader Properties.

#[local] Abbreviation discovery_frame m :=
  (m (keeps InterfaceModel.discovery_protocols)
     (fun i v => InterfaceModel.discovery_protocols v = InterfaceModel.discovery_protocols i)
     (keeps_refl _) (keeps_trans _) (keeps_write _)) (only parsing).

(** What one round of the loop of the CDP section does to an interface [e]. *)
Lemma set_discovery_if_unset_ok cdp_config k s s' :
  set_discovery_if_unset cdp_config k s = (s', Ok tt) ->
  (forall e, e <> k -> discovery_of s' e = discovery_of s e) /\
  match discovery_of s k with
  | Some d => discovery_of s' k = Some d
  | None =>
      exists c, cdp_config = Some c /\
        discovery_of s' k = Some {| InterfaceDiscoveryProtocols.cdp := Some c |}
  end.
Proof.
  unfold set_discovery_if_unset. intros Hrun.
  apply bind_ok_inv in Hrun as (i & s0 & Hread & Hrun).
  unfold read_interface in Hread.
  destruct (interfaces s !! k) as [i'|] eqn:Hk; [| discriminate].
  injection Hread as <- <-.
  unfold discovery_of at 3. unfold observe. rewrite Hk. simpl.
  unfold when in Hrun. case_bool_decide as Hunset.
  - rewrite Hunset.
    apply bind_ok_inv in Hrun as (c & s1 & Hclone & Hupdate).
    unfold clone_cdp_config in Hclone. destruct cdp_config as [c'|]; [| discriminate].
    injection Hclone as <- <-.
    apply update_interface_ok in Hupdate as (i'' & _ & ->).
    split.
    + intros e He. unfold discovery_of. rewrite observe_write.
      case_decide; [congruence | reflexivity].
    + exists c'. split; [reflexivity |]. unfold discovery_of. rewrite observe_write.
      case_decide; [reflexivity | contradiction].
  - injection Hrun as <-. split; [reflexivity |].
    destruct (InterfaceModel.discovery_protocols i') as [d|] eqn:Hd; [| contradiction].
    unfold discovery_of, observe. rewrite Hk. simpl. exact Hd.
Qed.

Lemma cdp_config_of_Some flag c :
  cdp_config_of flag = Some c ->
  exists b, flag = CellBool b /\
    Some {| InterfaceDiscoveryProtocols.cdp := Some c |} = Some (discovery_from_flag b).
Proof.
  destruct flag as [|[|]| |]; simpl; intros [= <-]; eexists; split; reflexivity.
Qed.

Lemma cdp_loop_ok flag a z s s' e :
  for_each [a; z] (set_discovery_if_unset (cdp_config_of flag)) s = (s', Ok tt) ->
  e = a \/ e = z ->
  discovery_set_from flag (discovery_of s e) (discovery_of s' e).
Proof.
  simpl. intros Hrun He.
  apply bind_ok_inv in Hrun as ([] & s1 & Ha & Hrun).
  apply bind_ok_inv in Hrun as ([] & s2 & Hz & Hret). injection Hret as <-.
  apply set_discovery_if_unset_ok in Ha as [Ha_other Ha].
  apply set_discovery_if_unset_ok in Hz as [Hz_other Hz].
  unfold discovery_set_from.
  assert (Hstep : forall k s0 s1,
    (forall e, e <> k -> discovery_of s1 e = discovery_of s0 e) ->
    match discovery_of s0 k with
    | Some d => discovery_of s1 k = Some d
    | None => exists c, cdp_config_of flag = Some c /\
        discovery_of s1 k = Some {| InterfaceDiscoveryProtocols.cdp := Some c |}
    end ->
    forall d, discovery_of s0 e = Some d -> discovery_of s1 e = Some d).
  { intros k s0 s1' Hother Hk d Hd. destruct (decide (e = k)) as [-> | Hne].
    - rewrite Hd in Hk. exact Hk.
    - rewrite Hother by exact Hne. exact Hd. }
  destruct (discovery_of s e) as [d|] eqn:Hbefore.
  - eapply Hstep; [exact Hz_other | exact Hz |]. eapply Hstep; [exact Ha_other | exact Ha |]. exact Hbefore.
  - destruct (decide (e = a)) as [-> | Hne_a].
    + rewrite Hbefore in Ha. destruct Ha as (c & Hc & Hafter).
      apply cdp_config_of_Some in Hc as (b & -> & Heq). exists b. split; [reflexivity |].
      rewrite <- Heq. eapply Hstep; [exact Hz_other | exact Hz | exact Hafter].
    + destruct He as [-> | ->]; [contradiction |].
      rewrite Ha_other, Hbefore in Hz by exact Hne_a.
      destruct Hz as (c & Hc & Hafter).
      apply cdp_config_of_Some in Hc as (b & -> & Heq). exists b. split; [reflexivity |].
      rewrite <- Heq. exact Hafter.
Qed.

(** C8.  A physical-link row whose cdp_enabled flag is present and not null,
    once processed: an end interface whose discovery-protocol config was
    unset holds the config made from the flag, which is then a boolean (true
    gives enabled, false gives disabled); an end interface whose config was
    set holds the config it had. *)
Theorem discovery_first_write_wins default_lag_mode row flag s s' e :
  cdp_enabled row = Some flag -> flag <> CellNone ->
  load_physical_link default_lag_mode row s = (s', Ok tt) ->
  e = a_side (link row) \/ e = z_side (link row) ->
  discovery_set_from flag (discovery_of s e) (discovery_of s' e).
Proof.
  unfold load_physical_link. intros Hflag Hnot_null Hrun He.
  apply bind_ok_inv in Hrun as (a_host & s0 & Hget & Hrun). apply get_host_ok in Hget as [-> ->].
  apply bind_ok_inv in Hrun as (a & s0 & Hget & Hrun). apply get_interface_ok in Hget as (-> & -> & _).
  apply bind_ok_inv in Hrun as (z_host & s0 & Hget & Hrun). apply get_host_ok in Hget as [-> ->].
  apply bind_ok_inv in Hrun as (z & s0 & Hget & Hrun). apply get_interface_ok in Hget as (-> & -> & _).
  apply bind_ok_inv in Hrun as ([] & s1 & Hwrite & Hrun).
  apply bind_ok_inv in Hrun as ([] & s2 & Hcdp & Hlag).
  assert (H1 : keeps InterfaceModel.discovery_protocols s s1).
  { eapply (discovery_frame frame_write_neighbors); [| exact Hwrite]. reflexivity. }
  assert (H2 : keeps InterfaceModel.discovery_protocols s2 s').
  { eapply (discovery_frame frame_lag_section); [| | exact Hlag]; reflexivity. }
  unfold discovery_of. rewrite H2, <- H1.
  unfold cdp_section in Hcdp. rewrite Hflag in Hcdp.
  apply (cdp_loop_ok flag (a_side (link row)) (z_side (link row))); [| exact He].
  destruct flag; [contradiction | exact Hcdp..].
Qed.

End Discovery.

Section DiscoveryExamples.

Import Inventory ExcelLoader Properties Examples.

Lemma discovery_first_write_wins_witness :
  discovery_set_from (CellBool true)
    (discovery_of two_routers ("R1", "Gi0/0"))
    (discovery_of
       (fst (load_physical_link "active"
               (physical_row_between_routers (Some (CellBool true))) two_routers))
       ("R1", "Gi0/0")) /\
  discovery_set_from (CellBool true)
    (discovery_of routers_with_cdp_disabled ("R2", "Gi0/0"))
    (discovery_of
       (fst (load_physical_link "active"
               (physical_row_between_routers (Some (CellBool true))) routers_with_cdp_disabled))
       ("R2", "Gi0/0")).
Proof.
  split.
  - refine (discovery_first_write_wins "active"
              (physical_row_between_routers (Some (CellBool true))) (CellBool true)
              two_routers _ ("R1", "Gi0/0") _ _ _ _).
    + reflexivity.
    + discriminate.
    + vm_compute. reflexivity.
    + left. reflexivity.
  - refine (discovery_first_write_wins "active"
              (physical_row_between_routers (Some (CellBool true))) (CellBool true)
              routers_with_cdp_disabled _ ("R2", "Gi0/0") _ _ _ _).
    + reflexivity.
    + discriminate.
    + vm_compute. reflexivity.
    + right. reflexivity.
Defined.

(** The config of an interface that an earlier link disabled stays disabled. *)
Example discovery_stays_disabled :
  discovery_of
    (fst (load_physical_link "active"
            (physical_row_between_routers (Some (CellBool true))) routers_with_cdp_disabled))
    ("R2", "Gi0/0")
  = Some (discovery_from_flag false).
Proof. vm_compute. reflexivity. Qed.

End DiscoveryExamples.

(** ** The addresses of an L3 link *)

Section Addressing.

Import ipaddress Pydantic L3InterfaceModels Inventory ExcelLoader Properties.

Context `{Validators}.

#[local] Abbreviation ipv4_frame m :=
  (m (keeps ipv4_field) (fun i v => ipv4_field v = ipv4_field i)
     (keeps_refl _) (keeps_trans _) (keeps_write _)) (only parsing).

#[local] Abbreviation addresses_frame m :=
  (m (keeps addresses_field) (fun i v => addresses_field v = addresses_field i)
     (keeps_refl _) (keeps_trans _) (keeps_write _)) (only parsing).

Lemma ipv4_field_new_port i :
  InterfaceModel.l3_port i = None ->
  ipv4_field (InterfaceModel.set_l3_port (Some InterfaceRouteportModel.empty) i) = ipv4_field i.
Proof. unfold ipv4_field. intros ->. reflexivity. Qed.

Lemma ipv4_field_same_ipv4 i port port' :
  InterfaceModel.l3_port i = Some port ->
  InterfaceRouteportModel.ipv4 port' = InterfaceRouteportModel.ipv4 port ->
  ipv4_field (InterfaceModel.set_l3_port (Some port') i) = ipv4_field i.
Proof. unfold ipv4_field. intros -> Hsame. simpl. exact Hsame. Qed.

(** Neighbors, routed ports, VRFs and templates leave the IPv4 containers alone. *)
Lemma write_neighbors_keeps_ipv4 a_host z_host a z :
  preserves (keeps ipv4_field) (write_neighbors a_host z_host a z).
Proof. apply (ipv4_frame frame_write_neighbors). reflexivity. Qed.

Lemma port_section_keeps_ipv4 link a z :
  preserves (keeps ipv4_field) (port_section link a z).
Proof.
  apply (ipv4_frame frame_port_section).
  - apply ipv4_field_new_port.
  - intros i port v Hport. eapply ipv4_field_same_ipv4; [exact Hport | reflexivity].
Qed.

Lemma template_section_keeps_ipv4 row a z :
  preserves (keeps ipv4_field) (template_section row a z).
Proof.
  apply (ipv4_frame frame_template_section).
  - apply keeps_heap.
  - intros i port v Hport. eapply ipv4_field_same_ipv4; [exact Hport | reflexivity].
  - intros i port v Hport. eapply ipv4_field_same_ipv4; [exact Hport | reflexivity].
Qed.

Lemma lone_address_no_pair link : lone_address link -> both_addresses link = None.
Proof.
  unfold both_addresses. intros [[_ ->] | [-> _]]; [| reflexivity].
  destruct (L3Link.a_ipv4_address link); reflexivity.
Qed.

Lemma addressing_section_lone_address link a z s :
  lone_address link -> L3Link.ipv4_network link = None ->
  addressing_section link a z s = (s, Ok tt).
Proof.
  intros Hlone Hnet. unfold addressing_section.
  rewrite (lone_address_no_pair _ Hlone), Hnet. reflexivity.
Qed.

(** C10.  An L3-link row that gives an explicit address for exactly one end
    and no network: the addressing step changes nothing and raises nothing,
    and whatever the outcome of the row, every interface has the IPv4
    container it had before the row, none if it had none. *)
Theorem lone_address_is_ignored row :
  lone_address (l3_link row) -> L3Link.ipv4_network (l3_link row) = None ->
  (forall a z s, addressing_section (l3_link row) a z s = (s, Ok tt)) /\
  (forall s s' r k, load_l3_link row s = (s', r) -> ipv4_of s' k = ipv4_of s k).
Proof.
  intros Hlone Hnet. split.
  - intros a z s. apply addressing_section_lone_address; assumption.
  - intros s s' r k Hrun. revert k. change (keeps ipv4_field s s').
    revert s s' r Hrun. change (preserves (keeps ipv4_field) (load_l3_link row)).
    unfold load_l3_link, link_section.
    apply preserves_bind; [apply keeps_trans | | ].
    + apply preserves_bind; [apply keeps_trans | | ].
      { apply frame_pure; [apply keeps_refl |]. intros s. unfold get_hosts_from_link, bind, get_host, ret.
        destruct (hosts s !! _); [destruct (hosts s !! _) |]; reflexivity. }
      intros hs. apply preserves_bind; [apply keeps_trans | | ].
      { apply frame_pure; [apply keeps_refl |]. intros s.
        unfold get_interfaces_from_link, bind, get_interface, ret.
        destruct (interfaces s !! _); [destruct (interfaces s !! _) |]; reflexivity. }
      intros ks. apply preserves_bind; [apply keeps_trans | | ].
      { apply write_neighbors_keeps_ipv4. }
      intros _. apply preserves_bind; [apply keeps_trans | | ].
      { apply port_section_keeps_ipv4. }
      intros _. apply preserves_bind; [apply keeps_trans | | ].
      { apply frame_pure; [apply keeps_refl |]. intros s.
        rewrite addressing_section_lone_address by assumption. reflexivity. }
      intros _. apply preserves_ret. apply keeps_refl.
    + intros ks. apply template_section_keeps_ipv4.
Qed.


(** *** Addresses derived from the network of the link *)

Lemma add_ipv4_address_raise port arg e :
  InterfaceRouteportModel.to_interface_address arg = Raise e ->
  snd (InterfaceRouteportModel.add_ipv4_address arg port) = Raise e.
Proof.
  intros Harg. unfold InterfaceRouteportModel.add_ipv4_address.
  destruct port as [[[[l|] u d]|] v m o b];
    unfold bind, get, when, lift, modify, InterfaceRouteportModel.the_ipv4;
    simpl; rewrite Harg; reflexivity.
Qed.

Lemma add_ipv4_address_ok port arg port' :
  InterfaceRouteportModel.add_ipv4_address arg port = (port', Ok tt) ->
  exists a, InterfaceRouteportModel.to_interface_address arg = Ok a /\
            address_list port' = (address_list port ++ [a])%list.
Proof.
  intros Hrun. destruct (InterfaceRouteportModel.to_interface_address arg) as [a|e] eqn:Harg.
  - exists a. split; [reflexivity |].
    rewrite (add_ipv4_address_run _ _ _ Harg) in Hrun.
    destruct (InterfaceIPv4Container.clone (appended port a)) as [c|e] eqn:Hclone;
      [| discriminate].
    apply clone_Ok in Hclone as [-> _]. injection Hrun as <-. reflexivity.
  - apply (add_ipv4_address_raise port) in Harg. rewrite Hrun in Harg. discriminate.
Qed.

Lemma to_interface_address_plain x a :
  InterfaceRouteportModel.to_interface_address (inr x) = Ok a ->
  a = {| InterfaceIPv4Address.address := x; InterfaceIPv4Address.secondary := None |}.
Proof.
  simpl. unfold InterfaceIPv4Address.new. destruct (ipv4_is_assignable x); intros [= <-].
  reflexivity.
Qed.

Lemma addresses_of_write s k v k' :
  addresses_of (set_interfaces (<[k := v]> (interfaces s)) s) k' =
  if decide (k = k') then default [] (addresses_field v) else addresses_of s k'.
Proof. unfold addresses_of. rewrite observe_write. case_decide; reflexivity. Qed.

Lemma on_l3_port_add_ok k attr arg s s' :
  on_l3_port k attr (InterfaceRouteportModel.add_ipv4_address arg) s = (s', Ok tt) ->
  exists a, InterfaceRouteportModel.to_interface_address arg = Ok a /\
    addresses_of s' k = (addresses_of s k ++ [a])%list /\
    (forall k', k' <> k -> addresses_of s' k' = addresses_of s k').
Proof.
  unfold on_l3_port. intros Hrun.
  apply bind_ok_inv in Hrun as (i & s0 & Hread & Hrun).
  unfold read_interface in Hread.
  destruct (interfaces s !! k) as [i'|] eqn:Hk; [| discriminate]. injection Hread as <- <-.
  destruct (InterfaceModel.l3_port i') as [port|] eqn:Hport; [| discriminate].
  destruct (InterfaceRouteportModel.add_ipv4_address arg port) as [port' r] eqn:Hadd.
  apply bind_ok_inv in Hrun as ([] & s1 & Hwrite & Hlift).
  injection Hwrite as <-. injection Hlift as <- ->.
  apply add_ipv4_address_ok in Hadd as (a & Harg & Hlist).
  exists a. split; [exact Harg |]. split.
  - rewrite addresses_of_write. case_decide; [| contradiction].
    unfold addresses_of, observe. rewrite Hk. simpl. rewrite Hport. exact Hlist.
  - intros k' Hne. rewrite addresses_of_write. case_decide; [congruence | reflexivity].
Qed.

Lemma addresses_field_new_port i :
  InterfaceModel.l3_port i = None ->
  addresses_field (InterfaceModel.set_l3_port (Some InterfaceRouteportModel.empty) i)
  = addresses_field i.
Proof. unfold addresses_field. intros ->. reflexivity. Qed.

Lemma addresses_field_same_ipv4 i port port' :
  InterfaceModel.l3_port i = Some port ->
  address_list port' = address_list port ->
  addresses_field (InterfaceModel.set_l3_port (Some port') i) = addresses_field i.
Proof. unfold addresses_field. intros -> Hsame. simpl. rewrite Hsame. reflexivity. Qed.

Lemma ensure_ipv4_container_addresses port port' r :
  ensure_ipv4_container port = (port', r) -> address_list port' = address_list port.
Proof.
  unfold ensure_ipv4_container, bind, get, when, lift, modify, address_list.
  case_bool_decide as Hnone.
  - rewrite Hnone. simpl. intros [= <- _]. reflexivity.
  - intros [= <- _]. reflexivity.
Qed.

Lemma ensure_containers_keep_addresses (b : bool) a z :
  preserves (keeps addresses_field)
    (when b (for_each [a; z] (fun interface =>
               on_l3_port interface "ipv4" ensure_ipv4_container))).
Proof.
  apply preserves_when; [apply keeps_refl |].
  apply preserves_for_each; [apply keeps_refl | apply keeps_trans |]. intros k.
  apply (frame_on_l3_port (keeps addresses_field)
           (fun i v => addresses_field v = addresses_field i) (keeps_refl _) (keeps_write _)).
  intros i port port' r Hport Hensure.
  eapply addresses_field_same_ipv4; [exact Hport |].
  eapply ensure_ipv4_container_addresses; exact Hensure.
Qed.

Lemma keeps_addresses s s' k :
  keeps addresses_field s s' -> addresses_of s' k = addresses_of s k.
Proof. intros Hkeep. unfold addresses_of. rewrite Hkeep. reflexivity. Qed.

Lemma hosts_of_single_address net :
  IPv4Network.prefixlen net = 32%N ->
  IPv4Network.hosts net = [IPv4Network.network_address net].
Proof. unfold IPv4Network.hosts. intros ->. reflexivity. Qed.

(** C4 (as amended).  An L3-link row that gives no explicit pair of end
    addresses but a network, once processed: the first usable address of the
    network, with the prefix length of the network, is among the addresses of
    the a-side interface, and the last usable address among those of the
    z-side interface; when the two ends are two interfaces, each address is
    appended to what the interface held.  A /32 network, which has a single
    usable address, is not refused: that address goes to both sides. *)
Theorem network_addresses_assigned row net s s' :
  both_addresses (l3_link row) = None ->
  L3Link.ipv4_network (l3_link row) = Some net ->
  load_l3_link row s = (s', Ok tt) ->
  exists first last,
    index_first (IPv4Network.hosts net) = Ok first /\
    index_last (IPv4Network.hosts net) = Ok last /\
    In (plain_address first net) (addresses_of s' (a_end (l3_link row))) /\
    In (plain_address last net) (addresses_of s' (z_end (l3_link row))) /\
    (a_end (l3_link row) <> z_end (l3_link row) ->
     addresses_of s' (a_end (l3_link row))
       = (addresses_of s (a_end (l3_link row)) ++ [plain_address first net])%list /\
     addresses_of s' (z_end (l3_link row))
       = (addresses_of s (z_end (l3_link row)) ++ [plain_address last net])%list) /\
    (IPv4Network.prefixlen net = 32%N ->
     first = IPv4Network.network_address net /\ last = IPv4Network.network_address net).
Proof.
  unfold load_l3_link, link_section. intros Hpair Hnet Hrun.
  apply bind_ok_inv in Hrun as (refs & s4 & Hlink & Htemplates).
  apply bind_ok_inv in Hlink as (hs & s0 & Hhosts & Hlink).
  apply get_hosts_from_link_ok in Hhosts as [-> ->].
  apply bind_ok_inv in Hlink as (ks & s0 & Hks & Hlink).
  apply get_interfaces_from_link_ok in Hks as [-> ->].
  apply bind_ok_inv in Hlink as ([] & s1 & Hwrite & Hlink).
  apply bind_ok_inv in Hlink as ([] & s2 & Hports & Hlink).
  apply bind_ok_inv in Hlink as ([] & s3 & Haddresses & Hret).
  injection Hret as <- <-. simpl in *.
  set (a := a_end (l3_link row)) in *. set (z := z_end (l3_link row)) in *.
  assert (Hbefore : keeps addresses_field s s2).
  { eapply keeps_trans.
    - eapply (addresses_frame frame_write_neighbors); [| exact Hwrite]. reflexivity.
    - eapply (addresses_frame frame_port_section); [| | exact Hports].
      + apply addresses_field_new_port.
      + intros i port v Hport. eapply addresses_field_same_ipv4; [exact Hport | reflexivity]. }
  assert (Hafter : keeps addresses_field s3 s').
  { eapply (addresses_frame frame_template_section); [| | | exact Htemplates].
    - apply keeps_heap.
    - intros i port v Hport. eapply addresses_field_same_ipv4; [exact Hport | reflexivity].
    - intros i port v Hport. eapply addresses_field_same_ipv4; [exact Hport | reflexivity]. }
  unfold addressing_section in Haddresses. rewrite Hpair, Hnet in Haddresses.
  apply bind_ok_inv in Haddresses as ([] & s2' & Hensure & Haddresses).
  assert (Hensured : keeps addresses_field s2 s2').
  { eapply ensure_containers_keep_addresses. exact Hensure. }
  apply bind_ok_inv in Haddresses as (first & s2'' & Hfirst & Haddresses).
  injection Hfirst as <- Hfirst.
  apply bind_ok_inv in Haddresses as ([] & s2a & Hadd_a & Haddresses).
  apply bind_ok_inv in Haddresses as (last & s2a' & Hlast & Hadd_z).
  injection Hlast as <- Hlast.
  apply on_l3_port_add_ok in Hadd_a as (xa & Hxa & Ha_list & Ha_other).
  apply on_l3_port_add_ok in Hadd_z as (xz & Hxz & Hz_list & Hz_other).
  apply to_interface_address_plain in Hxa, Hxz. fold (plain_address first net) in Hxa.
  fold (plain_address last net) in Hxz. subst xa xz.
  assert (Hstart : forall k, addresses_of s2' k = addresses_of s k).
  { intros k. rewrite (keeps_addresses _ _ _ Hensured). apply keeps_addresses, Hbefore. }
  exists first, last. split; [exact Hfirst |]. split; [exact Hlast |].
  rewrite !(keeps_addresses _ _ _ Hafter).
  split; [| split; [| split]].
  - destruct (decide (a = z)) as [Heq | Hne].
    + rewrite Heq, Hz_list, <- Heq, Ha_list. apply in_or_app. left. apply in_or_app. right. left. reflexivity.
    + rewrite Hz_other, Ha_list by exact Hne. apply in_or_app. right. left. reflexivity.
  - rewrite Hz_list. apply in_or_app. right. left. reflexivity.
  - intros Hne. split.
    + rewrite Hz_other, Ha_list, Hstart by exact Hne. reflexivity.
    + rewrite Hz_list, Ha_other, Hstart by congruence. reflexivity.
  - intros Hprefix. rewrite (hosts_of_single_address _ Hprefix) in Hfirst, Hlast.
    injection Hfirst as <-. injection Hlast as <-. split; reflexivity.
Qed.

End Addressing.

Section AddressingExamples.

Import ipaddress L3InterfaceModels Inventory ExcelLoader Properties Examples.

Lemma lone_address_is_ignored_witness :
  addressing_section (H := any_address_assignable)
    (l3_link l3_row_with_lone_address) ("R1", "Gi0/0") ("R2", "Gi0/0") two_routers
    = (two_routers, Ok tt) /\
  ipv4_of (fst (load_l3_link (H := any_address_assignable) l3_row_with_lone_address two_routers))
    ("R1", "Gi0/0")
    = ipv4_of two_routers ("R1", "Gi0/0").
Proof.
  assert (Hlone : lone_address (l3_link l3_row_with_lone_address)).
  { left. split; [eexists; reflexivity | reflexivity]. }
  pose proof (lone_address_is_ignored (H := any_address_assignable)
                l3_row_with_lone_address Hlone eq_refl) as [Hstep Hrow].
  split.
  - apply Hstep.
  - eapply Hrow. apply surjective_pairing.
Defined.

(** The row with the lone address is processed without error, and neither
    end has an IPv4 container afterwards. *)
Example lone_address_row_succeeds :
  snd (load_l3_link (H := any_address_assignable) l3_row_with_lone_address two_routers) = Ok tt /\
  ipv4_of (fst (load_l3_link (H := any_address_assignable) l3_row_with_lone_address two_routers))
    ("R1", "Gi0/0") = None /\
  ipv4_of (fst (load_l3_link (H := any_address_assignable) l3_row_with_lone_address two_routers))
    ("R2", "Gi0/0") = None.
Proof. vm_compute. repeat split. Qed.

Lemma network_addresses_assigned_witness :
  exists first last,
    index_first (IPv4Network.hosts network_10_0_0_0_30) = Ok first /\
    index_last (IPv4Network.hosts network_10_0_0_0_30) = Ok last /\
    In (plain_address first network_10_0_0_0_30)
      (addresses_of
         (fst (load_l3_link (H := any_address_assignable)
                 (l3_row_with_network network_10_0_0_0_30) two_routers))
         ("R1", "Gi0/0")) /\
    In (plain_address last network_10_0_0_0_30)
      (addresses_of
         (fst (load_l3_link (H := any_address_assignable)
                 (l3_row_with_network network_10_0_0_0_30) two_routers))
         ("R2", "Gi0/0")) /\
    (("R1", "Gi0/0") <> ("R2", "Gi0/0") ->
     addresses_of
       (fst (load_l3_link (H := any_address_assignable)
               (l3_row_with_network network_10_0_0_0_30) two_routers))
       ("R1", "Gi0/0")
       = (addresses_of two_routers ("R1", "Gi0/0")
            ++ [plain_address first network_10_0_0_0_30])%list /\
     addresses_of
       (fst (load_l3_link (H := any_address_assignable)
               (l3_row_with_network network_10_0_0_0_30) two_routers))
       ("R2", "Gi0/0")
       = (addresses_of two_routers ("R2", "Gi0/0")
            ++ [plain_address last network_10_0_0_0_30])%list) /\
    (IPv4Network.prefixlen network_10_0_0_0_30 = 32%N ->
     first = IPv4Network.network_address network_10_0_0_0_30 /\
     last = IPv4Network.network_address network_10_0_0_0_30).
Proof.
  refine (network_addresses_assigned (H := any_address_assignable)
            (l3_row_with_network network_10_0_0_0_30) network_10_0_0_0_30 two_routers _ _ _ _).
  - reflexivity.
  - reflexivity.
  - vm_compute. reflexivity.
Defined.

(** The network 10.0.0.0/30 gives 10.0.0.1/30 to the a side and 10.0.0.2/30
    to the z side. *)
Example network_10_0_0_0_30_assigned :
  IPv4Network.hosts network_10_0_0_0_30 = [dotted 10 0 0 1; dotted 10 0 0 2] /\
  addresses_of
    (fst (load_l3_link (H := any_address_assignable)
            (l3_row_with_network network_10_0_0_0_30) two_routers))
    ("R1", "Gi0/0") = [interface_address 10 0 0 1 30 None] /\
  addresses_of
    (fst (load_l3_link (H := any_address_assignable)
            (l3_row_with_network network_10_0_0_0_30) two_routers))
    ("R2", "Gi0/0") = [interface_address 10 0 0 2 30 None].
Proof. vm_compute. repeat split. Qed.

(** C4 as stated fails: the network 10.0.0.1/32 has one usable address,
    fewer than two, and the row is processed without error: both sides get
    10.0.0.1/32. *)
Lemma single_address_network_accepted :
  length (IPv4Network.hosts network_10_0_0_1_32) = 1%nat /\
  snd (load_l3_link (H := any_address_assignable)
         (l3_row_with_network network_10_0_0_1_32) two_routers) = Ok tt /\
  addresses_of
    (fst (load_l3_link (H := any_address_assignable)
            (l3_row_with_network network_10_0_0_1_32) two_routers))
    ("R1", "Gi0/0") = [interface_address 10 0 0 1 32 None] /\
  addresses_of
    (fst (load_l3_link (H := any_address_assignable)
            (l3_row_with_network network_10_0_0_1_32) two_routers))
    ("R2", "Gi0/0") = [interface_address 10 0 0 1 32 None].
Proof. vm_compute. repeat split. Qed.

End AddressingExamples.

(** ** Rows that cannot be processed: BGP process and OSPF template *)

Section Bgp.

Import Inventory ExcelLoader Properties.

(** C7.  A BGP-neighbor row whose host has no BGP process (no config, no
    routing config or no BGP process in it) is not processed: the row fails,
    on a host of the inventory with the AttributeError of the attribute read
    on [None], and the loader is left as it was. *)
Theorem bgp_neighbor_requires_process peer_groups row s :
  bgp_of s (neighbor_host row) = None ->
  exists e,
    load_bgp_neighbor peer_groups row s = (s, Raise e) /\
    (is_Some (hosts s !! neighbor_host row) -> exists attr, e = AttributeError attr).
Proof.
  unfold bgp_of, load_bgp_neighbor, bind, get_host, the_bgp, bind, read_host, raise.
  destruct (hosts s !! neighbor_host row) as [h|] eqn:Hhost; simpl.
  - rewrite Hhost.
    destruct (Host.config h) as [config|]; simpl; [| eauto].
    destruct (HostConfig.routing config) as [routing|]; simpl; [| eauto].
    destruct (RoutingConfig.bgp routing) as [bgp|]; simpl; [discriminate | eauto].
  - intros _. eexists. split; [reflexivity |]. intros [? ?]. discriminate.
Qed.

(** A BGP-router row gives its host a BGP process. *)
Lemma load_bgp_router_gives_process row s s' :
  load_bgp_router row s = (s', Ok tt) -> is_Some (bgp_of s' (router_host row)).
Proof.
  unfold load_bgp_router. intros Hrun.
  apply bind_ok_inv in Hrun as (host & s0 & Hget & Hrun). apply get_host_ok in Hget as [-> ->].
  apply bind_ok_inv in Hrun as (h & s0 & Hread & Hwrite).
  unfold read_host in Hread. destruct (hosts s !! router_host row) as [h0|]; [| discriminate].
  injection Hread as <- <-. injection Hwrite as <-.
  unfold bgp_of. simpl. rewrite lookup_insert_eq. simpl.
  destruct (Host.config h0) as [[[[[bgp|]]|]]|]; simpl; eauto.
Qed.

End Bgp.

Section UnknownTemplate.

Import ipaddress Pydantic L3InterfaceModels Inventory ExcelLoader Properties.

Context `{Validators}.

#[local] Abbreviation rest_frame m :=
  (m keeps_rest (fun _ _ : InterfaceModel.t => True)
     keeps_rest_refl keeps_rest_trans keeps_rest_write) (only parsing).

(** Up to the templates, the row changes interfaces only. *)
Lemma link_section_keeps_rest row : preserves keeps_rest (link_section row).
Proof.
  unfold link_section.
  apply preserves_bind; [apply keeps_rest_trans | |].
  { apply frame_pure; [apply keeps_rest_refl |]. intros s.
    unfold get_hosts_from_link, bind, get_host, ret.
    destruct (hosts s !! _); [destruct (hosts s !! _) |]; reflexivity. }
  intros hs. apply preserves_bind; [apply keeps_rest_trans | |].
  { apply frame_pure; [apply keeps_rest_refl |]. intros s.
    unfold get_interfaces_from_link, bind, get_interface, ret.
    destruct (interfaces s !! _); [destruct (interfaces s !! _) |]; reflexivity. }
  intros ks. apply preserves_bind; [apply keeps_rest_trans | |].
  { apply (rest_frame frame_write_neighbors). trivial. }
  intros _. apply preserves_bind; [apply keeps_rest_trans | |].
  { apply (rest_frame frame_port_section); trivial. }
  intros _. apply preserves_bind; [apply keeps_rest_trans | |].
  { apply (rest_frame frame_addressing_section). trivial. }
  intros _. apply preserves_ret. apply keeps_rest_refl.
Qed.

Lemma template_section_unknown row name a z s :
  ospf_template row = Some name -> template_ref s name = None ->
  template_section row a z s = (s, Raise (unknown_template_error s)).
Proof.
  unfold template_ref, template_section, ospf_template_section, unknown_template_error.
  intros -> Href. unfold bind at 1. unfold bind at 1. unfold templates_ospf.
  destruct (templates s !! "ospf") as [registry|]; simpl in *; [| reflexivity].
  unfold bind. rewrite Href. reflexivity.
Qed.

(** C6.  An L3-link row that names an OSPF template which the registry does
    not hold is not processed: the row fails, and when its link, ports and
    addresses went through, it fails at the lookup of the template. *)
Theorem unknown_ospf_template_fails row name s :
  ospf_template row = Some name -> template_ref s name = None ->
  (exists e, snd (load_l3_link row s) = Raise e) /\
  (forall s1 refs, link_section row s = (s1, Ok refs) ->
     load_l3_link row s = (s1, Raise (unknown_template_error s))).
Proof.
  intros Hname Href. unfold load_l3_link.
  destruct (link_section row s) as [s1 [refs|e]] eqn:Hlink.
  - pose proof (link_section_keeps_rest row _ _ _ Hlink) as (_ & Htemplates & _).
    assert (Hrun : bind (link_section row)
                     (fun link_interfaces =>
                        template_section row (fst link_interfaces) (snd link_interfaces)) s
                   = (s1, Raise (unknown_template_error s))).
    { rewrite (bind_run _ _ _ _ _ Hlink).
      rewrite (template_section_unknown row name) by
        (try assumption; unfold template_ref in *; rewrite Htemplates; exact Href).
      unfold unknown_template_error. rewrite Htemplates. reflexivity. }
    split.
    + rewrite Hrun. eauto.
    + intros s1' refs' [= <- <-]. exact Hrun.
  - split.
    + rewrite (bind_raise _ _ _ _ _ Hlink). eauto.
    + intros s1' refs' Hok. discriminate Hok.
Qed.

End UnknownTemplate.

Section TemplateExamples.

Import ipaddress L3InterfaceModels Inventory ExcelLoader Properties Examples.

Lemma bgp_neighbor_requires_process_witness :
  exists e,
    load_bgp_neighbor [rr_client_group] rr_client_neighbor_row two_routers
      = (two_routers, Raise e) /\
    (is_Some (hosts two_routers !! "R1") -> exists attr, e = AttributeError attr).
Proof.
  apply (bgp_neighbor_requires_process [rr_client_group] rr_client_neighbor_row two_routers).
  reflexivity.
Defined.

(** Once a BGP-router row gave the host its process, the same neighbor row
    goes through. *)
Example bgp_neighbor_after_router :
  snd (load_bgp_neighbor [rr_client_group] rr_client_neighbor_row
         (fst (load_bgp_router {| router_host := "R1"; router_asn := 65001 |} two_routers)))
  = Ok tt.
Proof. vm_compute. reflexivity. Qed.

Lemma unknown_ospf_template_fails_witness :
  (exists e,
      snd (load_l3_link (H := any_address_assignable)
             (l3_row_with_template "CORE") routers_with_template) = Raise e) /\
  load_l3_link (H := any_address_assignable)
    (l3_row_with_template "CORE") routers_with_template
  = (fst (link_section (H := any_address_assignable)
            (l3_row_with_template "CORE") routers_with_template),
     Raise (AttributeError "clone")).
Proof.
  assert (Hunknown : template_ref routers_with_template "CORE" = None)
    by (vm_compute; reflexivity).
  pose proof (unknown_ospf_template_fails (H := any_address_assignable)
                (l3_row_with_template "CORE") "CORE" routers_with_template
                eq_refl Hunknown) as [Hfails Hstep].
  split; [exact Hfails |].
  apply (Hstep _ (("R1", "Gi0/0"), ("R2", "Gi0/0"))).
  vm_compute. reflexivity.
Defined.

(** The row that names the unknown template "CORE" fails with the
    AttributeError of [None.clone()], after its link was written. *)
Example unknown_ospf_template_error :
  snd (load_l3_link (H := any_address_assignable)
         (l3_row_with_template "CORE") routers_with_template)
  = Raise (AttributeError "clone").
Proof. vm_compute. reflexivity. Qed.

End TemplateExamples.

(** ** OSPF templates are applied by copy *)

Section Templates.

Import ipaddress Pydantic L3InterfaceModels Inventory ExcelLoader Properties.

Context `{Validators}.

Lemma on_l3_port_modify_ok k attr g s s' :
  on_l3_port k attr (modify g) s = (s', Ok tt) ->
  exists i port,
    interfaces s !! k = Some i /\ InterfaceModel.l3_port i = Some port /\
    s' = set_interfaces (<[k := InterfaceModel.set_l3_port (Some (g port)) i]> (interfaces s)) s.
Proof.
  unfold on_l3_port, bind, read_interface, write_interface, modify, lift, raise.
  destruct (interfaces s !! k) as [i|]; [| discriminate].
  destruct (InterfaceModel.l3_port i) as [port|] eqn:Hport; [| discriminate].
  intros [= <-]. eauto.
Qed.

Lemma set_ospf_ok k attr v s s' :
  on_l3_port k attr (modify (InterfaceRouteportModel.set_ospf v)) s = (s', Ok tt) ->
  keeps_rest s s' /\
  forall k', ospf_ref_of s' k' = if decide (k = k') then v else ospf_ref_of s k'.
Proof.
  intros Hrun. apply on_l3_port_modify_ok in Hrun as (i & port & Hk & Hport & ->).
  split; [repeat split |].
  intros k'. unfold ospf_ref_of. rewrite observe_write. reflexivity.
Qed.

Lemma clone_ospf_template_ok ref s s' copy :
  clone_ospf_template ref s = (s', Ok copy) ->
  exists l config,
    ref = Some l /\ ospf_objects s !! l = Some config /\
    copy = fresh (dom (ospf_objects s)) /\
    s' = set_ospf_objects (<[copy := config]> (ospf_objects s)) s.
Proof.
  unfold clone_ospf_template. destruct ref as [l|]; [| discriminate].
  unfold bind, get, raise, lift, allocate.
  destruct (ospf_objects s !! l) as [config|] eqn:Hl; [| discriminate].
  destruct (InterfaceOspfConfig.clone config) as [c|e] eqn:Hclone; [| discriminate].
  apply ospf_clone_Ok in Hclone as [-> _].
  intros [= <- <-]. exists l, config. repeat split. exact Hl.
Qed.

Lemma ospf_ref_of_heap h s k : ospf_ref_of (set_ospf_objects h s) k = ospf_ref_of s k.
Proof. reflexivity. Qed.

Lemma fresh_object {V} (heap : gmap positive V) l v :
  heap !! l = Some v -> l <> fresh (dom heap).
Proof.
  intros Hl Heq. apply (is_fresh (dom heap)). rewrite <- Heq.
  apply elem_of_dom. eauto.
Qed.

(** What the OSPF part of the template section leaves: two new objects with
    the value of the prototype, one for each end. *)
Lemma ospf_template_section_ok name a z s s' :
  ospf_template_section (Some name) a z s = (s', Ok tt) ->
  exists lt la lz config,
    template_ref s' name = Some lt /\
    ospf_ref_of s' z = Some lz /\
    (a <> z -> ospf_ref_of s' a = Some la) /\
    lt <> la /\ lt <> lz /\ la <> lz /\
    ospf_objects s' !! lt = Some config /\
    ospf_objects s' !! la = Some config /\
    ospf_objects s' !! lz = Some config.
Proof.
  unfold ospf_template_section. intros Hrun.
  apply bind_ok_inv in Hrun as (registry & s0 & Hregistry & Hrun).
  unfold templates_ospf in Hregistry.
  destruct (templates s !! "ospf") as [registry'|] eqn:Hospf; [| discriminate].
  injection Hregistry as <- <-.
  apply bind_ok_inv in Hrun as (la & s1 & Hclone_a & Hrun).
  apply clone_ospf_template_ok in Hclone_a as (lt & config & Hlt & Hconfig & Hla & ->).
  apply bind_ok_inv in Hrun as ([] & s2 & Hset_a & Hrun).
  apply set_ospf_ok in Hset_a as [(_ & Htemplates2 & Hheap2) Href2].
  apply bind_ok_inv in Hrun as (lz & s3 & Hclone_z & Hset_z).
  rewrite Hlt in Hclone_z.
  apply clone_ospf_template_ok in Hclone_z as (lt' & config' & [= <-] & Hconfig' & Hlz & ->).
  apply set_ospf_ok in Hset_z as [(_ & Htemplates' & Hheap') Href'].
  simpl in *.
  assert (Hlt_la : lt <> la) by (subst la; eapply fresh_object; exact Hconfig).
  assert (Hlt_lz : lt <> lz) by (subst lz; eapply fresh_object; exact Hconfig').
  assert (Hla_lz : la <> lz).
  { subst lz. eapply fresh_object. rewrite Hheap2. apply lookup_insert_eq. }
  rewrite Hheap2, lookup_insert_ne in Hconfig' by congruence.
  assert (config' = config) by congruence. subst config'.
  exists lt, la, lz, config.
  split; [unfold template_ref; rewrite Htemplates', Htemplates2; simpl; rewrite Hospf; exact Hlt |].
  split; [rewrite Href'; case_decide; [reflexivity | contradiction] |].
  split.
  { intros Hne. rewrite Href'. case_decide; [congruence |].
    rewrite ospf_ref_of_heap, Href2. case_decide; [reflexivity | contradiction]. }
  repeat split; try assumption; rewrite Hheap', Hheap2.
  - rewrite !lookup_insert_ne by congruence. exact Hconfig.
  - rewrite lookup_insert_ne by congruence. apply lookup_insert_eq.
  - apply lookup_insert_eq.
Qed.


Lemma link_section_refs row s s1 refs :
  link_section row s = (s1, Ok refs) -> refs = (a_end (l3_link row), z_end (l3_link row)).
Proof.
  unfold link_section. intros Hlink.
  apply bind_ok_inv in Hlink as (hs & s0 & _ & Hlink).
  apply bind_ok_inv in Hlink as (ks & s0' & Hks & Hlink).
  apply get_interfaces_from_link_ok in Hks as [_ ->].
  apply bind_ok_inv in Hlink as ([] & s1' & _ & Hlink).
  apply bind_ok_inv in Hlink as ([] & s2 & _ & Hlink).
  apply bind_ok_inv in Hlink as ([] & s3 & _ & Hret).
  injection Hret as _ <-. reflexivity.
Qed.

Lemma template_of_mutate st name k f lt l :
  template_ref st name = Some lt -> ospf_ref_of st k = Some l -> l <> lt ->
  template_of (mutate_ospf k f st) name = template_of st name.
Proof.
  intros Hlt Hl Hne. unfold template_of, mutate_ospf. rewrite Hl.
  change (template_ref (set_ospf_objects (alter f l (ospf_objects st)) st) name)
    with (template_ref st name).
  rewrite Hlt. simpl. apply lookup_alter_ne. exact Hne.
Qed.

Lemma ospf_of_mutate st k k' f l l' :
  ospf_ref_of st k = Some l -> ospf_ref_of st k' = Some l' -> l <> l' ->
  ospf_of (mutate_ospf k f st) k' = ospf_of st k'.
Proof.
  intros Hl Hl' Hne. unfold ospf_of, mutate_ospf. rewrite Hl.
  rewrite ospf_ref_of_heap, Hl'. simpl. apply lookup_alter_ne. exact Hne.
Qed.

Lemma isolated_objects st name a z lt la lz config :
  template_ref st name = Some lt ->
  ospf_ref_of st z = Some lz ->
  (a <> z -> ospf_ref_of st a = Some la) ->
  lt <> la -> lt <> lz -> la <> lz ->
  ospf_objects st !! lt = Some config ->
  ospf_objects st !! la = Some config ->
  ospf_objects st !! lz = Some config ->
  template_applied st name a z /\ copy_isolated st name a z.
Proof.
  intros Hlt Hz Ha Hlt_la Hlt_lz Hla_lz Hconfig Hconfig_a Hconfig_z.
  assert (Htemplate : template_of st name = Some config).
  { unfold template_of. rewrite Hlt. exact Hconfig. }
  assert (Hospf_z : ospf_of st z = Some config).
  { unfold ospf_of. rewrite Hz. exact Hconfig_z. }
  destruct (decide (a = z)) as [-> | Hne].
  - split.
    + unfold template_applied. rewrite Htemplate, Hospf_z. repeat split; eauto.
    + intros f. split; [| split]; [| | contradiction];
        eapply template_of_mutate; eauto.
  - specialize (Ha Hne).
    assert (Hospf_a : ospf_of st a = Some config).
    { unfold ospf_of. rewrite Ha. exact Hconfig_a. }
    split.
    + unfold template_applied. rewrite Htemplate, Hospf_a, Hospf_z. repeat split; eauto.
    + intros f. split; [| split].
      * eapply template_of_mutate; eauto.
      * eapply template_of_mutate; eauto.
      * intros _. split; eapply ospf_of_mutate; eauto.
Qed.

(** C5.  After an L3-link row applied the OSPF template of a name to its two
    end interfaces, each end holds the value of the template; changing the
    OSPF config of one end in place changes neither the prototype in the
    registry nor, the ends being two interfaces, the OSPF config of the
    other end. *)
Theorem ospf_template_copies_isolated row name s s' :
  ospf_template row = Some name ->
  load_l3_link row s = (s', Ok tt) ->
  template_applied s' name (a_end (l3_link row)) (z_end (l3_link row)) /\
  copy_isolated s' name (a_end (l3_link row)) (z_end (l3_link row)).
Proof.
  unfold load_l3_link. intros Hname Hrun.
  apply bind_ok_inv in Hrun as (refs & s3 & Hlink & Htemplates).
  apply link_section_refs in Hlink as ->. simpl in Htemplates.
  unfold template_section in Htemplates.
  apply bind_ok_inv in Htemplates as ([] & s4 & Hospf & Hbfd).
  rewrite Hname in Hospf.
  apply ospf_template_section_ok in Hospf
    as (lt & la & lz & config & Hlt & Hz & Ha & Hlt_la & Hlt_lz & Hla_lz & Hc & Hca & Hcz).
  assert (Hrefs : keeps ospf_field s4 s').
  { eapply (frame_bfd_template_section (keeps ospf_field)
              (fun i v => ospf_field v = ospf_field i)
              (keeps_refl _) (keeps_trans _) (keeps_write _)); [| exact Hbfd].
    intros i port v Hport. unfold ospf_field. simpl. rewrite Hport. reflexivity. }
  assert (Hrest : keeps_rest s4 s').
  { eapply (frame_bfd_template_section keeps_rest (fun _ _ => True)
              keeps_rest_refl keeps_rest_trans keeps_rest_write); [| exact Hbfd].
    trivial. }
  destruct Hrest as (_ & Htemplates' & Hheap').
  apply (isolated_objects s' name _ _ lt la lz config); try assumption.
  - unfold template_ref. rewrite Htemplates'. exact Hlt.
  - unfold ospf_ref_of. rewrite Hrefs. exact Hz.
  - intros Hne. unfold ospf_ref_of. rewrite Hrefs. apply Ha, Hne.
  - rewrite Hheap'. exact Hc.
  - rewrite Hheap'. exact Hca.
  - rewrite Hheap'. exact Hcz.
Qed.

End Templates.

Section TemplateCopyExamples.

Import ipaddress L3InterfaceModels Inventory ExcelLoader Properties Examples.

Lemma ospf_template_copies_isolated_witness :
  template_applied
    (fst (load_l3_link (H := any_address_assignable)
            (l3_row_with_template "P2P") routers_with_template))
    "P2P" ("R1", "Gi0/0") ("R2", "Gi0/0") /\
  copy_isolated
    (fst (load_l3_link (H := any_address_assignable)
            (l3_row_with_template "P2P") routers_with_template))
    "P2P" ("R1", "Gi0/0") ("R2", "Gi0/0").
Proof.
  refine (ospf_template_copies_isolated (H := any_address_assignable)
            (l3_row_with_template "P2P") "P2P" routers_with_template _ _ _).
  - reflexivity.
  - vm_compute. reflexivity.
Defined.

(** Setting the cost of the OSPF config of R1 Gi0/0 in place changes that
    config and leaves the one of R2 Gi0/0 and the template "P2P" as they
    were. *)
Example cost_changed_on_one_end :
  let st := fst (load_l3_link (H := any_address_assignable)
                   (l3_row_with_template "P2P") routers_with_template) in
  let st' := mutate_ospf ("R1", "Gi0/0") (with_cost 99) st in
  (ospf_of st' ("R1", "Gi0/0") ≫= InterfaceOspfConfig.cost) = Some 99%Z /\
  (ospf_of st' ("R2", "Gi0/0") ≫= InterfaceOspfConfig.cost) = Some 10%Z /\
  (template_of st' "P2P" ≫= InterfaceOspfConfig.cost) = Some 10%Z.
Proof. vm_compute. repeat split. Qed.

End TemplateCopyExamples.

(** ** More on the models of a routed port *)

Section Authentication.

Import Pydantic L3InterfaceModels Properties.
Import InterfaceOspfAuthentication.

(** X1.  An OSPF authentication is accepted exactly when its fields are
    coupled: a keychain with the method key-chain and only with it, a key
    with no method or with message-digest only; any other combination is
    refused with one failure. *)
Theorem ospf_authentication_coupling method keychain key :
  (authentication_coupled {| method := method; keychain := keychain; key := key |} ->
   new method keychain key = Ok {| method := method; keychain := keychain; key := key |}) /\
  (~ authentication_coupled {| method := method; keychain := keychain; key := key |} ->
   exists failure, new method keychain key = Raise (ValidationError [failure])).
Proof.
  unfold authentication_coupled. simpl.
  destruct method as [[| |]|], keychain as [kc|], key as [k|]; split;
    try (intros _; reflexivity);
    try (intros _; eexists; reflexivity);
    try (intros [[Hk Hm] Hkey]; exfalso;
         first [ destruct (Hkey (ex_intro _ _ eq_refl)) as [Hn | Hn]; discriminate Hn
               | discriminate (Hk (ex_intro _ _ eq_refl))
               | destruct (Hm eq_refl) as [? Hx]; discriminate Hx ]);
    try (intros Hnot; exfalso; apply Hnot; split; [split |];
         first [ intros [? Hx]; discriminate Hx
               | intros Hx; discriminate Hx
               | intros _; eauto
               | eauto ]).
Qed.

Lemma ospf_authentication_coupling_witness :
  new (Some key_chain) (Some "KC-OSPF") None
    = Ok {| method := Some key_chain; keychain := Some "KC-OSPF"; key := None |} /\
  exists failure,
    new (Some message_digest) (Some "KC-OSPF") None = Raise (ValidationError [failure]).
Proof.
  split.
  - apply (proj1 (ospf_authentication_coupling (Some key_chain) (Some "KC-OSPF") None)).
    split; [split; [reflexivity | eauto] | intros [? Hx]; discriminate Hx].
  - apply (proj2 (ospf_authentication_coupling (Some message_digest) (Some "KC-OSPF") None)).
    intros [[Hk _] _]. discriminate (Hk (ex_intro _ _ eq_refl)).
Defined.

End Authentication.

Section ContainerOrder.

Import ipaddress Pydantic L3InterfaceModels Properties.
Import InterfaceIPv4Container.

Lemma ForallOrdPairs_cons_iff {A} (R : A -> A -> Prop) x l :
  ForallOrdPairs R (x :: l) <-> Forall (R x) l /\ ForallOrdPairs R l.
Proof.
  split.
  - intros Hfop. inversion Hfop; subst. split; assumption.
  - intros [Hx Hl]. constructor; assumption.
Qed.

Lemma ForallOrdPairs_Permutation {A} (R : A -> A -> Prop) l l' :
  (forall a b, R a b -> R b a) ->
  Permutation l l' -> ForallOrdPairs R l -> ForallOrdPairs R l'.
Proof.
  intros Hsym Hperm. induction Hperm as [| x l l' Hperm IH | x y l | l l' l'' _ IH1 _ IH2].
  - trivial.
  - rewrite !ForallOrdPairs_cons_iff. intros [Hx Hl]. split; [| apply IH, Hl].
    eapply Permutation_Forall; eassumption.
  - rewrite !ForallOrdPairs_cons_iff. intros [Hy [Hx Hl]].
    inversion Hy as [| ? ? Hyx Hyl]; subst.
    repeat split; try assumption. constructor; [apply Hsym, Hyx | assumption].
  - intros Hl. apply IH2, IH1, Hl.
Qed.

Lemma filter_Permutation {A} (f : A -> bool) l l' :
  Permutation l l' -> Permutation (List.filter f l) (List.filter f l').
Proof.
  intros Hperm. induction Hperm as [| x l l' Hperm IH | x y l | l l' l'' _ IH1 _ IH2]; simpl.
  - constructor.
  - destruct (f x); [constructor |]; exact IH.
  - destruct (f x), (f y); try reflexivity. constructor.
  - etransitivity; eassumption.
Qed.

Lemma valid_addresses_Permutation l l' :
  Permutation l l' -> valid_addresses l -> valid_addresses l'.
Proof.
  intros Hperm [Hno Hone]. split.
  - eapply ForallOrdPairs_Permutation; [| exact Hperm | exact Hno].
    intros a b Hab Hba. apply Hab, networks_overlap_sym, Hba.
  - unfold at_most_one_primary in *.
    rewrite <- (Permutation_length (filter_Permutation is_primary _ _ Hperm)). exact Hone.
Qed.

Lemma new_ok_iff_valid l u d :
  is_ok (new (Some l) u d) = true <-> valid_addresses l.
Proof.
  unfold new.
  destruct (validate_container {| addresses := Some l; unnumbered := u; dhcp_client := d |})
    as [[Hvalid ->] | [Hinvalid [errors ->]]]; simpl.
  - split; [intros _; exact Hvalid | reflexivity].
  - split; [discriminate | intros Hvalid; contradiction].
Qed.

(** X2.  Whether a list of addresses makes a container does not depend on
    the order of the list: a rearrangement of an accepted list is accepted,
    and a rearrangement of a refused list is refused. *)
Theorem container_validation_order_independent l l' u d :
  Permutation l l' ->
  is_ok (new (Some l) u d) = is_ok (new (Some l') u d).
Proof.
  intros Hperm.
  pose proof (new_ok_iff_valid l u d) as Hl. pose proof (new_ok_iff_valid l' u d) as Hl'.
  destruct (is_ok (new (Some l) u d)) eqn:Hok.
  - symmetry. apply Hl'. eapply valid_addresses_Permutation; [exact Hperm |].
    apply Hl. reflexivity.
  - destruct (is_ok (new (Some l') u d)) eqn:Hok'; [| reflexivity].
    apply Hl. eapply valid_addresses_Permutation; [symmetry; exact Hperm |].
    apply Hl'. reflexivity.
Qed.

Lemma non_overlapping_distinct_ips l : non_overlapping l -> List.NoDup (map ip_of l).
Proof.
  unfold non_overlapping. induction 1 as [| a l Ha Hl IH]; simpl; constructor; [| exact IH].
  intros Hin. apply in_map_iff in Hin as (b & Hip & Hb).
  eapply List.Forall_forall in Ha; [| exact Hb]. apply Ha.
  exists (ip_of a). split; [apply own_network |].
  unfold ip_of in *. rewrite <- Hip. apply own_network.
Qed.

(** X3.  The members of an accepted container have pairwise distinct IP
    addresses, whatever their prefix lengths and secondary flags: no address
    can be held twice. *)
Theorem container_ips_distinct l u d c :
  new (Some l) u d = Ok c -> List.NoDup (map ip_of l).
Proof.
  intros Hnew. apply non_overlapping_distinct_ips.
  assert (Hok : is_ok (new (Some l) u d) = true) by (rewrite Hnew; reflexivity).
  apply new_ok_iff_valid in Hok as [Hno _]. exact Hno.
Qed.

Lemma scan_others_Some a others e :
  scan_others a others = Some e ->
  exists o, In o others /\ e = Overlaps (show o) (show a) /\ address_in_network_of a o = true.
Proof.
  induction others as [| o others IH]; simpl; [discriminate |].
  destruct (address_in_network_of a o) eqn:Hin.
  - intros [= <-]. exists o. auto.
  - intros Hscan. destruct (IH Hscan) as (o' & Ho' & He & Hin'). exists o'. auto.
Qed.

Lemma scan_addresses_Some all todo e :
  incl todo all -> scan_addresses all todo = Some e ->
  exists a o, In a all /\ In o all /\
    e = Overlaps (show o) (show a) /\ address_in_network_of a o = true.
Proof.
  induction todo as [| a todo IH]; simpl; intros Hincl; [discriminate |].
  assert (Ha : In a all) by (apply Hincl; left; reflexivity).
  destruct (remove_In a all Ha) as [others Hothers]. rewrite Hothers.
  destruct (scan_others a others) as [e'|] eqn:Hscan.
  - intros [= <-]. apply scan_others_Some in Hscan as (o & Ho & He & Hin).
    exists a, o. repeat split; try assumption. eapply remove_incl; eassumption.
  - apply IH. intros x Hx. apply Hincl. right. exact Hx.
Qed.

(** X4.  When the scan for overlaps refuses a container, the failure names
    two members of the list, the first of which is the one in whose network
    the address of the second lies. *)
Theorem overlap_failure_names_members values e :
  validate_non_overlapping values = Some e ->
  exists l a o,
    addresses values = Some l /\ In a l /\ In o l /\
    e = Overlaps (show o) (show a) /\
    in_network_of (ip_of a) o.
Proof.
  unfold validate_non_overlapping. destruct (addresses values) as [l|]; [| discriminate].
  intros Hscan. apply scan_addresses_Some in Hscan as (a & o & Ha & Ho & He & Hin);
    [| apply incl_refl].
  exists l, a, o. repeat split; assumption.
Qed.

End ContainerOrder.

Section AddAddressMore.

Import ipaddress Pydantic L3InterfaceModels Properties.
Import InterfaceRouteportModel.

Context `{Validators}.

Lemma to_interface_address_assignable x :
  ipv4_is_assignable x = true ->
  to_interface_address (inr x)
  = Ok {| InterfaceIPv4Address.address := x; InterfaceIPv4Address.secondary := None |}.
Proof. intros Hx. simpl. unfold InterfaceIPv4Address.new. rewrite Hx. reflexivity. Qed.

Lemma validate_single_primary_cases values :
  InterfaceIPv4Container.validate_single_primary values = None \/
  InterfaceIPv4Container.validate_single_primary values = Some MultiplePrimary.
Proof.
  unfold InterfaceIPv4Container.validate_single_primary.
  destruct (InterfaceIPv4Container.addresses values) as [l|]; [| left; reflexivity].
  destruct (length l =? 1)%nat; [left; reflexivity |].
  destruct (1 <? _)%nat; [right | left]; reflexivity.
Qed.

Lemma plain_address_on_primary port x port' r :
  ipv4_is_assignable x = true ->
  (exists b, In b (address_list port) /\ InterfaceIPv4Container.is_primary b = true) ->
  add_ipv4_address (inr x) port = (port', r) ->
  exists errors, r = Raise (ValidationError errors) /\ In MultiplePrimary errors.
Proof.
  intros Hx Hprimary.
  set (a := {| InterfaceIPv4Address.address := x; InterfaceIPv4Address.secondary := None |}).
  rewrite (add_ipv4_address_run port (inr x) a (to_interface_address_assignable x Hx)).
  assert (Hsp : InterfaceIPv4Container.validate_single_primary (appended port a)
                = Some MultiplePrimary).
  { destruct (validate_single_primary_cases (appended port a)) as [Hnone | Hsome];
      [| exact Hsome].
    exfalso. apply (second_primary_refused (address_list port) a).
    - split; [reflexivity | exact Hprimary].
    - apply (validate_single_primary_None _ None None).
      unfold InterfaceIPv4Container.validate_single_primary in *. exact Hnone. }
  unfold InterfaceIPv4Container.clone, validate_model, InterfaceIPv4Container.validators.
  simpl omap. rewrite Hsp.
  destruct (InterfaceIPv4Container.validate_non_overlapping (appended port a)) as [e|]; simpl;
    intros [= _ <-].
  - exists [e; MultiplePrimary]. split; [reflexivity | right; left; reflexivity].
  - exists [MultiplePrimary]. split; [reflexivity | left; reflexivity].
Qed.

(** X5.  A plain interface address is added as a primary address: on a port
    that already holds a primary address, [add_ipv4_address] with a plain
    [IPv4Interface] always fails, the failure of the single-primary check
    among its errors, and the address stays appended to the list. *)
Theorem second_plain_address_refused port x :
  ipv4_is_assignable x = true ->
  (exists b, In b (address_list port) /\ InterfaceIPv4Container.is_primary b = true) ->
  exists errors,
    snd (add_ipv4_address (inr x) port) = Raise (ValidationError errors) /\
    In MultiplePrimary errors /\
    address_list (fst (add_ipv4_address (inr x) port))
    = (address_list port
         ++ [{| InterfaceIPv4Address.address := x; InterfaceIPv4Address.secondary := None |}])%list.
Proof.
  intros Hx Hprimary.
  destruct (add_ipv4_address (inr x) port) as [port' r] eqn:Hrun.
  destruct (plain_address_on_primary port x port' r Hx Hprimary Hrun) as (errors & -> & Hin).
  exists errors. simpl. split; [reflexivity |]. split; [exact Hin |].
  rewrite (add_ipv4_address_run port (inr x) _ (to_interface_address_assignable x Hx)) in Hrun.
  destruct (InterfaceIPv4Container.clone _); [discriminate |].
  injection Hrun as <- _. reflexivity.
Qed.

(** X6.  A plain interface address that the validator of the address refuses
    is not appended: [add_ipv4_address] fails with that one validation
    failure, and the port is left with a container whose address list exists
    and holds what it held before (the empty list when there was no container
    or no list). *)
Theorem unassignable_address_not_appended port x :
  ipv4_is_assignable x = false ->
  add_ipv4_address (inr x) port
  = (with_address_list port (address_list port), Raise (ValidationError [NotAssignable])).
Proof.
  intros Hx. unfold add_ipv4_address, with_address_list, address_list.
  destruct port as [[[[l|] u d]|] v m o b];
    unfold bind, get, when, lift, modify, the_ipv4; simpl;
    unfold InterfaceIPv4Address.new; rewrite Hx; reflexivity.
Qed.

Lemma add_ipv4_address_frame address port port' r :
  add_ipv4_address address port = (port', r) -> same_but_ipv4 port port'.
Proof.
  unfold add_ipv4_address, same_but_ipv4.
  destruct port as [[[[l|] u d]|] v m o b];
    unfold bind, get, when, lift, modify, the_ipv4; simpl;
    destruct (to_interface_address address) as [a|e]; simpl;
    try (intros [= <- _]; repeat split; fail);
    match goal with
    | |- context [InterfaceIPv4Container.clone ?c] =>
        destruct (validate_container c) as [[_ Hc] | [_ [errors Hc]]];
        unfold InterfaceIPv4Container.clone; rewrite Hc; simpl;
        intros [= <- _]; repeat split
    end.
Qed.

(** X7.  Whatever its outcome, [add_ipv4_address] changes nothing of the
    routed port but the address list of its IPv4 container: VRF, MTU, OSPF and
    BFD settings stay, and so do the unnumbered and DHCP settings of the
    container. *)
Theorem add_ipv4_address_changes_addresses_only address port :
  same_but_ipv4 port (fst (add_ipv4_address address port)).
Proof.
  destruct (add_ipv4_address address port) as [port' r] eqn:Hrun. simpl.
  unfold same_but_ipv4.
  pose proof (add_ipv4_address_frame _ _ _ _ Hrun) as (Hvrf & Hmtu & Hospf & Hbfd & Hun & Hdhcp).
  repeat split; assumption.
Qed.

End AddAddressMore.

Section KeyMore.

Import Pydantic L3InterfaceModels Properties.

Lemma key_ospf_short value :
  (String.length value <= 8)%nat -> KeyOspf.new value = Ok {| KeyOspf.value := value |}.
Proof.
  intros Hshort. unfold KeyOspf.new, KeyOspf.truncate_value, constr_max_length.
  destruct (Nat.ltb_spec 8 (String.length value)); [lia |].
  destruct (Nat.leb_spec (String.length value) 8); [reflexivity | lia].
Qed.

(** X8.  The construction of an OSPF key from a string never fails; the
    value it stores has at most 8 characters, and a key built again from the
    stored value is the same key. *)
Theorem key_ospf_stable value :
  exists k,
    KeyOspf.new value = Ok k /\
    (String.length (KeyOspf.value k) <= 8)%nat /\
    KeyOspf.new (KeyOspf.value k) = Ok k.
Proof.
  destruct (Nat.le_gt_cases (String.length value) 8) as [Hshort | Hlong].
  - exists {| KeyOspf.value := value |}. simpl.
    split; [apply key_ospf_short, Hshort |]. split; [exact Hshort |].
    apply key_ospf_short, Hshort.
  - destruct (substring_prefix 8 value) as (rest & _ & Hstored); [lia |].
    exists {| KeyOspf.value := substring 0 8 value |}. simpl.
    split; [| split; [lia | apply key_ospf_short; lia]].
    unfold KeyOspf.new, KeyOspf.truncate_value.
    destruct (Nat.ltb_spec 8 (String.length value)); [| lia].
    unfold constr_max_length. rewrite Hstored. reflexivity.
Qed.

End KeyMore.

(** ** Which interfaces a step of the loader can change *)

Section Touch.

Import ipaddress Pydantic L3InterfaceModels Inventory ExcelLoader Properties.

Variable K : list (string * string).

Lemma untouched_refl s : untouched_outside K s s.
Proof. intros k _. reflexivity. Qed.

Lemma untouched_trans s1 s2 s3 :
  untouched_outside K s1 s2 -> untouched_outside K s2 s3 -> untouched_outside K s1 s3.
Proof. intros H12 H23 k Hk. rewrite (H23 k Hk). apply H12, Hk. Qed.

Lemma untouched_write s k v :
  In k K -> untouched_outside K s (set_interfaces (<[k := v]> (interfaces s)) s).
Proof.
  intros Hk k' Hk'. simpl. apply lookup_insert_ne. intros ->. contradiction.
Qed.

(** A step that leaves the interfaces as they are. *)
Lemma touch_nothing {A} (m : M ExcelLoader.t A) :
  (forall s, interfaces (fst (m s)) = interfaces s) -> preserves (untouched_outside K) m.
Proof.
  intros Hm s s' r Hrun k _. specialize (Hm s). rewrite Hrun in Hm. simpl in Hm.
  rewrite Hm. reflexivity.
Qed.

Lemma touch_update_interface k f :
  In k K -> preserves (untouched_outside K) (update_interface k f).
Proof.
  intros Hk s s' r. unfold update_interface, bind, read_interface, write_interface, modify.
  destruct (interfaces s !! k) as [i|]; intros [= <- _];
    [apply untouched_write, Hk | apply untouched_refl].
Qed.

Lemma touch_on_l3_port {A} k attr (m : M InterfaceRouteportModel.t A) :
  In k K -> preserves (untouched_outside K) (on_l3_port k attr m).
Proof.
  intros Hk s s' r. unfold on_l3_port, bind, read_interface, write_interface, modify, raise, lift.
  destruct (interfaces s !! k) as [i|]; [| intros [= <- _]; apply untouched_refl].
  destruct (InterfaceModel.l3_port i) as [port|]; [| intros [= <- _]; apply untouched_refl].
  destruct (m port) as [port' r']. intros [= <- _]. apply untouched_write, Hk.
Qed.

Lemma touch_ensure_l3_port k :
  In k K -> preserves (untouched_outside K) (ensure_l3_port k).
Proof.
  intros Hk s s' r. unfold ensure_l3_port, bind, read_interface, write_interface, modify, when.
  destruct (interfaces s !! k) as [i|]; [| intros [= <- _]; apply untouched_refl].
  case_bool_decide; intros [= <- _]; [apply untouched_write, Hk | apply untouched_refl].
Qed.

Lemma touch_set_neighbor k host name :
  In k K -> preserves (untouched_outside K) (set_neighbor k host name).
Proof. apply touch_update_interface. Qed.

Lemma touch_write_neighbors a_host z_host a z :
  In a K -> In z K -> preserves (untouched_outside K) (write_neighbors a_host z_host a z).
Proof.
  intros Ha Hz. unfold write_neighbors.
  apply preserves_bind; [apply untouched_trans | apply touch_set_neighbor, Ha |].
  intros _. apply touch_set_neighbor, Hz.
Qed.

Lemma touch_cdp_section row a z :
  In a K -> In z K -> preserves (untouched_outside K) (cdp_section row a z).
Proof.
  intros Ha Hz. unfold cdp_section.
  assert (Hloop : forall cfg,
    preserves (untouched_outside K) (for_each [a; z] (set_discovery_if_unset cfg))).
  { intros cfg. simpl.
    assert (Hone : forall k, In k K ->
      preserves (untouched_outside K) (set_discovery_if_unset cfg k)).
    { intros k Hk. unfold set_discovery_if_unset.
      apply preserves_bind; [apply untouched_trans | |].
      - apply touch_nothing. intros s. unfold read_interface.
        destruct (interfaces s !! k); reflexivity.
      - intros i. apply preserves_when; [apply untouched_refl |].
        apply preserves_bind; [apply untouched_trans | |].
        + apply touch_nothing. intros s. unfold clone_cdp_config. destruct cfg; reflexivity.
        + intros c. apply touch_update_interface, Hk. }
    apply preserves_bind; [apply untouched_trans | apply Hone, Ha |]. intros _.
    apply preserves_bind; [apply untouched_trans | apply Hone, Hz |]. intros _.
    apply preserves_ret, untouched_refl. }
  destruct (cdp_enabled row) as [[| | |]|]; try apply Hloop; apply preserves_ret, untouched_refl.
Qed.

Lemma touch_get_interface h i : preserves (untouched_outside K) (get_interface h i).
Proof.
  apply touch_nothing. intros s. unfold get_interface.
  destruct (interfaces s !! (h, i)); reflexivity.
Qed.

Lemma touch_lag_side default_lag_mode host k lag_group lag_mode :
  In k K -> preserves (untouched_outside K) (lag_side default_lag_mode host k lag_group lag_mode).
Proof.
  intros Hk. unfold lag_side. destruct lag_group as [group|];
    [| apply preserves_ret, untouched_refl].
  apply preserves_bind; [apply untouched_trans | apply touch_get_interface |]. intros lag.
  apply preserves_bind; [apply untouched_trans | apply touch_update_interface, Hk |].
  intros _. apply preserves_ret, untouched_refl.
Qed.

End Touch.

(** ** More on physical links *)

Section PhysicalMore.

Import ipaddress Pydantic L3InterfaceModels Inventory ExcelLoader Properties.

Lemma get_host_state h s s' r : get_host h s = (s', r) -> s' = s.
Proof. unfold get_host. destruct (hosts s !! h); intros [= <- _]; reflexivity. Qed.

Lemma get_interface_state h i s s' r : get_interface h i s = (s', r) -> s' = s.
Proof. unfold get_interface. destruct (interfaces s !! (h, i)); intros [= <- _]; reflexivity. Qed.

Lemma in_lag_interfaces_a link group :
  PhysicalLink.a_lag_group link = Some group ->
  In (PhysicalLink.a_host link, port_channel group) (lag_interfaces link).
Proof. unfold lag_interfaces. intros ->. left. reflexivity. Qed.

Lemma in_lag_interfaces_z link group :
  PhysicalLink.z_lag_group link = Some group ->
  In (PhysicalLink.z_host link, port_channel group) (lag_interfaces link).
Proof. unfold lag_interfaces. intros ->. apply in_or_app. right. left. reflexivity. Qed.

Lemma touch_lag_section K default_lag_mode link a z :
  In a K -> In z K -> incl (lag_interfaces link) K ->
  preserves (untouched_outside K)
    (lag_section default_lag_mode link (PhysicalLink.a_host link) (PhysicalLink.z_host link) a z).
Proof.
  intros Ha Hz Hlag s s' r Hrun. unfold lag_section in Hrun.
  apply bind_inv in Hrun as [(a_lag & s1 & Ha_lag & Hrun) | (e & Ha_lag & _)];
    [| exact (touch_lag_side K _ _ _ _ _ Ha _ _ _ Ha_lag)].
  eapply untouched_trans; [exact (touch_lag_side K _ _ _ _ _ Ha _ _ _ Ha_lag) |].
  apply bind_inv in Hrun as [(z_lag & s2 & Hz_lag & Hrun) | (e & Hz_lag & _)];
    [| exact (touch_lag_side K _ _ _ _ _ Hz _ _ _ Hz_lag)].
  eapply untouched_trans; [exact (touch_lag_side K _ _ _ _ _ Hz _ _ _ Hz_lag) |].
  destruct a_lag as [a_lag|], z_lag as [z_lag|];
    try (injection Hrun as <- _; apply untouched_refl).
  apply lag_side_ok in Ha_lag as (a_group & Ha_group & ->).
  apply lag_side_ok in Hz_lag as (z_group & Hz_group & ->).
  eapply (touch_write_neighbors K (PhysicalLink.a_host link) (PhysicalLink.z_host link));
    [| | exact Hrun].
  - apply Hlag, in_lag_interfaces_a, Ha_group.
  - apply Hlag, in_lag_interfaces_z, Hz_group.
Qed.

#[local] Abbreviation rest_frame' m :=
  (m keeps_rest (fun _ _ : InterfaceModel.t => True)
     keeps_rest_refl keeps_rest_trans keeps_rest_write) (only parsing).

Lemma physical_link_keeps_rest default_lag_mode row :
  preserves keeps_rest (load_physical_link default_lag_mode row).
Proof.
  unfold load_physical_link.
  apply preserves_bind; [apply keeps_rest_trans | apply frame_get_host, keeps_rest_refl |].
  intros a_host.
  apply preserves_bind; [apply keeps_rest_trans | apply frame_get_interface, keeps_rest_refl |].
  intros a.
  apply preserves_bind; [apply keeps_rest_trans | apply frame_get_host, keeps_rest_refl |].
  intros z_host.
  apply preserves_bind; [apply keeps_rest_trans | apply frame_get_interface, keeps_rest_refl |].
  intros z.
  apply preserves_bind; [apply keeps_rest_trans | apply (rest_frame' frame_write_neighbors); trivial |].
  intros _.
  apply preserves_bind; [apply keeps_rest_trans | apply (rest_frame' frame_cdp_section); trivial |].
  intros _. apply (rest_frame' frame_lag_section); trivial.
Qed.

(** X9.  Whatever its outcome, a physical-link row changes no interface
    other than its two ends and the Port-channel interfaces of the LAG groups
    it names, and nothing of the hosts, the templates or the OSPF objects. *)
Theorem physical_link_touches_its_interfaces default_lag_mode row s s' r :
  load_physical_link default_lag_mode row s = (s', r) ->
  untouched_outside ([a_side (link row); z_side (link row)] ++ lag_interfaces (link row)) s s' /\
  keeps_rest s s'.
Proof.
  intros Hrun. split; [| eapply physical_link_keeps_rest; exact Hrun].
  set (K := ([a_side (link row); z_side (link row)] ++ lag_interfaces (link row))%list).
  unfold load_physical_link in Hrun.
  apply bind_inv in Hrun as [(a_host & s0 & Hget & Hrun) | (e & Hget & _)];
    [| apply get_host_state in Hget as ->; apply untouched_refl].
  apply get_host_ok in Hget as [-> ->].
  apply bind_inv in Hrun as [(a & s0 & Hget & Hrun) | (e & Hget & _)];
    [| apply get_interface_state in Hget as ->; apply untouched_refl].
  apply get_interface_ok in Hget as (-> & -> & _).
  apply bind_inv in Hrun as [(z_host & s0 & Hget & Hrun) | (e & Hget & _)];
    [| apply get_host_state in Hget as ->; apply untouched_refl].
  apply get_host_ok in Hget as [-> ->].
  apply bind_inv in Hrun as [(z & s0 & Hget & Hrun) | (e & Hget & _)];
    [| apply get_interface_state in Hget as ->; apply untouched_refl].
  apply get_interface_ok in Hget as (-> & -> & _).
  assert (Ha : In (a_side (link row)) K) by (left; reflexivity).
  assert (Hz : In (z_side (link row)) K) by (right; left; reflexivity).
  revert s s' r Hrun.
  change (preserves (untouched_outside K)
            (bind (write_neighbors (PhysicalLink.a_host (link row)) (PhysicalLink.z_host (link row))
                     (a_side (link row)) (z_side (link row)))
               (fun _ => bind (cdp_section row (a_side (link row)) (z_side (link row)))
                  (fun _ => lag_section default_lag_mode (link row)
                              (PhysicalLink.a_host (link row)) (PhysicalLink.z_host (link row))
                              (a_side (link row)) (z_side (link row)))))).
  apply preserves_bind; [apply untouched_trans | apply touch_write_neighbors; assumption |].
  intros _.
  apply preserves_bind; [apply untouched_trans | apply touch_cdp_section; assumption |].
  intros _. apply touch_lag_section; try assumption.
  intros k Hk. apply in_or_app. right. exact Hk.
Qed.

(** X10.  A physical-link row one of whose hosts or end interfaces is not in
    the inventory fails with the lookup failure and leaves the loader as it
    was: the lookups come before every write. *)
Theorem physical_link_unknown_entity default_lag_mode row s :
  ~ physical_link_resolves s (link row) ->
  exists name, load_physical_link default_lag_mode row s = (s, Raise (UnknownEntity name)).
Proof.
  unfold physical_link_resolves, load_physical_link, a_side, z_side. intros Hmissing.
  unfold bind at 1. unfold get_host at 1.
  destruct (hosts s !! PhysicalLink.a_host (link row)) as [ha|] eqn:Hha; [| eauto].
  unfold bind at 1. unfold get_interface at 1.
  destruct (interfaces s !! (PhysicalLink.a_host (link row), PhysicalLink.a_interface (link row)))
    as [ia|] eqn:Hia; [| eauto].
  unfold bind at 1. unfold get_host at 1.
  destruct (hosts s !! PhysicalLink.z_host (link row)) as [hz|] eqn:Hhz; [| eauto].
  unfold bind at 1. unfold get_interface at 1.
  destruct (interfaces s !! (PhysicalLink.z_host (link row), PhysicalLink.z_interface (link row)))
    as [iz|] eqn:Hiz; [| eauto].
  exfalso. apply Hmissing. repeat split; eauto.
Qed.

(** X11.  When both sides of a physical-link row name a LAG group and the
    row is processed, the two Port-channel interfaces are neighbors of each
    other: the one of the a side holds (z_host, Port-channel of z), the one of
    the z side holds (a_host, Port-channel of a). *)
Theorem port_channel_neighbors_matched default_lag_mode row a_group z_group s s' :
  PhysicalLink.a_lag_group (link row) = Some a_group ->
  PhysicalLink.z_lag_group (link row) = Some z_group ->
  load_physical_link default_lag_mode row s = (s', Ok tt) ->
  neighbors_matched s'
    (PhysicalLink.a_host (link row), port_channel a_group)
    (PhysicalLink.z_host (link row), port_channel z_group).
Proof.
  unfold load_physical_link. intros Ha_group Hz_group Hrun.
  apply bind_ok_inv in Hrun as (a_host & s0 & Hget & Hrun). apply get_host_ok in Hget as [-> ->].
  apply bind_ok_inv in Hrun as (a & s0 & Hget & Hrun). apply get_interface_ok in Hget as (-> & -> & _).
  apply bind_ok_inv in Hrun as (z_host & s0 & Hget & Hrun). apply get_host_ok in Hget as [-> ->].
  apply bind_ok_inv in Hrun as (z & s0 & Hget & Hrun). apply get_interface_ok in Hget as (-> & -> & _).
  apply bind_ok_inv in Hrun as ([] & s1 & _ & Hrun).
  apply bind_ok_inv in Hrun as ([] & s2 & _ & Hlag).
  unfold lag_section in Hlag. rewrite Ha_group, Hz_group in Hlag.
  apply bind_ok_inv in Hlag as (a_lag & s3 & Ha_lag & Hlag).
  apply bind_ok_inv in Hlag as (z_lag & s4 & Hz_lag & Hlag).
  assert (Ha : a_lag = Some (PhysicalLink.a_host (link row), port_channel a_group)).
  { unfold lag_side in Ha_lag.
    apply bind_ok_inv in Ha_lag as (l & s5 & Hget & Ha_lag).
    apply get_interface_ok in Hget as (-> & -> & _).
    apply bind_ok_inv in Ha_lag as ([] & s6 & _ & Hret). injection Hret as _ <-. reflexivity. }
  assert (Hz : z_lag = Some (PhysicalLink.z_host (link row), port_channel z_group)).
  { unfold lag_side in Hz_lag.
    apply bind_ok_inv in Hz_lag as (l & s5 & Hget & Hz_lag).
    apply get_interface_ok in Hget as (-> & -> & _).
    apply bind_ok_inv in Hz_lag as ([] & s6 & _ & Hret). injection Hret as _ <-. reflexivity. }
  subst a_lag z_lag.
  apply (write_neighbors_matched
           (PhysicalLink.a_host (link row), port_channel a_group)
           (PhysicalLink.z_host (link row), port_channel z_group) s4 s').
  exact Hlag.
Qed.


Lemma lag_side_lag_member default_lag_mode host k group mode s s' lag k' :
  lag_side default_lag_mode host k group mode s = (s', Ok lag) ->
  lag_member_of s' k' =
  match group with
  | Some g =>
      if decide (k = k') then Some (lag_member_from default_lag_mode g mode)
      else lag_member_of s k'
  | None => lag_member_of s k'
  end.
Proof.
  unfold lag_side. destruct group as [g|]; [| intros [= <- _]; reflexivity].
  intros Hrun.
  apply bind_ok_inv in Hrun as (l & s0 & Hget & Hrun).
  apply get_interface_ok in Hget as (-> & _ & _).
  apply bind_ok_inv in Hrun as ([] & s1 & Hupdate & Hret). injection Hret as <- _.
  apply update_interface_ok in Hupdate as (i & _ & ->).
  unfold lag_member_of. rewrite observe_write. destruct mode; reflexivity.
Qed.

#[local] Abbreviation lag_member_frame m :=
  (m (keeps InterfaceModel.lag_member)
     (fun i v => InterfaceModel.lag_member v = InterfaceModel.lag_member i)
     (keeps_refl _) (keeps_trans _) (keeps_write _)) (only parsing).

(** X12.  After a physical-link row is processed, the z-side interface of a
    row that names a z-side LAG group is a member of that group, in the mode
    of the row or, when the row gives none, in the default mode; so is the
    a-side interface for the a-side group, unless the two ends are one
    interface and the z side names a group too; the LAG membership of every
    other interface is what it was. *)
Theorem lag_member_written default_lag_mode row s s' :
  load_physical_link default_lag_mode row s = (s', Ok tt) ->
  (forall group,
      PhysicalLink.z_lag_group (link row) = Some group ->
      lag_member_of s' (z_side (link row))
      = Some (lag_member_from default_lag_mode group (PhysicalLink.z_lag_mode (link row)))) /\
  (forall group,
      PhysicalLink.a_lag_group (link row) = Some group ->
      a_side (link row) <> z_side (link row) \/ PhysicalLink.z_lag_group (link row) = None ->
      lag_member_of s' (a_side (link row))
      = Some (lag_member_from default_lag_mode group (PhysicalLink.a_lag_mode (link row)))) /\
  (forall k,
      PhysicalLink.a_lag_group (link row) = None \/ k <> a_side (link row) ->
      PhysicalLink.z_lag_group (link row) = None \/ k <> z_side (link row) ->
      lag_member_of s' k = lag_member_of s k).
Proof.
  unfold load_physical_link. intros Hrun.
  apply bind_ok_inv in Hrun as (a_host & s0 & Hget & Hrun). apply get_host_ok in Hget as [-> ->].
  apply bind_ok_inv in Hrun as (a & s0 & Hget & Hrun). apply get_interface_ok in Hget as (-> & -> & _).
  apply bind_ok_inv in Hrun as (z_host & s0 & Hget & Hrun). apply get_host_ok in Hget as [-> ->].
  apply bind_ok_inv in Hrun as (z & s0 & Hget & Hrun). apply get_interface_ok in Hget as (-> & -> & _).
  apply bind_ok_inv in Hrun as ([] & s1 & Hwrite & Hrun).
  apply bind_ok_inv in Hrun as ([] & s2 & Hcdp & Hlag).
  assert (Hs2 : keeps InterfaceModel.lag_member s s2).
  { eapply keeps_trans.
    - eapply (lag_member_frame frame_write_neighbors); [| exact Hwrite]. reflexivity.
    - eapply (lag_member_frame frame_cdp_section); [| exact Hcdp]. reflexivity. }
  unfold lag_section in Hlag.
  apply bind_ok_inv in Hlag as (a_lag & s3 & Ha_lag & Hlag).
  apply bind_ok_inv in Hlag as (z_lag & s4 & Hz_lag & Hlag).
  assert (Hs' : keeps InterfaceModel.lag_member s4 s').
  { destruct a_lag as [a_lag|], z_lag as [z_lag|]; try (injection Hlag as <-; apply keeps_refl).
    eapply (lag_member_frame frame_write_neighbors
              (PhysicalLink.a_host (link row)) (PhysicalLink.z_host (link row)) a_lag z_lag);
      [| exact Hlag].
    reflexivity. }
  assert (Hfinal : forall k, lag_member_of s' k =
    match PhysicalLink.z_lag_group (link row) with
    | Some g =>
        if decide (z_side (link row) = k)
        then Some (lag_member_from default_lag_mode g (PhysicalLink.z_lag_mode (link row)))
        else match PhysicalLink.a_lag_group (link row) with
             | Some g' =>
                 if decide (a_side (link row) = k)
                 then Some (lag_member_from default_lag_mode g' (PhysicalLink.a_lag_mode (link row)))
                 else lag_member_of s k
             | None => lag_member_of s k
             end
    | None =>
        match PhysicalLink.a_lag_group (link row) with
        | Some g' =>
            if decide (a_side (link row) = k)
            then Some (lag_member_from default_lag_mode g' (PhysicalLink.a_lag_mode (link row)))
            else lag_member_of s k
        | None => lag_member_of s k
        end
    end).
  { intros k.
    assert (H2 : lag_member_of s2 k = lag_member_of s k) by apply Hs2.
    assert (H4 : lag_member_of s' k = lag_member_of s4 k) by apply Hs'.
    rewrite H4, (lag_side_lag_member _ _ _ _ _ _ _ _ k Hz_lag),
      (lag_side_lag_member _ _ _ _ _ _ _ _ k Ha_lag), H2.
    destruct (PhysicalLink.z_lag_group (link row)), (PhysicalLink.a_lag_group (link row));
      reflexivity. }
  split; [| split].
  - intros group Hgroup. rewrite Hfinal, Hgroup. case_decide; [reflexivity | contradiction].
  - intros group Hgroup Hapart. rewrite Hfinal, Hgroup.
    destruct (PhysicalLink.z_lag_group (link row)) as [gz|].
    + destruct Hapart as [Hne | Hnone]; [| discriminate].
      case_decide; [congruence |]. case_decide; [reflexivity | contradiction].
    + case_decide; [reflexivity | contradiction].
  - intros k Ha Hz. rewrite Hfinal.
    destruct (PhysicalLink.z_lag_group (link row)) as [gz|],
             (PhysicalLink.a_lag_group (link row)) as [ga|];
      repeat case_decide; try reflexivity;
      destruct Ha as [Ha | Ha]; destruct Hz as [Hz | Hz]; congruence.
Qed.

End PhysicalMore.


(** ** More on L3 links *)

Section RegistryKept.

Import ipaddress Pydantic L3InterfaceModels Inventory ExcelLoader Properties.

Lemma registry_kept_refl s : registry_kept s s.
Proof. repeat split. trivial. Qed.

Lemma registry_kept_trans s1 s2 s3 :
  registry_kept s1 s2 -> registry_kept s2 s3 -> registry_kept s1 s3.
Proof.
  intros (Hh & Ht & Ho) (Hh' & Ht' & Ho'). repeat split; [congruence.. |].
  intros l config Hl. apply Ho', Ho, Hl.
Qed.

Lemma registry_kept_write s k (i v : InterfaceModel.t) :
  interfaces s !! k = Some i -> True ->
  registry_kept s (set_interfaces (<[k := v]> (interfaces s)) s).
Proof. intros _ _. repeat split. trivial. Qed.

Lemma keeps_rest_registry s s' : keeps_rest s s' -> registry_kept s s'.
Proof. intros (Hh & Ht & Ho). repeat split; [assumption.. |]. intros l c. rewrite Ho. trivial. Qed.

(** A copy of a template is a new object: those on the heap stay. *)
Lemma clone_ospf_template_keeps_registry ospf_template :
  preserves registry_kept (clone_ospf_template ospf_template).
Proof.
  intros s s' r. unfold clone_ospf_template, bind, get, raise, lift, allocate.
  destruct ospf_template as [l|]; [| intros [= <- _]; apply registry_kept_refl].
  destruct (ospf_objects s !! l) as [config|]; [| intros [= <- _]; apply registry_kept_refl].
  destruct (InterfaceOspfConfig.clone config); intros [= <- _]; [| apply registry_kept_refl].
  repeat split. simpl. intros l' config' Hl'.
  rewrite lookup_insert_ne; [exact Hl' |].
  intros Heq. apply (fresh_object _ _ _ Hl'). symmetry. exact Heq.
Qed.

#[local] Abbreviation kept_frame m :=
  (m registry_kept (fun _ _ : InterfaceModel.t => True)
     registry_kept_refl registry_kept_trans registry_kept_write) (only parsing).

Lemma template_section_keeps_registry row a z :
  preserves registry_kept (template_section row a z).
Proof.
  unfold template_section.
  apply preserves_bind; [apply registry_kept_trans | |].
  - unfold ospf_template_section. destruct (ospf_template row) as [name|];
      [| apply preserves_ret, registry_kept_refl].
    apply preserves_bind;
      [apply registry_kept_trans | apply frame_templates_ospf, registry_kept_refl |].
    intros registry.
    apply preserves_bind;
      [apply registry_kept_trans | apply clone_ospf_template_keeps_registry |].
    intros a_copy.
    apply preserves_bind;
      [apply registry_kept_trans
      | apply (frame_on_l3_port registry_kept (fun _ _ => True)
                 registry_kept_refl registry_kept_write); trivial |].
    intros _.
    apply preserves_bind;
      [apply registry_kept_trans | apply clone_ospf_template_keeps_registry |].
    intros z_copy.
    apply (frame_on_l3_port registry_kept (fun _ _ => True)
             registry_kept_refl registry_kept_write); trivial.
  - intros _. apply (kept_frame frame_bfd_template_section); trivial.
Qed.

End RegistryKept.

Section TouchL3.

Import ipaddress Pydantic L3InterfaceModels Inventory ExcelLoader Properties.

Context `{Validators}.

Variable K : list (string * string).

Lemma touch_port_section link a z :
  In a K -> In z K -> preserves (untouched_outside K) (port_section link a z).
Proof.
  intros Ha Hz. unfold port_section. simpl.
  apply preserves_bind; [apply untouched_trans | |].
  - apply preserves_bind; [apply untouched_trans | apply touch_ensure_l3_port, Ha |]. intros _.
    apply preserves_bind; [apply untouched_trans | apply touch_ensure_l3_port, Hz |]. intros _.
    apply preserves_ret, untouched_refl.
  - intros _. apply preserves_bind; [apply untouched_trans | |]; [| intros _];
      (apply preserves_when; [apply untouched_refl |]; apply touch_on_l3_port; assumption).
Qed.

Lemma touch_addressing_section link a z :
  In a K -> In z K -> preserves (untouched_outside K) (addressing_section link a z).
Proof.
  intros Ha Hz. unfold addressing_section. simpl.
  apply preserves_bind; [apply untouched_trans | |].
  - apply preserves_when; [apply untouched_refl |].
    apply preserves_bind; [apply untouched_trans | apply touch_on_l3_port, Ha |]. intros _.
    apply preserves_bind; [apply untouched_trans | apply touch_on_l3_port, Hz |]. intros _.
    apply preserves_ret, untouched_refl.
  - intros _. destruct (both_addresses link) as [[a_address z_address]|].
    + apply preserves_bind; [apply untouched_trans | |]; [| intros _];
        apply touch_on_l3_port; assumption.
    + destruct (L3Link.ipv4_network link) as [net|]; [| apply preserves_ret, untouched_refl].
      apply preserves_bind; [apply untouched_trans | apply preserves_lift, untouched_refl |].
      intros first.
      apply preserves_bind; [apply untouched_trans | apply touch_on_l3_port, Ha |]. intros _.
      apply preserves_bind; [apply untouched_trans | apply preserves_lift, untouched_refl |].
      intros last. apply touch_on_l3_port, Hz.
Qed.

Lemma touch_clone_ospf_template ospf_template :
  preserves (untouched_outside K) (clone_ospf_template ospf_template).
Proof.
  apply touch_nothing. intros s. unfold clone_ospf_template, bind, get, raise, lift, allocate.
  destruct ospf_template as [l|]; [| reflexivity].
  destruct (ospf_objects s !! l) as [config|]; [| reflexivity].
  destruct (InterfaceOspfConfig.clone config); reflexivity.
Qed.

Lemma touch_templates_ospf : preserves (untouched_outside K) templates_ospf.
Proof.
  apply touch_nothing. intros s. unfold templates_ospf.
  destruct (templates s !! "ospf"); reflexivity.
Qed.

Lemma touch_template_section row a z :
  In a K -> In z K -> preserves (untouched_outside K) (template_section row a z).
Proof.
  intros Ha Hz. unfold template_section.
  apply preserves_bind; [apply untouched_trans | |].
  - unfold ospf_template_section. destruct (ospf_template row) as [name|];
      [| apply preserves_ret, untouched_refl].
    apply preserves_bind; [apply untouched_trans | apply touch_templates_ospf |].
    intros registry.
    apply preserves_bind; [apply untouched_trans | apply touch_clone_ospf_template |].
    intros a_copy.
    apply preserves_bind; [apply untouched_trans | apply touch_on_l3_port, Ha |]. intros _.
    apply preserves_bind; [apply untouched_trans | apply touch_clone_ospf_template |].
    intros z_copy. apply touch_on_l3_port, Hz.
  - intros _. unfold bfd_template_section. destruct (bfd_template row) as [name|];
      [| apply preserves_ret, untouched_refl].
    apply preserves_bind; [apply untouched_trans | apply touch_templates_ospf |]. intros _.
    apply preserves_bind; [apply untouched_trans | apply touch_on_l3_port, Ha |]. intros _.
    apply touch_on_l3_port, Hz.
Qed.

End TouchL3.

Section L3More.

Import ipaddress Pydantic L3InterfaceModels Inventory ExcelLoader Properties.

Context `{Validators}.

Lemma get_hosts_from_link_state link s s' r : get_hosts_from_link link s = (s', r) -> s' = s.
Proof.
  unfold get_hosts_from_link, bind, get_host, ret.
  destruct (hosts s !! _); [destruct (hosts s !! _) |]; intros [= <- _]; reflexivity.
Qed.

Lemma get_interfaces_from_link_state link s s' r :
  get_interfaces_from_link link s = (s', r) -> s' = s.
Proof.
  unfold get_interfaces_from_link, bind, get_interface, ret.
  destruct (interfaces s !! _); [destruct (interfaces s !! _) |]; intros [= <- _]; reflexivity.
Qed.

Lemma touch_link_section K row :
  In (a_end (l3_link row)) K -> In (z_end (l3_link row)) K ->
  preserves (untouched_outside K) (link_section row).
Proof.
  intros Ha Hz s s' r Hrun. unfold link_section in Hrun.
  apply bind_inv in Hrun as [(hs & s0 & Hget & Hrun) | (e & Hget & _)];
    [| apply get_hosts_from_link_state in Hget as ->; apply untouched_refl].
  apply get_hosts_from_link_ok in Hget as [-> ->].
  apply bind_inv in Hrun as [(ks & s0 & Hget & Hrun) | (e & Hget & _)];
    [| apply get_interfaces_from_link_state in Hget as ->; apply untouched_refl].
  apply get_interfaces_from_link_ok in Hget as [-> ->]. simpl in Hrun.
  revert s s' r Hrun.
  change (preserves (untouched_outside K)
            (bind (write_neighbors (L3Link.a_host (l3_link row)) (L3Link.z_host (l3_link row))
                     (a_end (l3_link row)) (z_end (l3_link row)))
               (fun _ => bind (port_section (l3_link row)
                                 (a_end (l3_link row)) (z_end (l3_link row)))
                  (fun _ => bind (addressing_section (l3_link row)
                                    (a_end (l3_link row)) (z_end (l3_link row)))
                     (fun _ => ret (a_end (l3_link row), z_end (l3_link row))))))).
  apply preserves_bind; [apply untouched_trans | apply touch_write_neighbors; assumption |].
  intros _.
  apply preserves_bind; [apply untouched_trans | apply touch_port_section; assumption |].
  intros _.
  apply preserves_bind; [apply untouched_trans | apply touch_addressing_section; assumption |].
  intros _. apply preserves_ret, untouched_refl.
Qed.

(** X13.  Whatever its outcome, an L3-link row changes no interface other
    than its two ends, no host and no entry of the template registry, and
    every OSPF object that was there keeps its value: the copies it makes of a
    template are new objects. *)
Theorem l3_link_touches_its_ends row s s' r :
  load_l3_link row s = (s', r) ->
  untouched_outside [a_end (l3_link row); z_end (l3_link row)] s s' /\
  registry_kept s s'.
Proof.
  intros Hrun. unfold load_l3_link in Hrun.
  set (K := [a_end (l3_link row); z_end (l3_link row)]).
  assert (Ha : In (a_end (l3_link row)) K) by (left; reflexivity).
  assert (Hz : In (z_end (l3_link row)) K) by (right; left; reflexivity).
  apply bind_inv in Hrun as [(refs & s1 & Hlink & Hrun) | (e & Hlink & _)].
  - pose proof (link_section_refs _ _ _ _ Hlink) as ->. simpl in Hrun. split.
    + eapply untouched_trans.
      * eapply touch_link_section; [exact Ha | exact Hz | exact Hlink].
      * eapply touch_template_section; [exact Ha | exact Hz | exact Hrun].
    + eapply registry_kept_trans.
      * apply keeps_rest_registry. eapply link_section_keeps_rest. exact Hlink.
      * eapply template_section_keeps_registry. exact Hrun.
  - split.
    + eapply touch_link_section; [exact Ha | exact Hz | exact Hlink].
    + apply keeps_rest_registry. eapply link_section_keeps_rest. exact Hlink.
Qed.

(** X14.  An L3-link row one of whose hosts or end interfaces is not in the
    inventory fails with the lookup failure and leaves the loader as it was:
    both hosts and both interfaces are looked up before the first write. *)
Theorem l3_link_unknown_entity row s :
  ~ l3_link_resolves s (l3_link row) ->
  exists name, load_l3_link row s = (s, Raise (UnknownEntity name)).
Proof.
  unfold l3_link_resolves, a_end, z_end. intros Hmissing.
  unfold load_l3_link, link_section.
  unfold bind at 1. unfold bind at 1. unfold get_hosts_from_link.
  unfold bind at 1. unfold get_host at 1.
  destruct (hosts s !! L3Link.a_host (l3_link row)) as [ha|] eqn:Hha; [| eauto].
  unfold bind at 1. unfold get_host at 1.
  destruct (hosts s !! L3Link.z_host (l3_link row)) as [hz|] eqn:Hhz; [| eauto].
  unfold ret at 1.
  unfold bind at 1. unfold get_interfaces_from_link.
  unfold bind at 1. unfold get_interface at 1.
  destruct (interfaces s !! (L3Link.a_host (l3_link row), L3Link.a_interface (l3_link row)))
    as [ia|] eqn:Hia; [| eauto].
  unfold bind at 1. unfold get_interface at 1.
  destruct (interfaces s !! (L3Link.z_host (l3_link row), L3Link.z_interface (l3_link row)))
    as [iz|] eqn:Hiz; [| eauto].
  exfalso. apply Hmissing. repeat split; eauto.
Qed.

(** *** What the steps of a row leave of the routed ports *)

Lemma ensure_ipv4_container_frame port port' r :
  ensure_ipv4_container port = (port', r) -> same_but_ipv4 port port'.
Proof.
  unfold ensure_ipv4_container, bind, get, when, lift, modify, same_but_ipv4.
  case_bool_decide as Hnone.
  - simpl. intros [= <- _]. simpl. rewrite Hnone. repeat split.
  - intros [= <- _]. repeat split.
Qed.

(** A field of the interface that depends on nothing of its routed port but
    what [same_but_ipv4] keeps is kept by the addressing of a row. *)
Lemma addressing_section_keeps {B} (field : InterfaceModel.t -> option B) link a z :
  (forall i port port',
      InterfaceModel.l3_port i = Some port -> same_but_ipv4 port port' ->
      field (InterfaceModel.set_l3_port (Some port') i) = field i) ->
  preserves (keeps field) (addressing_section link a z).
Proof.
  intros Hfield.
  assert (Hadd : forall k attr address,
    preserves (keeps field)
      (on_l3_port k attr (InterfaceRouteportModel.add_ipv4_address address))).
  { intros k attr address.
    apply (frame_on_l3_port (keeps field) (fun i v => field v = field i)
             (keeps_refl _) (keeps_write _)).
    intros i port port' r Hport Hrun. apply (Hfield i port port' Hport).
    eapply add_ipv4_address_frame. exact Hrun. }
  unfold addressing_section.
  apply preserves_bind; [apply keeps_trans | |].
  - apply preserves_when; [apply keeps_refl |].
    apply preserves_for_each; [apply keeps_refl | apply keeps_trans |]. intros k.
    apply (frame_on_l3_port (keeps field) (fun i v => field v = field i)
             (keeps_refl _) (keeps_write _)).
    intros i port port' r Hport Hrun. apply (Hfield i port port' Hport).
    eapply ensure_ipv4_container_frame. exact Hrun.
  - intros _. destruct (both_addresses link) as [[a_address z_address]|].
    + apply preserves_bind; [apply keeps_trans | apply Hadd |]. intros _. apply Hadd.
    + destruct (L3Link.ipv4_network link) as [net|]; [| apply preserves_ret, keeps_refl].
      apply preserves_bind; [apply keeps_trans | apply preserves_lift, keeps_refl |].
      intros first.
      apply preserves_bind; [apply keeps_trans | apply Hadd |]. intros _.
      apply preserves_bind; [apply keeps_trans | apply preserves_lift, keeps_refl |].
      intros last. apply Hadd.
Qed.

Lemma vrf_field_same i port port' :
  InterfaceModel.l3_port i = Some port ->
  InterfaceRouteportModel.vrf port' = InterfaceRouteportModel.vrf port ->
  vrf_field (InterfaceModel.set_l3_port (Some port') i) = vrf_field i.
Proof. unfold vrf_field. intros -> Hsame. simpl. exact Hsame. Qed.

Lemma bfd_field_same i port port' :
  InterfaceModel.l3_port i = Some port ->
  InterfaceRouteportModel.bfd port' = InterfaceRouteportModel.bfd port ->
  bfd_field (InterfaceModel.set_l3_port (Some port') i) = bfd_field i.
Proof. unfold bfd_field. intros -> Hsame. simpl. exact Hsame. Qed.

#[local] Abbreviation vrf_frame m :=
  (m (keeps vrf_field) (fun i v => vrf_field v = vrf_field i)
     (keeps_refl _) (keeps_trans _) (keeps_write _)) (only parsing).

#[local] Abbreviation bfd_frame m :=
  (m (keeps bfd_field) (fun i v => bfd_field v = bfd_field i)
     (keeps_refl _) (keeps_trans _) (keeps_write _)) (only parsing).

Lemma set_vrf_ok k attr v s s' :
  on_l3_port k attr (modify (InterfaceRouteportModel.set_vrf v)) s = (s', Ok tt) ->
  forall k', vrf_of s' k' = if decide (k = k') then v else vrf_of s k'.
Proof.
  intros Hrun. apply on_l3_port_modify_ok in Hrun as (i & port & Hk & Hport & ->).
  intros k'. unfold vrf_of. rewrite observe_write. reflexivity.
Qed.

Lemma set_bfd_ok k attr v s s' :
  on_l3_port k attr (modify (InterfaceRouteportModel.set_bfd v)) s = (s', Ok tt) ->
  forall k', bfd_of s' k' = if decide (k = k') then v else bfd_of s k'.
Proof.
  intros Hrun. apply on_l3_port_modify_ok in Hrun as (i & port & Hk & Hport & ->).
  intros k'. unfold bfd_of. rewrite observe_write. reflexivity.
Qed.

Lemma when_set_vrf_ok (b : bool) k attr v s s' :
  when b (on_l3_port k attr (modify (InterfaceRouteportModel.set_vrf v))) s = (s', Ok tt) ->
  forall k', vrf_of s' k' = if bool_decide (k' = k) && b then v else vrf_of s k'.
Proof.
  destruct b; simpl.
  - intros Hrun k'. rewrite (set_vrf_ok _ _ _ _ _ Hrun).
    rewrite andb_true_r. case_decide; case_bool_decide; congruence.
  - intros [= <-] k'. rewrite andb_false_r. reflexivity.
Qed.

(** X15.  The VRFs after an L3-link row that went through: an end whose VRF
    the row gives, and gives as something other than none or "global", has
    that VRF; every other interface has the VRF it had, so a row never clears
    a VRF. *)
Theorem l3_link_sets_vrfs row s s' :
  load_l3_link row s = (s', Ok tt) ->
  forall k, vrf_of s' k = vrf_from_link (l3_link row) (vrf_of s) k.
Proof.
  unfold load_l3_link, link_section. intros Hrun.
  apply bind_ok_inv in Hrun as (refs & s4 & Hlink & Htemplates).
  apply bind_ok_inv in Hlink as (hs & s0 & Hhosts & Hlink).
  apply get_hosts_from_link_ok in Hhosts as [-> ->].
  apply bind_ok_inv in Hlink as (ks & s0 & Hks & Hlink).
  apply get_interfaces_from_link_ok in Hks as [-> ->].
  apply bind_ok_inv in Hlink as ([] & s1 & Hwrite & Hlink).
  apply bind_ok_inv in Hlink as ([] & s2 & Hports & Hlink).
  apply bind_ok_inv in Hlink as ([] & s3 & Haddresses & Hret).
  injection Hret as <- <-. simpl in *.
  assert (H1 : keeps vrf_field s s1).
  { eapply (vrf_frame frame_write_neighbors); [| exact Hwrite]. reflexivity. }
  unfold port_section in Hports.
  apply bind_ok_inv in Hports as ([] & s1' & Hensure & Hports).
  assert (H1' : keeps vrf_field s1 s1').
  { revert Hensure. apply preserves_for_each; [apply keeps_refl | apply keeps_trans |].
    intros k. apply (frame_ensure_l3_port (keeps vrf_field) (fun i v => vrf_field v = vrf_field i)
                       (keeps_refl _) (keeps_write _)).
    intros i Hnone. unfold vrf_field. rewrite Hnone. reflexivity. }
  apply bind_ok_inv in Hports as ([] & s1a & Ha_vrf & Hz_vrf).
  pose proof (when_set_vrf_ok _ _ _ _ _ _ Ha_vrf) as Ha.
  pose proof (when_set_vrf_ok _ _ _ _ _ _ Hz_vrf) as Hz.
  assert (H3 : keeps vrf_field s2 s3).
  { eapply addressing_section_keeps; [| exact Haddresses].
    intros i port port' Hport (Hvrf & _). eapply vrf_field_same; eassumption. }
  assert (H4 : keeps vrf_field s3 s').
  { eapply (vrf_frame frame_template_section); [| | | exact Htemplates].
    - apply keeps_heap.
    - intros i port v Hport. eapply vrf_field_same; [exact Hport | reflexivity].
    - intros i port v Hport. eapply vrf_field_same; [exact Hport | reflexivity]. }
  intros k. unfold vrf_from_link.
  assert (E4 : vrf_of s' k = vrf_of s3 k) by apply H4.
  assert (E3 : vrf_of s3 k = vrf_of s2 k) by apply H3.
  assert (E1' : vrf_of s1' k = vrf_of s1 k) by apply H1'.
  assert (E1 : vrf_of s1 k = vrf_of s k) by apply H1.
  rewrite E4, E3, Hz, Ha, E1', E1. reflexivity.
Qed.

(** X16.  The BFD configs after an L3-link row that went through: when the
    row names a BFD template, both ends hold a BFD config with that template
    name and every other interface the one it had; when it names none, every
    interface holds the one it had. *)
Theorem l3_link_sets_bfd row s s' :
  load_l3_link row s = (s', Ok tt) ->
  forall k, bfd_of s' k = bfd_from_row row (bfd_of s) k.
Proof.
  unfold load_l3_link. intros Hrun.
  apply bind_ok_inv in Hrun as (refs & s1 & Hlink & Htemplates).
  pose proof (link_section_refs _ _ _ _ Hlink) as ->. simpl in Htemplates.
  assert (H1 : keeps bfd_field s s1).
  { revert Hlink. unfold link_section.
    apply preserves_bind; [apply keeps_trans | |].
    { apply frame_pure; [apply keeps_refl |]. intros s0.
      unfold get_hosts_from_link, bind, get_host, ret.
      destruct (hosts s0 !! _); [destruct (hosts s0 !! _) |]; reflexivity. }
    intros hs. apply preserves_bind; [apply keeps_trans | |].
    { apply frame_pure; [apply keeps_refl |]. intros s0.
      unfold get_interfaces_from_link, bind, get_interface, ret.
      destruct (interfaces s0 !! _); [destruct (interfaces s0 !! _) |]; reflexivity. }
    intros ks. apply preserves_bind; [apply keeps_trans | |].
    { apply (bfd_frame frame_write_neighbors). reflexivity. }
    intros _. apply preserves_bind; [apply keeps_trans | |].
    { apply (bfd_frame frame_port_section).
      - intros i Hnone. unfold bfd_field. rewrite Hnone. reflexivity.
      - intros i port v Hport. eapply bfd_field_same; [exact Hport | reflexivity]. }
    intros _. apply preserves_bind; [apply keeps_trans | |].
    { apply addressing_section_keeps.
      intros i port port' Hport (_ & _ & _ & Hbfd & _). eapply bfd_field_same; eassumption. }
    intros _. apply preserves_ret, keeps_refl. }
  unfold template_section in Htemplates.
  apply bind_ok_inv in Htemplates as ([] & s2 & Hospf & Hbfd).
  assert (H2 : keeps bfd_field s1 s2).
  { eapply (bfd_frame frame_ospf_template_section); [| | exact Hospf].
    - apply keeps_heap.
    - intros i port v Hport. eapply bfd_field_same; [exact Hport | reflexivity]. }
  intros k.
  assert (E2 : bfd_of s2 k = bfd_of s k).
  { transitivity (bfd_of s1 k); [apply H2 | apply H1]. }
  unfold bfd_from_row, bfd_template_section in *.
  destruct (bfd_template row) as [name|].
  - apply bind_ok_inv in Hbfd as (registry & s2' & Hregistry & Hbfd).
    unfold templates_ospf in Hregistry.
    destruct (templates s2 !! "ospf"); [| discriminate]. injection Hregistry as <- _.
    apply bind_ok_inv in Hbfd as ([] & s3 & Ha & Hz).
    rewrite (set_bfd_ok _ _ _ _ _ Hz), (set_bfd_ok _ _ _ _ _ Ha), E2.
    case_bool_decide as Hk; repeat case_decide; try reflexivity.
    + destruct Hk; congruence.
    + exfalso. apply Hk. right. congruence.
    + exfalso. apply Hk. left. congruence.
  - injection Hbfd as <-. exact E2.
Qed.

(** X17.  An L3-link row that names a BFD template fails when the loader
    has no registry of OSPF templates, even if the row names no OSPF
    template: the BFD part looks the registry of OSPF templates up.  When its
    link, ports and addresses went through, the row fails with the failure of
    that lookup, and no BFD config is written. *)
Theorem bfd_template_needs_ospf_registry row name s :
  bfd_template row = Some name -> templates s !! "ospf" = None ->
  (exists e, snd (load_l3_link row s) = Raise e) /\
  (forall s1 refs, link_section row s = (s1, Ok refs) ->
     load_l3_link row s = (s1, Raise (KeyError "ospf"))).
Proof.
  intros Hname Hnone. unfold load_l3_link.
  destruct (link_section row s) as [s1 [refs|e]] eqn:Hlink.
  - pose proof (link_section_keeps_rest row _ _ _ Hlink) as (_ & Htemplates & _).
    assert (Hrun : bind (link_section row)
                     (fun link_interfaces =>
                        template_section row (fst link_interfaces) (snd link_interfaces)) s
                   = (s1, Raise (KeyError "ospf"))).
    { rewrite (bind_run _ _ _ _ _ Hlink).
      unfold template_section, ospf_template_section, bfd_template_section.
      rewrite Hname.
      destruct (ospf_template row) as [ospf_name|];
        unfold bind, templates_ospf, ret; rewrite Htemplates, Hnone; reflexivity. }
    split.
    + rewrite Hrun. eauto.
    + intros s1' refs' [= <- <-]. exact Hrun.
  - split.
    + rewrite (bind_raise _ _ _ _ _ Hlink). eauto.
    + intros s1' refs' Hok. discriminate Hok.
Qed.

(** X18.  An L3-link row that gives the addresses of both ends, once
    processed: each address is among the addresses of its end as a plain
    (primary) member, whether or not the row gives a network as well, the two
    explicit addresses taking precedence over the network; when the two ends
    are two interfaces, each address is appended to what the interface held. *)
Theorem explicit_addresses_assigned row a_address z_address s s' :
  both_addresses (l3_link row) = Some (a_address, z_address) ->
  load_l3_link row s = (s', Ok tt) ->
  In (plain a_address) (addresses_of s' (a_end (l3_link row))) /\
  In (plain z_address) (addresses_of s' (z_end (l3_link row))) /\
  (a_end (l3_link row) <> z_end (l3_link row) ->
   addresses_of s' (a_end (l3_link row))
     = (addresses_of s (a_end (l3_link row)) ++ [plain a_address])%list /\
   addresses_of s' (z_end (l3_link row))
     = (addresses_of s (z_end (l3_link row)) ++ [plain z_address])%list).
Proof.
  unfold load_l3_link, link_section. intros Hpair Hrun.
  apply bind_ok_inv in Hrun as (refs & s4 & Hlink & Htemplates).
  apply bind_ok_inv in Hlink as (hs & s0 & Hhosts & Hlink).
  apply get_hosts_from_link_ok in Hhosts as [-> ->].
  apply bind_ok_inv in Hlink as (ks & s0 & Hks & Hlink).
  apply get_interfaces_from_link_ok in Hks as [-> ->].
  apply bind_ok_inv in Hlink as ([] & s1 & Hwrite & Hlink).
  apply bind_ok_inv in Hlink as ([] & s2 & Hports & Hlink).
  apply bind_ok_inv in Hlink as ([] & s3 & Haddresses & Hret).
  injection Hret as <- <-. simpl in *.
  set (a := a_end (l3_link row)) in *. set (z := z_end (l3_link row)) in *.
  assert (Hbefore : keeps addresses_field s s2).
  { eapply keeps_trans.
    - eapply (frame_write_neighbors (keeps addresses_field)
                (fun i v => addresses_field v = addresses_field i)
                (keeps_refl _) (keeps_trans _) (keeps_write _)); [| exact Hwrite]. reflexivity.
    - eapply (frame_port_section (keeps addresses_field)
                (fun i v => addresses_field v = addresses_field i)
                (keeps_refl _) (keeps_trans _) (keeps_write _)); [| | exact Hports].
      + apply addresses_field_new_port.
      + intros i port v Hport. eapply addresses_field_same_ipv4; [exact Hport | reflexivity]. }
  assert (Hafter : keeps addresses_field s3 s').
  { eapply (frame_template_section (keeps addresses_field)
              (fun i v => addresses_field v = addresses_field i)
              (keeps_refl _) (keeps_trans _) (keeps_write _)); [| | | exact Htemplates].
    - apply keeps_heap.
    - intros i port v Hport. eapply addresses_field_same_ipv4; [exact Hport | reflexivity].
    - intros i port v Hport. eapply addresses_field_same_ipv4; [exact Hport | reflexivity]. }
  unfold addressing_section in Haddresses. rewrite Hpair in Haddresses.
  apply bind_ok_inv in Haddresses as ([] & s2' & Hensure & Haddresses).
  assert (Hensured : keeps addresses_field s2 s2').
  { eapply ensure_containers_keep_addresses. exact Hensure. }
  apply bind_ok_inv in Haddresses as ([] & s2a & Hadd_a & Hadd_z).
  apply on_l3_port_add_ok in Hadd_a as (xa & Hxa & Ha_list & Ha_other).
  apply on_l3_port_add_ok in Hadd_z as (xz & Hxz & Hz_list & Hz_other).
  apply to_interface_address_plain in Hxa, Hxz.
  fold (plain a_address) in Hxa. fold (plain z_address) in Hxz. subst xa xz.
  assert (Hstart : forall k, addresses_of s2' k = addresses_of s k).
  { intros k. rewrite (keeps_addresses _ _ _ Hensured). apply keeps_addresses, Hbefore. }
  rewrite !(keeps_addresses _ _ _ Hafter).
  split; [| split].
  - destruct (decide (a = z)) as [Heq | Hne].
    + rewrite Heq, Hz_list, <- Heq, Ha_list.
      apply in_or_app. left. apply in_or_app. right. left. reflexivity.
    + rewrite Hz_other, Ha_list by exact Hne. apply in_or_app. right. left. reflexivity.
  - rewrite Hz_list. apply in_or_app. right. left. reflexivity.
  - intros Hne. split.
    + rewrite Hz_other, Ha_list, Hstart by exact Hne. reflexivity.
    + rewrite Hz_list, Ha_other, Hstart by congruence. reflexivity.
Qed.

End L3More.


(** ** Tables: a failing row *)

Section Tables.

Import ExcelLoader Properties.

Context {S A : Type}.

Lemma for_each_app_run (l1 l2 : list A) (body : A -> M S unit) s s1 :
  for_each l1 body s = (s1, Ok tt) -> for_each (l1 ++ l2) body s = for_each l2 body s1.
Proof.
  revert s. induction l1 as [|x l1 IH]; simpl; intros s.
  - intros [= <-]. reflexivity.
  - intros Hrun. apply bind_ok_inv in Hrun as ([] & s0 & Hx & Hrun).
    rewrite (bind_run _ _ _ _ _ Hx). apply IH, Hrun.
Qed.

Lemma for_each_abort (l1 l2 : list A) (body : A -> M S unit) x s s1 s2 e :
  for_each l1 body s = (s1, Ok tt) -> body x s1 = (s2, Raise e) ->
  for_each (l1 ++ x :: l2) body s = (s2, Raise e).
Proof.
  intros Hrun Hx. rewrite (for_each_app_run _ _ _ _ _ Hrun). simpl.
  apply bind_raise, Hx.
Qed.

End Tables.

(** ** The sheet of OSPF templates *)

Section TemplatesLoader.

Import ipaddress Pydantic L3InterfaceModels Inventory ExcelLoader Properties.


Lemma ospf_new_refused f :
  ~ process_and_area_coupled f ->
  exists errors,
    InterfaceOspfConfig.new
      (InterfaceOspfConfig.process_id f) (InterfaceOspfConfig.area f)
      (InterfaceOspfConfig.network_type f) (InterfaceOspfConfig.cost f)
      (InterfaceOspfConfig.priority f) (InterfaceOspfConfig.authentication f)
      (InterfaceOspfConfig.timers f) (InterfaceOspfConfig.bfd f)
    = Raise (ValidationError errors).
Proof.
  unfold InterfaceOspfConfig.new. destruct f as [p a nt co pr au ti b]. simpl. intros Hf.
  destruct (validate_ospf_config
              {| InterfaceOspfConfig.process_id := p; InterfaceOspfConfig.area := a;
                 InterfaceOspfConfig.network_type := nt; InterfaceOspfConfig.cost := co;
                 InterfaceOspfConfig.priority := pr; InterfaceOspfConfig.authentication := au;
                 InterfaceOspfConfig.timers := ti; InterfaceOspfConfig.bfd := b |})
    as [[Hc _] | [_ [errors ->]]]; [contradiction | eauto].
Qed.

(** The body of the loop of [load_ospf_templates]. *)
#[local] Abbreviation register :=
  (fun row : ospf_template_row =>
     bind (row_to_ospf_config row) (fun config =>
       modify (fun self =>
         set_templates
           (<["ospf" := <[template_name row := config]> (default ∅ (templates self !! "ospf"))]>
              (templates self)) self))) (only parsing).





(** X20.  A row of the sheet of OSPF templates that gives a process_id
    without an area, or an area without a process_id, stops the load with a
    validation error: the rows before it stay registered, the row itself and
    the rows after it are not. *)
Theorem ospf_template_row_refused rows row rest s s1 :
  ~ process_and_area_coupled (template_fields row) ->
  load_ospf_templates rows s = (s1, Ok tt) ->
  exists errors,
    load_ospf_templates (rows ++ row :: rest) s = (s1, Raise (ValidationError errors)).
Proof.
  intros Hrow Hrun. destruct (ospf_new_refused _ Hrow) as [errors Hnew].
  exists errors. unfold load_ospf_templates in *.
  apply bind_ok_inv in Hrun as (self & s0 & Hget & Hrun).
  rewrite (bind_run _ _ _ _ _ Hget).
  apply bind_ok_inv in Hrun as ([] & s0' & Hinit & Hrun).
  rewrite (bind_run _ _ _ _ _ Hinit).
  eapply for_each_abort; [exact Hrun |].
  unfold bind, row_to_ospf_config, bind, lift. rewrite Hnew. reflexivity.
Qed.

End TemplatesLoader.

(** ** BGP processes, neighbors and peer groups *)

Section BgpMore.

Import Inventory ExcelLoader Properties.

Lemma same_but_host_refl host s : same_but_host host s s.
Proof. repeat split. Qed.

Lemma same_but_host_trans host s1 s2 s3 :
  same_but_host host s1 s2 -> same_but_host host s2 s3 -> same_but_host host s1 s3.
Proof.
  intros (Hh & Hi & Ht & Ho) (Hh' & Hi' & Ht' & Ho'). repeat split; try congruence.
  intros h Hne. rewrite (Hh' h Hne). apply Hh, Hne.
Qed.

(** The host whose BGP process is [bgp]. *)
#[local] Abbreviation host_with bgp :=
  {| Host.config :=
       Some {| HostConfig.routing := Some {| RoutingConfig.bgp := Some bgp |} |} |}
  (only parsing).

Lemma bgp_of_write host h s host' :
  bgp_of (set_hosts (<[host := h]> (hosts s)) s) host'
  = if decide (host = host')
    then ((Host.config h ≫= HostConfig.routing) ≫= RoutingConfig.bgp)
    else bgp_of s host'.
Proof.
  unfold bgp_of. simpl. rewrite lookup_insert. case_decide; reflexivity.
Qed.

Lemma same_but_host_write host h s :
  same_but_host host s (set_hosts (<[host := h]> (hosts s)) s).
Proof. repeat split. intros h' Hne. simpl. apply lookup_insert_ne. congruence. Qed.

Lemma the_bgp_ok host attr s s' bgp :
  the_bgp host attr s = (s', Ok bgp) -> s' = s /\ bgp_of s host = Some bgp.
Proof.
  unfold the_bgp, bgp_of, bind, read_host, raise, ret.
  destruct (hosts s !! host) as [[[[[[[bgp'|]]|]]|]]|]; simpl; intros [= <- <-] || discriminate.
  split; reflexivity.
Qed.

Lemma the_bgp_run host attr s bgp :
  bgp_of s host = Some bgp -> the_bgp host attr s = (s, Ok bgp).
Proof.
  unfold the_bgp, bgp_of, bind, read_host, raise, ret.
  destruct (hosts s !! host) as [[[[[[[bgp'|]]|]]|]]|]; simpl; intros [= <-] || discriminate.
  reflexivity.
Qed.

Lemma set_bgp_run host attr bgp bgp' s :
  bgp_of s host = Some bgp ->
  set_bgp host attr bgp' s = (set_hosts (<[host := host_with bgp']> (hosts s)) s, Ok tt).
Proof.
  intros Hbgp. unfold set_bgp. rewrite (bind_run _ _ _ _ _ (the_bgp_run _ attr _ _ Hbgp)).
  reflexivity.
Qed.

(** A guarded write of the BGP process of a host that has one. *)
Lemma when_set_bgp_run (b : bool) host attr bgp bgp' s :
  bgp_of s host = Some bgp ->
  exists s',
    when b (set_bgp host attr bgp') s = (s', Ok tt) /\
    bgp_of s' host = Some (if b then bgp' else bgp) /\
    same_but_host host s s'.
Proof.
  intros Hbgp. destruct b; simpl.
  - rewrite (set_bgp_run _ _ _ _ _ Hbgp). eexists. split; [reflexivity |].
    split; [| apply same_but_host_write].
    rewrite bgp_of_write. case_decide; [reflexivity | contradiction].
  - exists s. split; [reflexivity |]. split; [exact Hbgp | apply same_but_host_refl].
Qed.

Lemma index_first_filter {A} (f : A -> bool) l :
  index_first (List.filter f l)
  = match List.find f l with Some x => Ok x | None => Raise IndexError end.
Proof.
  induction l as [|x l IH]; simpl; [reflexivity |].
  destruct (f x); [reflexivity | exact IH].
Qed.

Lemma bgp_has_host s host bgp : bgp_of s host = Some bgp -> is_Some (hosts s !! host).
Proof. unfold bgp_of. destruct (hosts s !! host); [eauto | discriminate]. Qed.

Lemma get_host_run s host : is_Some (hosts s !! host) -> get_host host s = (s, Ok host).
Proof. unfold get_host. intros [h ->]. reflexivity. Qed.

(** X21.  A BGP-router row gives its host a BGP process with the ASN of the
    row only if the host has none: a host that has a BGP process keeps it,
    ASN, neighbors and peer groups.  No other host and nothing else of the
    loader changes. *)
Theorem bgp_router_first_asn_wins row s s' :
  load_bgp_router row s = (s', Ok tt) ->
  bgp_of s' (router_host row)
  = Some (default (RoutingBgpProcess.new (router_asn row)) (bgp_of s (router_host row))) /\
  same_but_host (router_host row) s s'.
Proof.
  unfold load_bgp_router. intros Hrun.
  apply bind_ok_inv in Hrun as (host & s0 & Hget & Hrun). apply get_host_ok in Hget as [-> ->].
  apply bind_ok_inv in Hrun as (h & s0 & Hread & Hwrite).
  unfold read_host in Hread.
  destruct (hosts s !! router_host row) as [h0|] eqn:Hhost; [| discriminate].
  injection Hread as <- <-. injection Hwrite as <-.
  split; [| apply same_but_host_write].
  rewrite bgp_of_write. case_decide; [| contradiction].
  unfold bgp_of. rewrite Hhost. simpl.
  destruct (Host.config h0) as [[[[[bgp|]]|]]|]; reflexivity.
Qed.

(** X22.  A BGP-neighbor row that went through: its host had a BGP process,
    and has the same process with the neighbor appended to its neighbors and,
    when the neighbor names a peer group, the first peer group of that name
    appended to its peer groups, whether or not the host holds that group
    already.  No other host and nothing else of the loader changes. *)
Theorem bgp_neighbor_appended peer_groups row s s' :
  load_bgp_neighbor peer_groups row s = (s', Ok tt) ->
  exists bgp,
    bgp_of s (neighbor_host row) = Some bgp /\
    bgp_of s' (neighbor_host row)
    = Some (with_neighbor (neighbor row) (peer_group_for (neighbor row) peer_groups) bgp) /\
    (forall name, BgpNeighbor.peer_group (neighbor row) = Some name ->
                  is_Some (find_peer_group name peer_groups)) /\
    same_but_host (neighbor_host row) s s'.
Proof.
  unfold load_bgp_neighbor. intros Hrun.
  set (host := neighbor_host row) in *.
  apply bind_ok_inv in Hrun as (host' & s0 & Hget & Hrun). apply get_host_ok in Hget as [-> ->].
  apply bind_ok_inv in Hrun as (bgp & s0 & Hbgp & Hrun). apply the_bgp_ok in Hbgp as [-> Hbgp].
  exists bgp. split; [exact Hbgp |].
  apply bind_ok_inv in Hrun as ([] & s1 & Hinit & Hrun).
  destruct (when_set_bgp_run (bool_decide (RoutingBgpProcess.neighbors bgp = None)) host
              "neighbors" bgp (RoutingBgpProcess.set_neighbors (Some []) bgp) s Hbgp)
    as (s1' & Hinit' & Hbgp1 & Hsame1).
  rewrite Hinit in Hinit'. injection Hinit' as <-.
  apply bind_ok_inv in Hrun as ([] & s2 & Hgroup & Hrun).
  apply bind_ok_inv in Hrun as (bgp3 & s2' & Hbgp3 & Hset).
  apply the_bgp_ok in Hbgp3 as [-> Hbgp3].
  rewrite (set_bgp_run _ _ _ _ _ Hbgp3) in Hset. injection Hset as <-.
  unfold peer_group_for.
  destruct (BgpNeighbor.peer_group (neighbor row)) as [name|] eqn:Hname; simpl.
  - apply bind_ok_inv in Hgroup as (peer_group & s1' & Hfind & Hgroup).
    injection Hfind as <- Hfind. rewrite index_first_filter in Hfind.
    fold (find_peer_group name peer_groups) in Hfind.
    destruct (find_peer_group name peer_groups) as [group|] eqn:Hgroup_found; [| discriminate].
    injection Hfind as <-.
    apply bind_ok_inv in Hgroup as (bgp1 & s1' & Hread1 & Hgroup).
    apply the_bgp_ok in Hread1 as [-> Hread1].
    apply bind_ok_inv in Hgroup as ([] & s1a & Hinit_groups & Hgroup).
    destruct (when_set_bgp_run (bool_decide (RoutingBgpProcess.peer_groups bgp1 = None)) host
                "peer_groups" bgp1 (RoutingBgpProcess.set_peer_groups (Some []) bgp1) s1 Hread1)
      as (s1a' & Hinit_groups' & Hbgp1a & Hsame1a).
    rewrite Hinit_groups in Hinit_groups'. injection Hinit_groups' as <-.
    apply bind_ok_inv in Hgroup as (bgp2 & s1a' & Hread2 & Hset2).
    apply the_bgp_ok in Hread2 as [-> Hread2].
    rewrite (set_bgp_run _ _ _ _ _ Hread2) in Hset2. injection Hset2 as <-.
    rewrite bgp_of_write in Hbgp3. case_decide; [| contradiction].
    simpl in Hbgp3. injection Hbgp3 as <-.
    split; [| split].
    + rewrite bgp_of_write. case_decide; [| contradiction]. simpl. f_equal.
      assert (bgp2 = if bool_decide (RoutingBgpProcess.peer_groups bgp1 = None)
                     then RoutingBgpProcess.set_peer_groups (Some []) bgp1 else bgp1)
        by congruence.
      assert (bgp1 = if bool_decide (RoutingBgpProcess.neighbors bgp = None)
                     then RoutingBgpProcess.set_neighbors (Some []) bgp else bgp)
        by congruence.
      subst bgp2 bgp1. destruct bgp as [asn [ns|] [gs|]]; reflexivity.
    + intros name' [= <-]. eauto.
    + eapply same_but_host_trans; [exact Hsame1 |].
      eapply same_but_host_trans; [exact Hsame1a |].
      eapply same_but_host_trans; apply same_but_host_write.
  - injection Hgroup as <-.
    split; [| split].
    + rewrite bgp_of_write. case_decide; [| contradiction]. simpl. f_equal.
      assert (bgp3 = if bool_decide (RoutingBgpProcess.neighbors bgp = None)
                     then RoutingBgpProcess.set_neighbors (Some []) bgp else bgp)
        by congruence.
      subst bgp3. destruct bgp as [asn [ns|] [gs|]]; reflexivity.
    + intros name' Hname'. discriminate Hname'.
    + eapply same_but_host_trans; [exact Hsame1 | apply same_but_host_write].
Qed.

(** X23.  A BGP-neighbor row that names a peer group which the sheet of
    peer groups does not hold fails with an IndexError on a host that has a
    BGP process: the neighbor is not appended and no peer group is attached,
    but a missing list of neighbors has been made an empty list by then. *)
Theorem bgp_neighbor_unknown_peer_group peer_groups row name bgp s :
  bgp_of s (neighbor_host row) = Some bgp ->
  BgpNeighbor.peer_group (neighbor row) = Some name ->
  find_peer_group name peer_groups = None ->
  exists s',
    load_bgp_neighbor peer_groups row s = (s', Raise IndexError) /\
    bgp_of s' (neighbor_host row)
    = Some (RoutingBgpProcess.set_neighbors
              (Some (default [] (RoutingBgpProcess.neighbors bgp))) bgp) /\
    same_but_host (neighbor_host row) s s'.
Proof.
  intros Hbgp Hname Hfind. unfold load_bgp_neighbor.
  rewrite (bind_run _ _ _ _ _ (get_host_run _ _ (bgp_has_host _ _ _ Hbgp))).
  rewrite (bind_run _ _ _ _ _ (the_bgp_run _ "neighbors" _ _ Hbgp)).
  destruct (when_set_bgp_run (bool_decide (RoutingBgpProcess.neighbors bgp = None))
              (neighbor_host row) "neighbors" bgp
              (RoutingBgpProcess.set_neighbors (Some []) bgp) s Hbgp)
    as (s1 & Hinit & Hbgp1 & Hsame1).
  exists s1. rewrite (bind_run _ _ _ _ _ Hinit). rewrite Hname.
  split; [| split; [| exact Hsame1]].
  - unfold bind at 1. unfold bind at 1. unfold lift.
    rewrite index_first_filter. fold (find_peer_group name peer_groups). rewrite Hfind.
    reflexivity.
  - rewrite Hbgp1. f_equal. destruct bgp as [asn [ns|] gs]; reflexivity.
Qed.

End BgpMore.


(** ** Whole rows and whole sheets *)

Section Rows.

Import ipaddress Pydantic L3InterfaceModels Inventory ExcelLoader Properties.

Context `{Validators}.

(** A relation between the states of the loader that every write of an
    interface and every change of the heap of OSPF objects keeps. *)
Variable R : ExcelLoader.t -> ExcelLoader.t -> Prop.

Hypothesis R_refl : forall s, R s s.
Hypothesis R_trans : forall s1 s2 s3, R s1 s2 -> R s2 s3 -> R s1 s3.
Hypothesis R_write : forall s k (i v : InterfaceModel.t),
  interfaces s !! k = Some i -> True ->
  R s (set_interfaces (<[k := v]> (interfaces s)) s).
Hypothesis R_heap : forall s h, R s (set_ospf_objects h s).

#[local] Abbreviation row_frame m :=
  (m R (fun _ _ : InterfaceModel.t => True) R_refl R_trans R_write) (only parsing).

Lemma frame_read_interface k : preserves R (read_interface k).
Proof.
  apply frame_pure; [exact R_refl |]. intros s. unfold read_interface.
  destruct (interfaces s !! k); reflexivity.
Qed.

Lemma frame_load_physical_link default_lag_mode row :
  preserves R (load_physical_link default_lag_mode row).
Proof.
  unfold load_physical_link.
  apply preserves_bind; [exact R_trans | apply frame_get_host, R_refl |]. intros a_host.
  apply preserves_bind; [exact R_trans | apply frame_get_interface, R_refl |]. intros a.
  apply preserves_bind; [exact R_trans | apply frame_get_host, R_refl |]. intros z_host.
  apply preserves_bind; [exact R_trans | apply frame_get_interface, R_refl |]. intros z.
  apply preserves_bind; [exact R_trans | apply (row_frame frame_write_neighbors); trivial |].
  intros _.
  apply preserves_bind; [exact R_trans | apply (row_frame frame_cdp_section); trivial |].
  intros _. apply (row_frame frame_lag_section); trivial.
Qed.

Lemma frame_load_l3_link row : preserves R (load_l3_link row).
Proof.
  unfold load_l3_link, link_section.
  apply preserves_bind; [exact R_trans | |].
  - apply preserves_bind; [exact R_trans | |].
    { apply frame_pure; [exact R_refl |]. intros s.
      unfold get_hosts_from_link, bind, get_host, ret.
      destruct (hosts s !! _); [destruct (hosts s !! _) |]; reflexivity. }
    intros hs. apply preserves_bind; [exact R_trans | |].
    { apply frame_pure; [exact R_refl |]. intros s.
      unfold get_interfaces_from_link, bind, get_interface, ret.
      destruct (interfaces s !! _); [destruct (interfaces s !! _) |]; reflexivity. }
    intros ks.
    apply preserves_bind; [exact R_trans | apply (row_frame frame_write_neighbors); trivial |].
    intros _.
    apply preserves_bind; [exact R_trans | apply (row_frame frame_port_section); trivial |].
    intros _.
    apply preserves_bind;
      [exact R_trans | apply (row_frame frame_addressing_section); trivial |].
    intros _. apply preserves_ret, R_refl.
  - intros ks. apply (row_frame frame_template_section); trivial.
Qed.

Lemma frame_load_l3_port row : preserves R (load_l3_port row).
Proof.
  unfold load_l3_port.
  apply preserves_bind; [exact R_trans | apply frame_get_host, R_refl |]. intros host.
  apply preserves_bind; [exact R_trans | apply frame_get_interface, R_refl |]. intros k.
  apply preserves_bind;
    [exact R_trans
    | apply (frame_ensure_l3_port R (fun _ _ => True) R_refl R_write); trivial |].
  intros _.
  apply preserves_bind; [exact R_trans | apply frame_read_interface |]. intros i.
  apply preserves_bind; [exact R_trans | |].
  { apply preserves_when; [exact R_refl |].
    apply (frame_update_interface R (fun _ _ => True) R_refl R_write). trivial. }
  intros _. apply preserves_bind; [exact R_trans | |].
  { apply preserves_when; [exact R_refl |].
    apply (frame_on_l3_port R (fun _ _ => True) R_refl R_write). trivial. }
  intros _. destruct (port_ipv4_address row) as [address|]; [| apply preserves_ret, R_refl].
  apply (frame_on_l3_port R (fun _ _ => True) R_refl R_write). trivial.
Qed.

End Rows.

Section Names.

Import ipaddress Pydantic L3InterfaceModels Inventory ExcelLoader Properties.

Context `{Validators}.

Lemma same_names_refl s : same_names s s.
Proof. split; reflexivity. Qed.

Lemma same_names_trans s1 s2 s3 : same_names s1 s2 -> same_names s2 s3 -> same_names s1 s3.
Proof. intros [Hh Hi] [Hh' Hi']. split; congruence. Qed.

Lemma same_names_write s k (i v : InterfaceModel.t) :
  interfaces s !! k = Some i -> True ->
  same_names s (set_interfaces (<[k := v]> (interfaces s)) s).
Proof.
  intros Hk _. split; [reflexivity |]. simpl. apply dom_insert_lookup_L. eauto.
Qed.

Lemma same_names_heap s h : same_names s (set_ospf_objects h s).
Proof. split; reflexivity. Qed.

Lemma same_names_templates s v : same_names s (set_templates v s).
Proof. split; reflexivity. Qed.

Lemma same_names_write_host s host (h v : Host.t) :
  hosts s !! host = Some h -> same_names s (set_hosts (<[host := v]> (hosts s)) s).
Proof.
  intros Hhost. split; [| reflexivity]. simpl. apply dom_insert_lookup_L. eauto.
Qed.

Lemma frame_the_bgp host attr : preserves same_names (the_bgp host attr).
Proof.
  apply frame_pure; [exact same_names_refl |]. intros s.
  unfold the_bgp, bind, read_host, raise, ret.
  destruct (hosts s !! host) as [[[[[[[bgp|]]|]]|]]|]; reflexivity.
Qed.

Lemma set_bgp_keeps_names host attr bgp : preserves same_names (set_bgp host attr bgp).
Proof.
  intros s s' r. unfold set_bgp, the_bgp, bind, read_host, raise, ret, write_host, modify.
  destruct (hosts s !! host) as [[[[[[[bgp'|]]|]]|]]|] eqn:Hhost; simpl;
    intros [= <- _]; try apply same_names_refl.
  eapply same_names_write_host. exact Hhost.
Qed.

Lemma load_ospf_templates_keeps_names rows : preserves same_names (load_ospf_templates rows).
Proof.
  unfold load_ospf_templates.
  apply preserves_bind; [exact same_names_trans | apply preserves_get, same_names_refl |].
  intros self. apply preserves_bind; [exact same_names_trans | |].
  { apply preserves_when; [exact same_names_refl |].
    apply preserves_modify. intros s. apply same_names_templates. }
  intros _. apply preserves_for_each; [exact same_names_refl | exact same_names_trans |].
  intros row. apply preserves_bind; [exact same_names_trans | |].
  - unfold row_to_ospf_config.
    apply preserves_bind; [exact same_names_trans | apply preserves_lift, same_names_refl |].
    intros config s s' r [= <- _]. apply same_names_heap.
  - intros config. apply preserves_modify. intros s. apply same_names_templates.
Qed.

Lemma load_bgp_router_keeps_names row : preserves same_names (load_bgp_router row).
Proof.
  intros s s' r. unfold load_bgp_router, bind, get_host, read_host, write_host, modify.
  destruct (hosts s !! router_host row) as [h|] eqn:Hhost; [| intros [= <- _]; apply same_names_refl].
  rewrite Hhost. intros [= <- _]. eapply same_names_write_host. exact Hhost.
Qed.

Lemma load_bgp_neighbor_keeps_names peer_groups row :
  preserves same_names (load_bgp_neighbor peer_groups row).
Proof.
  unfold load_bgp_neighbor.
  apply preserves_bind;
    [exact same_names_trans | apply frame_get_host, same_names_refl |]. intros host.
  apply preserves_bind; [exact same_names_trans | apply frame_the_bgp |]. intros bgp.
  apply preserves_bind; [exact same_names_trans | |].
  { apply preserves_when; [exact same_names_refl | apply set_bgp_keeps_names]. }
  intros _. apply preserves_bind; [exact same_names_trans | |].
  { destruct (BgpNeighbor.peer_group (neighbor row)) as [name|];
      [| apply preserves_ret, same_names_refl].
    apply preserves_bind;
      [exact same_names_trans | apply preserves_lift, same_names_refl |]. intros peer_group.
    apply preserves_bind; [exact same_names_trans | apply frame_the_bgp |]. intros bgp1.
    apply preserves_bind; [exact same_names_trans | |].
    { apply preserves_when; [exact same_names_refl | apply set_bgp_keeps_names]. }
    intros _.
    apply preserves_bind; [exact same_names_trans | apply frame_the_bgp |]. intros bgp2.
    apply set_bgp_keeps_names. }
  intros _.
  apply preserves_bind; [exact same_names_trans | apply frame_the_bgp |]. intros bgp3.
  apply set_bgp_keeps_names.
Qed.

(** X24.  No sheet creates or removes a host or an interface, whatever its
    outcome: after the physical links, the OSPF templates, the L3 links, the
    L3 ports, the BGP routers or the BGP neighbors, the loader holds the
    hosts and the interfaces of the same names as before.  ([get_host] and
    [get_interface] of the base loader look up and create nothing.) *)
Theorem sheets_keep_hosts_and_interfaces :
  (forall default_lag_mode rows,
     preserves same_names (load_physical_links default_lag_mode rows)) /\
  (forall rows, preserves same_names (load_ospf_templates rows)) /\
  (forall rows, preserves same_names (load_l3_links rows)) /\
  (forall rows, preserves same_names (load_l3_ports rows)) /\
  (forall rows, preserves same_names (load_bgp_routers rows)) /\
  (forall peer_groups rows, preserves same_names (load_bgp_neighbors peer_groups rows)).
Proof.
  refine (conj _ (conj _ (conj _ (conj _ (conj _ _))))).
  - intros default_lag_mode rows.
    apply preserves_for_each; [exact same_names_refl | exact same_names_trans |]. intros row.
    apply (frame_load_physical_link same_names
             same_names_refl same_names_trans same_names_write).
  - apply load_ospf_templates_keeps_names.
  - intros rows.
    apply preserves_for_each; [exact same_names_refl | exact same_names_trans |]. intros row.
    apply (frame_load_l3_link same_names
             same_names_refl same_names_trans same_names_write same_names_heap).
  - intros rows.
    apply preserves_for_each; [exact same_names_refl | exact same_names_trans |]. intros row.
    apply (frame_load_l3_port same_names
             same_names_refl same_names_trans same_names_write).
  - intros rows.
    apply preserves_for_each; [exact same_names_refl | exact same_names_trans |].
    apply load_bgp_router_keeps_names.
  - intros peer_groups rows.
    apply preserves_for_each; [exact same_names_refl | exact same_names_trans |].
    apply load_bgp_neighbor_keeps_names.
Qed.


End Names.

(** ** The sheet of L3 ports *)

Section L3Ports.

Import ipaddress Pydantic L3InterfaceModels Inventory ExcelLoader Properties.

Context `{Validators}.

Lemma load_l3_port_steps row s s' :
  load_l3_port row s = (s', Ok tt) ->
  exists s1 i s2 s3,
    ensure_l3_port (port_end row) s = (s1, Ok tt) /\
    interfaces s1 !! port_end row = Some i /\
    when (bool_decide (InterfaceModel.description i = None)
          && bool_decide (is_Some (port_description row)))
      (update_interface (port_end row)
         (InterfaceModel.set_description (port_description row))) s1 = (s2, Ok tt) /\
    when (not_in_global_vrfs (port_vrf row))
      (on_l3_port (port_end row) "vrf"
         (modify (InterfaceRouteportModel.set_vrf (port_vrf row)))) s2 = (s3, Ok tt) /\
    match port_ipv4_address row with
    | Some address =>
        on_l3_port (port_end row) "add_ipv4_address"
          (InterfaceRouteportModel.add_ipv4_address (inr address))
    | None => ret tt
    end s3 = (s', Ok tt).
Proof.
  unfold load_l3_port. intros Hrun.
  apply bind_ok_inv in Hrun as (host & s0 & Hget & Hrun). apply get_host_ok in Hget as [-> ->].
  apply bind_ok_inv in Hrun as (k & s0 & Hget & Hrun).
  apply get_interface_ok in Hget as (-> & -> & _).
  apply bind_ok_inv in Hrun as ([] & s1 & Hensure & Hrun).
  apply bind_ok_inv in Hrun as (i & s1' & Hread & Hrun).
  unfold read_interface in Hread.
  destruct (interfaces s1 !! (port_host row, port_interface row)) as [i'|] eqn:Hi;
    [| discriminate].
  injection Hread as <- <-.
  apply bind_ok_inv in Hrun as ([] & s2 & Hdescription & Hrun).
  apply bind_ok_inv in Hrun as ([] & s3 & Hvrf & Haddress).
  exists s1, i', s2, s3. repeat split; assumption.
Qed.

Lemma description_frame_ensure k :
  preserves (keeps InterfaceModel.description) (ensure_l3_port k).
Proof.
  apply (frame_ensure_l3_port (keeps InterfaceModel.description)
           (fun i v => InterfaceModel.description v = InterfaceModel.description i)
           (keeps_refl _) (keeps_write _)).
  reflexivity.
Qed.

Lemma description_frame_on_l3_port {A} k attr (m : M InterfaceRouteportModel.t A) :
  preserves (keeps InterfaceModel.description) (on_l3_port k attr m).
Proof.
  apply (frame_on_l3_port (keeps InterfaceModel.description)
           (fun i v => InterfaceModel.description v = InterfaceModel.description i)
           (keeps_refl _) (keeps_write _)).
  reflexivity.
Qed.

Lemma when_set_description_ok (b : bool) k d s s' :
  when b (update_interface k (InterfaceModel.set_description d)) s = (s', Ok tt) ->
  (forall k', description_of s' k' = if bool_decide (k' = k) && b then d else description_of s k')
  /\ keeps vrf_field s s' /\ keeps addresses_field s s'.
Proof.
  destruct b; simpl.
  - intros Hrun. split; [| split].
    + apply update_interface_ok in Hrun as (i & Hk & ->). intros k'.
      unfold description_of. rewrite observe_write, andb_true_r.
      case_decide; case_bool_decide; simpl; congruence.
    + revert Hrun. apply (frame_update_interface (keeps vrf_field)
                            (fun i v => vrf_field v = vrf_field i) (keeps_refl _) (keeps_write _)).
      reflexivity.
    + revert Hrun. apply (frame_update_interface (keeps addresses_field)
                            (fun i v => addresses_field v = addresses_field i)
                            (keeps_refl _) (keeps_write _)).
      reflexivity.
  - intros [= <-]. split; [| split; apply keeps_refl].
    intros k'. rewrite andb_false_r. reflexivity.
Qed.

(** X26.  A row of the sheet of L3 ports that went through, on its
    interface: the description of the row is taken only if the interface had
    none; the VRF of the row is taken unless it is none or "global", in which
    case the interface keeps the VRF it had; the address of the row, if any,
    is appended as a plain (primary) address to those the interface held. *)
Theorem l3_port_row_applied row s s' :
  load_l3_port row s = (s', Ok tt) ->
  description_of s' (port_end row)
  = match description_of s (port_end row) with
    | Some description => Some description
    | None => port_description row
    end /\
  vrf_of s' (port_end row)
  = (if not_in_global_vrfs (port_vrf row) then port_vrf row else vrf_of s (port_end row)) /\
  addresses_of s' (port_end row)
  = (addresses_of s (port_end row)
       ++ match port_ipv4_address row with Some x => [plain x] | None => [] end)%list.
Proof.
  intros Hrun.
  apply load_l3_port_steps in Hrun as (s1 & i & s2 & s3 & Hensure & Hi & Hdesc & Hvrf & Haddr).
  set (k := port_end row) in *.
  (* the routed port *)
  assert (D1 : keeps InterfaceModel.description s s1)
    by (eapply description_frame_ensure; exact Hensure).
  assert (V1 : keeps vrf_field s s1).
  { revert Hensure. apply (frame_ensure_l3_port (keeps vrf_field)
                             (fun i v => vrf_field v = vrf_field i) (keeps_refl _) (keeps_write _)).
    intros i0 Hnone. unfold vrf_field. rewrite Hnone. reflexivity. }
  assert (A1 : keeps addresses_field s s1).
  { revert Hensure. apply (frame_ensure_l3_port (keeps addresses_field)
                             (fun i v => addresses_field v = addresses_field i)
                             (keeps_refl _) (keeps_write _)).
    apply addresses_field_new_port. }
  (* the description *)
  apply when_set_description_ok in Hdesc as (D2 & V2 & A2).
  (* the VRF *)
  assert (D3 : keeps InterfaceModel.description s2 s3).
  { revert Hvrf. apply preserves_when; [apply keeps_refl | apply description_frame_on_l3_port]. }
  assert (A3 : keeps addresses_field s2 s3).
  { revert Hvrf. apply preserves_when; [apply keeps_refl |].
    apply (frame_on_l3_port (keeps addresses_field)
             (fun i v => addresses_field v = addresses_field i) (keeps_refl _) (keeps_write _)).
    intros i0 port port' r Hport [= <- _].
    eapply addresses_field_same_ipv4; [exact Hport | reflexivity]. }
  pose proof (when_set_vrf_ok _ _ _ _ _ _ Hvrf) as V3.
  (* the address *)
  assert (D4 : keeps InterfaceModel.description s3 s').
  { revert Haddr. destruct (port_ipv4_address row);
      [apply description_frame_on_l3_port | apply preserves_ret, keeps_refl]. }
  assert (V4 : keeps vrf_field s3 s').
  { revert Haddr. destruct (port_ipv4_address row); [| apply preserves_ret, keeps_refl].
    apply (frame_on_l3_port (keeps vrf_field)
             (fun i v => vrf_field v = vrf_field i) (keeps_refl _) (keeps_write _)).
    intros i0 port port' r Hport Hadd.
    apply add_ipv4_address_frame in Hadd as (Hsame & _).
    eapply vrf_field_same; eassumption. }
  assert (Hdescription_i : description_of s1 k = InterfaceModel.description i).
  { unfold description_of, observe. rewrite Hi. reflexivity. }
  split; [| split].
  - assert (E4 : description_of s' k = description_of s3 k) by apply D4.
    assert (E3 : description_of s3 k = description_of s2 k) by apply D3.
    assert (E1 : description_of s1 k = description_of s k) by apply D1.
    rewrite E4, E3, D2, Hdescription_i, <- E1, Hdescription_i.
    rewrite (bool_decide_eq_true_2 (k = k) eq_refl).
    destruct (InterfaceModel.description i) as [d|]; simpl; [reflexivity |].
    destruct (port_description row) as [d|]; simpl; reflexivity.
  - assert (E4 : vrf_of s' k = vrf_of s3 k) by apply V4.
    assert (E2 : vrf_of s2 k = vrf_of s1 k) by apply V2.
    assert (E1 : vrf_of s1 k = vrf_of s k) by apply V1.
    rewrite E4, V3, E2, E1, (bool_decide_eq_true_2 (k = k) eq_refl). reflexivity.
  - assert (Hstart : addresses_of s3 k = addresses_of s k).
    { rewrite (keeps_addresses _ _ _ A3), (keeps_addresses _ _ _ A2).
      apply keeps_addresses, A1. }
    destruct (port_ipv4_address row) as [x|].
    + apply on_l3_port_add_ok in Haddr as (a & Ha & Hlist & _).
      apply to_interface_address_plain in Ha. fold (plain x) in Ha. subst a.
      rewrite Hlist, Hstart. reflexivity.
    + injection Haddr as <-. rewrite Hstart, app_nil_r. reflexivity.
Qed.

(** *** A second address for the same interface *)







(** X28.  Whatever its outcome, a row of the sheet of L3 ports changes no
    interface but its own, and nothing of the hosts, the templates or the OSPF
    objects; a row whose host or interface is not in the inventory fails with
    the lookup failure and changes nothing at all. *)
Theorem l3_port_touches_its_interface row s s' r :
  load_l3_port row s = (s', r) ->
  untouched_outside [port_end row] s s' /\ keeps_rest s s' /\
  (~ (is_Some (hosts s !! port_host row) /\ is_Some (interfaces s !! port_end row)) ->
   s' = s /\ exists name, r = Raise (UnknownEntity name)).
Proof.
  intros Hrun. split; [| split].
  - assert (Hk : In (port_end row) [port_end row]) by (left; reflexivity).
    unfold load_l3_port in Hrun.
    apply bind_inv in Hrun as [(host & s0 & Hget & Hrun) | (e & Hget & _)];
      [| apply get_host_state in Hget as ->; apply untouched_refl].
    apply get_host_ok in Hget as [-> ->].
    apply bind_inv in Hrun as [(k & s0 & Hget & Hrun) | (e & Hget & _)];
      [| apply get_interface_state in Hget as ->; apply untouched_refl].
    apply get_interface_ok in Hget as (-> & -> & _).
    fold (port_end row) in Hrun. revert s s' r Hrun.
    apply preserves_bind; [apply untouched_trans | apply touch_ensure_l3_port, Hk |].
    intros _. apply preserves_bind; [apply untouched_trans | |].
    { apply touch_nothing. intros s. unfold read_interface.
      destruct (interfaces s !! port_end row); reflexivity. }
    intros i. apply preserves_bind; [apply untouched_trans | |].
    { apply preserves_when; [apply untouched_refl | apply touch_update_interface, Hk]. }
    intros _. apply preserves_bind; [apply untouched_trans | |].
    { apply preserves_when; [apply untouched_refl | apply touch_on_l3_port, Hk]. }
    intros _. destruct (port_ipv4_address row);
      [apply touch_on_l3_port, Hk | apply preserves_ret, untouched_refl].
  - eapply (frame_load_l3_port keeps_rest keeps_rest_refl keeps_rest_trans keeps_rest_write).
    exact Hrun.
  - intros Hmissing. unfold load_l3_port, port_end in *.
    unfold bind at 1 in Hrun. unfold get_host at 1 in Hrun.
    destruct (hosts s !! port_host row) as [h|] eqn:Hh;
      [| injection Hrun as <- <-; eauto].
    unfold bind at 1 in Hrun. unfold get_interface at 1 in Hrun.
    destruct (interfaces s !! (port_host row, port_interface row)) as [i|] eqn:Hi;
      [| injection Hrun as <- <-; eauto].
    exfalso. apply Hmissing. split; eauto.
Qed.

End L3Ports.


(** ** The properties above on concrete inventories and rows *)

Section ModelExamples.

Import ipaddress Pydantic L3InterfaceModels Properties Examples.
Import InterfaceIPv4Container.

Lemma container_validation_order_independent_witness :
  is_ok (new (Some [interface_address 10 0 0 1 24 None;
                    interface_address 10 0 1 1 24 (Some true)]) None None)
  = is_ok (new (Some [interface_address 10 0 1 1 24 (Some true);
                      interface_address 10 0 0 1 24 None]) None None).
Proof.
  apply container_validation_order_independent. apply perm_swap.
Defined.

Lemma container_ips_distinct_witness :
  List.NoDup (map ip_of [interface_address 10 0 0 1 24 None;
                         interface_address 10 0 1 1 24 (Some true)]).
Proof.
  eapply (container_ips_distinct _ None None). vm_compute. reflexivity.
Defined.

Lemma overlap_failure_names_members_witness :
  exists l a o,
    addresses container_with_overlap = Some l /\ In a l /\ In o l /\
    Overlaps (dotted 10 0 0 2, 24%N) (dotted 10 0 0 1, 24%N) = Overlaps (show o) (show a) /\
    in_network_of (ip_of a) o.
Proof.
  apply (overlap_failure_names_members container_with_overlap). vm_compute. reflexivity.
Defined.

Lemma second_plain_address_refused_witness :
  exists errors,
    snd (InterfaceRouteportModel.add_ipv4_address (H := any_address_assignable)
           (inr interface_10_0_1_1_24) port_with_primary)
    = Raise (ValidationError errors) /\
    In MultiplePrimary errors /\
    address_list
      (fst (InterfaceRouteportModel.add_ipv4_address (H := any_address_assignable)
              (inr interface_10_0_1_1_24) port_with_primary))
    = (address_list port_with_primary
         ++ [{| InterfaceIPv4Address.address := interface_10_0_1_1_24;
                InterfaceIPv4Address.secondary := None |}])%list.
Proof.
  apply (second_plain_address_refused (H := any_address_assignable)).
  - reflexivity.
  - exists (interface_address 10 0 0 1 24 None). split; [left; reflexivity | reflexivity].
Defined.

Lemma unassignable_address_not_appended_witness :
  InterfaceRouteportModel.add_ipv4_address (H := host_addresses_assignable)
    (inr interface_10_0_0_0_24) port_with_primary
  = (with_address_list port_with_primary (address_list port_with_primary),
     Raise (ValidationError [NotAssignable])).
Proof.
  apply (unassignable_address_not_appended (H := host_addresses_assignable)).
  vm_compute. reflexivity.
Defined.

End ModelExamples.

Section PhysicalExamples.

Import ipaddress L3InterfaceModels Inventory ExcelLoader Properties Examples.

Lemma physical_link_touches_its_interfaces_witness :
  untouched_outside
    ([a_side (link physical_row_with_lags); z_side (link physical_row_with_lags)]
       ++ lag_interfaces (link physical_row_with_lags))
    two_routers (fst (load_physical_link "active" physical_row_with_lags two_routers)) /\
  keeps_rest two_routers (fst (load_physical_link "active" physical_row_with_lags two_routers)).
Proof.
  apply (physical_link_touches_its_interfaces "active" physical_row_with_lags two_routers _
           (snd (load_physical_link "active" physical_row_with_lags two_routers))).
  apply surjective_pairing.
Defined.

Lemma physical_link_unknown_entity_witness :
  exists name,
    load_physical_link "active" physical_row_to_unknown_host two_routers
    = (two_routers, Raise (UnknownEntity name)).
Proof.
  apply physical_link_unknown_entity.
  intros (_ & [h Hh] & _). vm_compute in Hh. discriminate Hh.
Defined.

Lemma port_channel_neighbors_matched_witness :
  neighbors_matched (fst (load_physical_link "active" physical_row_with_lags two_routers))
    ("R1", port_channel 1) ("R2", port_channel 2).
Proof.
  apply (port_channel_neighbors_matched "active" physical_row_with_lags 1 2 two_routers).
  - reflexivity.
  - reflexivity.
  - vm_compute. reflexivity.
Defined.

Lemma lag_member_written_witness :
  lag_member_of (fst (load_physical_link "active" physical_row_with_lags two_routers))
    ("R2", "Gi0/0")
  = Some (lag_member_from "active" 2 None).
Proof.
  refine (proj1 (lag_member_written "active" physical_row_with_lags two_routers
                   (fst (load_physical_link "active" physical_row_with_lags two_routers)) _)
            2%Z _).
  - vm_compute. reflexivity.
  - reflexivity.
Defined.

End PhysicalExamples.

Section L3Examples.

Import ipaddress L3InterfaceModels Inventory ExcelLoader Properties Examples.

Lemma l3_link_touches_its_ends_witness :
  untouched_outside
    [a_end (l3_link (l3_row_with_template "P2P")); z_end (l3_link (l3_row_with_template "P2P"))]
    routers_with_template
    (fst (load_l3_link (H := any_address_assignable)
            (l3_row_with_template "P2P") routers_with_template)) /\
  registry_kept routers_with_template
    (fst (load_l3_link (H := any_address_assignable)
            (l3_row_with_template "P2P") routers_with_template)).
Proof.
  apply (l3_link_touches_its_ends (H := any_address_assignable)
           (l3_row_with_template "P2P") routers_with_template _
           (snd (load_l3_link (H := any_address_assignable)
                   (l3_row_with_template "P2P") routers_with_template))).
  apply surjective_pairing.
Defined.

Lemma l3_link_unknown_entity_witness :
  exists name,
    load_l3_link (H := any_address_assignable) l3_row_to_unknown_interface two_routers
    = (two_routers, Raise (UnknownEntity name)).
Proof.
  apply (l3_link_unknown_entity (H := any_address_assignable)).
  intros (_ & _ & _ & [i Hi]). vm_compute in Hi. discriminate Hi.
Defined.

Lemma l3_link_sets_vrfs_witness :
  vrf_of (fst (load_l3_link (H := any_address_assignable) l3_row_with_addresses two_routers))
    ("R1", "Gi0/0")
  = vrf_from_link (l3_link l3_row_with_addresses) (vrf_of two_routers) ("R1", "Gi0/0").
Proof.
  apply (l3_link_sets_vrfs (H := any_address_assignable)). vm_compute. reflexivity.
Defined.

Lemma l3_link_sets_bfd_witness :
  bfd_of (fst (load_l3_link (H := any_address_assignable)
                 (l3_row_with_bfd "BFD-FAST") routers_with_template)) ("R2", "Gi0/0")
  = bfd_from_row (l3_row_with_bfd "BFD-FAST") (bfd_of routers_with_template) ("R2", "Gi0/0").
Proof.
  apply (l3_link_sets_bfd (H := any_address_assignable)). vm_compute. reflexivity.
Defined.

Lemma bfd_template_needs_ospf_registry_witness :
  (exists e,
      snd (load_l3_link (H := any_address_assignable)
             (l3_row_with_bfd "BFD-FAST") two_routers) = Raise e) /\
  load_l3_link (H := any_address_assignable) (l3_row_with_bfd "BFD-FAST") two_routers
  = (fst (link_section (H := any_address_assignable) (l3_row_with_bfd "BFD-FAST") two_routers),
     Raise (KeyError "ospf")).
Proof.
  pose proof (bfd_template_needs_ospf_registry (H := any_address_assignable)
                (l3_row_with_bfd "BFD-FAST") "BFD-FAST" two_routers
                eq_refl eq_refl) as [Hfails Hstep].
  split; [exact Hfails |].
  apply (Hstep _ (("R1", "Gi0/0"), ("R2", "Gi0/0"))).
  vm_compute. reflexivity.
Defined.

Lemma explicit_addresses_assigned_witness :
  In (plain interface_10_0_0_1_30)
    (addresses_of
       (fst (load_l3_link (H := any_address_assignable) l3_row_with_addresses two_routers))
       ("R1", "Gi0/0")) /\
  In (plain interface_10_0_0_2_30)
    (addresses_of
       (fst (load_l3_link (H := any_address_assignable) l3_row_with_addresses two_routers))
       ("R2", "Gi0/0")) /\
  (("R1", "Gi0/0") <> ("R2", "Gi0/0") ->
   addresses_of
     (fst (load_l3_link (H := any_address_assignable) l3_row_with_addresses two_routers))
     ("R1", "Gi0/0")
   = (addresses_of two_routers ("R1", "Gi0/0") ++ [plain interface_10_0_0_1_30])%list /\
   addresses_of
     (fst (load_l3_link (H := any_address_assignable) l3_row_with_addresses two_routers))
     ("R2", "Gi0/0")
   = (addresses_of two_routers ("R2", "Gi0/0") ++ [plain interface_10_0_0_2_30])%list).
Proof.
  refine (explicit_addresses_assigned (H := any_address_assignable)
            l3_row_with_addresses interface_10_0_0_1_30 interface_10_0_0_2_30 two_routers
            _ _ _).
  - reflexivity.
  - vm_compute. reflexivity.
Defined.


(** The row with both addresses and a /32 network gives each end its own
    address and not the address of the network; R1 Gi0/0 is in VRF "BLUE"
    and R2 Gi0/0, whose VRF is given as "global", is in none. *)
Example explicit_addresses_before_network :
  let st := fst (load_l3_link (H := any_address_assignable) l3_row_with_addresses two_routers) in
  addresses_of st ("R1", "Gi0/0") = [interface_address 10 0 0 1 30 None] /\
  addresses_of st ("R2", "Gi0/0") = [interface_address 10 0 0 2 30 None] /\
  vrf_of st ("R1", "Gi0/0") = Some "BLUE" /\
  vrf_of st ("R2", "Gi0/0") = None.
Proof. vm_compute. repeat split. Qed.

End L3Examples.

Section SheetExamples.

Import ipaddress L3InterfaceModels Inventory ExcelLoader Properties Examples.



Lemma ospf_template_row_refused_witness :
  exists errors,
    load_ospf_templates ([p2p_template_row] ++ template_row_without_process :: [p2p_template_row])
      two_routers
    = (routers_with_template, Raise (ValidationError errors)).
Proof.
  apply ospf_template_row_refused.
  - intros [_ Harea]. destruct Harea as [p Hp]; [eexists; reflexivity | discriminate Hp].
  - vm_compute. reflexivity.
Defined.

Lemma bgp_router_first_asn_wins_witness :
  bgp_of (fst (load_bgp_router (r1_router_row 65002) routers_with_bgp)) "R1"
  = Some (default (RoutingBgpProcess.new 65002) (bgp_of routers_with_bgp "R1")) /\
  same_but_host "R1" routers_with_bgp (fst (load_bgp_router (r1_router_row 65002) routers_with_bgp)).
Proof.
  apply (bgp_router_first_asn_wins (r1_router_row 65002) routers_with_bgp).
  vm_compute. reflexivity.
Defined.

(** A second router row for R1 leaves it in AS 65001. *)
Example second_router_row_keeps_asn :
  (bgp_of (fst (load_bgp_router (r1_router_row 65002) routers_with_bgp)) "R1"
     ≫= (fun bgp => Some (RoutingBgpProcess.asn bgp)))
  = Some 65001%Z.
Proof. vm_compute. reflexivity. Qed.

Lemma bgp_neighbor_appended_witness :
  exists bgp,
    bgp_of routers_with_bgp "R1" = Some bgp /\
    bgp_of (fst (load_bgp_neighbor [rr_client_group] rr_client_neighbor_row routers_with_bgp)) "R1"
    = Some (with_neighbor (neighbor rr_client_neighbor_row)
              (peer_group_for (neighbor rr_client_neighbor_row) [rr_client_group]) bgp) /\
    (forall name, BgpNeighbor.peer_group (neighbor rr_client_neighbor_row) = Some name ->
                  is_Some (find_peer_group name [rr_client_group])) /\
    same_but_host "R1" routers_with_bgp
      (fst (load_bgp_neighbor [rr_client_group] rr_client_neighbor_row routers_with_bgp)).
Proof.
  apply (bgp_neighbor_appended [rr_client_group] rr_client_neighbor_row routers_with_bgp).
  vm_compute. reflexivity.
Defined.

Lemma bgp_neighbor_unknown_peer_group_witness :
  exists s',
    load_bgp_neighbor [] rr_client_neighbor_row routers_with_bgp = (s', Raise IndexError) /\
    bgp_of s' "R1"
    = Some (RoutingBgpProcess.set_neighbors
              (Some (default [] (RoutingBgpProcess.neighbors (RoutingBgpProcess.new 65001))))
              (RoutingBgpProcess.new 65001)) /\
    same_but_host "R1" routers_with_bgp s'.
Proof.
  apply (bgp_neighbor_unknown_peer_group [] rr_client_neighbor_row "RR-CLIENT"
           (RoutingBgpProcess.new 65001) routers_with_bgp).
  - vm_compute. reflexivity.
  - reflexivity.
  - reflexivity.
Defined.

Lemma l3_port_row_applied_witness :
  description_of
    (fst (load_l3_port (H := any_address_assignable)
            (r1_port_row (Some "uplink") (Some "BLUE") (Some interface_10_0_0_1_30)) two_routers))
    ("R1", "Gi0/0")
  = match description_of two_routers ("R1", "Gi0/0") with
    | Some description => Some description
    | None => Some "uplink"
    end /\
  vrf_of
    (fst (load_l3_port (H := any_address_assignable)
            (r1_port_row (Some "uplink") (Some "BLUE") (Some interface_10_0_0_1_30)) two_routers))
    ("R1", "Gi0/0")
  = (if not_in_global_vrfs (Some "BLUE") then Some "BLUE"
     else vrf_of two_routers ("R1", "Gi0/0")) /\
  addresses_of
    (fst (load_l3_port (H := any_address_assignable)
            (r1_port_row (Some "uplink") (Some "BLUE") (Some interface_10_0_0_1_30)) two_routers))
    ("R1", "Gi0/0")
  = (addresses_of two_routers ("R1", "Gi0/0") ++ [plain interface_10_0_0_1_30])%list.
Proof.
  apply (l3_port_row_applied (H := any_address_assignable)
           (r1_port_row (Some "uplink") (Some "BLUE") (Some interface_10_0_0_1_30)) two_routers).
  vm_compute. reflexivity.
Defined.


Lemma l3_port_touches_its_interface_witness :
  untouched_outside [("R1", "Gi0/0")] two_routers
    (fst (load_l3_port (H := any_address_assignable)
            (r1_port_row None (Some "BLUE") None) two_routers)) /\
  keeps_rest two_routers
    (fst (load_l3_port (H := any_address_assignable)
            (r1_port_row None (Some "BLUE") None) two_routers)).
Proof.
  destruct (l3_port_touches_its_interface (H := any_address_assignable)
              (r1_port_row None (Some "BLUE") None) two_routers
              (fst (load_l3_port (H := any_address_assignable)
                      (r1_port_row None (Some "BLUE") None) two_routers))
              (snd (load_l3_port (H := any_address_assignable)
                      (r1_port_row None (Some "BLUE") None) two_routers))
              (surjective_pairing _)) as (Huntouched & Hrest & _).
  split; [exact Huntouched | exact Hrest].
Defined.

End SheetExamples.
